(** * go-standards-checker: the rule evaluation core and its report

    A shallow embedding of the three Go packages of the checker
    ([rules], [report], [checker]) and the properties of the report
    store, of the structural rules and of the pattern rules, of the
    walk that collects the files, of the text form of a report and of
    a run as a whole.

    Go packages become modules of the same name.  Go [int] is a 64-bit
    two's complement integer, embedded in [Z] with the wrap-around written
    out.  Go [string] is a byte string; [map[string]int] is a [gmap].
    Library code that is not part of the repository (the [sort],
    [regexp], [unicode] and [path/filepath] packages, the parser and the
    file system) is taken through interfaces that state the documented
    contract, each with an executable instance. *)

From Stdlib Require Import ZArith List Sorting.Sorted Sorting.Permutation.
From Stdlib Require Import Strings.String Strings.Ascii Structures.OrderedTypeEx.
From stdpp Require Import base option list gmap strings sorting pretty.

Set Warnings "-register-all".

Open Scope string_scope.
Open Scope Z_scope.
Open Scope list_scope.

(** ** Go primitives *)

Module Go.

Definition int : Type := Z.

Definition minInt : Z := - 2 ^ 63.
Definition maxInt : Z := 2 ^ 63 - 1.

(** Two's complement wrap-around of a 64-bit signed integer. *)
Definition wrap (z : Z) : int := (z + 2 ^ 63) mod 2 ^ 64 - 2 ^ 63.

Definition add (a b : int) : int := wrap (a + b).
Definition sub (a b : int) : int := wrap (a - b).

(** [len] of a slice; a slice never has more than [maxInt] elements. *)
Definition len {A : Type} (l : list A) : int := Z.of_nat (length l).

(** [m[k]] on a [map[string]int]: the zero value when the key is absent. *)
Definition index (m : gmap string Z) (k : string) : int := default 0 (m !! k).

(** [m[k]++] *)
Definition incr (m : gmap string Z) (k : string) : gmap string Z :=
  <[k := add (index m k) 1]> m.

(** [strings.HasPrefix] and [strings.HasSuffix] *)
Definition HasPrefix (s p : string) : bool := String.prefix p s.

Definition HasSuffix (s p : string) : bool :=
  String.prefix (String.rev p) (String.rev s).

(** [strings.Contains] *)
Fixpoint Contains (s sub : string) : bool :=
  String.prefix sub s ||
  match s with
  | EmptyString => false
  | String _ s' => Contains s' sub
  end.

(** The decimal rendering of [%d]. *)
Definition itoa (z : int) : string := pretty z.

End Go.

(** ** Package [sort]: the contract of [sort.Slice]

    [sort.Slice(x, less)] sorts [x] in place.  Its documentation promises
    a sorted permutation when [less] is a strict weak order, and states
    that the sort is not guaranteed to be stable. *)

Module sort.

(** [less] is a strict weak order: asymmetric and negatively transitive. *)
Record StrictWeakOrder {A : Type} (less : A -> A -> bool) : Prop := {
  swo_asym : forall a b, less a b = true -> less b a = false;
  swo_cotrans : forall a b c, less a b = true -> less a c = true \/ less c b = true
}.

(** No element is [less] than one that precedes it. *)
Definition SortedBy {A : Type} (less : A -> A -> bool) (l : list A) : Prop :=
  StronglySorted (fun x y => less y x = false) l.

Class Sorter : Type := {
  Slice : forall {A : Type}, (A -> A -> bool) -> list A -> list A;
  Slice_perm : forall (A : Type) (less : A -> A -> bool) (l : list A),
      Slice less l ≡ₚ l;
  Slice_sorted : forall (A : Type) (less : A -> A -> bool) (l : list A),
      StrictWeakOrder less -> SortedBy less (Slice less l)
}.

(** The library's insertion sort, which [sort.Slice] runs on slices of at
    most twelve elements (go 1.19 and later; the README builds with
    go 1.23):
<<
    for i := a + 1; i < b; i++ {
      for j := i; j > a && data.Less(j, j-1); j-- { data.Swap(j, j-1) }
    }
>>
    The sorted prefix is kept reversed, so that the element being
    inserted travels from its right end towards the left. *)
Fixpoint insertBack {A : Type} (less : A -> A -> bool) (x : A) (revPrefix : list A)
  : list A :=
  match revPrefix with
  | [] => [x]
  | y :: rest => if less x y then y :: insertBack less x rest else x :: y :: rest
  end.

Definition insertionSort {A : Type} (less : A -> A -> bool) (l : list A) : list A :=
  rev (fold_left (fun revPrefix x => insertBack less x revPrefix) l []).

End sort.

(** ** Package [rules]: severities and the rule catalog *)

Module rules.

Definition Severity : Type := string.

Definition SeverityError : Severity := "error".
Definition SeverityWarning : Severity := "warning".
Definition SeverityInfo : Severity := "info".

Definition ParseSeverity (s : string) : Severity :=
  if decide (s = "error") then SeverityError
  else if decide (s = "warning") then SeverityWarning
  else SeverityInfo.

Definition Level (s : Severity) : Go.int :=
  if decide (s = SeverityError) then 3
  else if decide (s = SeverityWarning) then 2
  else 1.

Module BaseRule.
Record t : Type := { Enabled : bool; Severity : string; Message : string }.
End BaseRule.

Module PatternRule.
Record t : Type := { Base : BaseRule.t; Pattern : string }.
End PatternRule.

Module SuffixRule.
Record t : Type := { Base : BaseRule.t; Suffixes : list string }.
End SuffixRule.

Module LimitRule.
Record t : Type := { Base : BaseRule.t; Limit : Go.int }.
End LimitRule.

Module IgnoredErrorsRule.
Record t : Type := { Base : BaseRule.t; AllowedPatterns : list string }.
End IgnoredErrorsRule.

Module AllowedInRule.
Record t : Type := { Base : BaseRule.t; AllowedIn : list string }.
End AllowedInRule.

Module DirsRule.
Record t : Type := { Base : BaseRule.t; Dirs : list string }.
End DirsRule.

Module JSONTagRule.
Record t : Type := { Base : BaseRule.t; Style : string }.
End JSONTagRule.

Module ValidationTagRule.
Record t : Type := { Base : BaseRule.t; RequiredFor : list string }.
End ValidationTagRule.

Module NamingRulesConfig.
Record t : Type := {
  PackageName : PatternRule.t;
  ExportedNames : BaseRule.t;
  FileName : PatternRule.t;
  InterfaceName : SuffixRule.t;
  ErrorVar : PatternRule.t
}.
End NamingRulesConfig.

Module NamingConfig.
Record t : Type := { Enabled : bool; Rules : NamingRulesConfig.t }.
End NamingConfig.

Module StructureRulesConfig.
Record t : Type := {
  MaxFunctionLines : LimitRule.t;
  MaxNestingLevel : LimitRule.t;
  MaxParameters : LimitRule.t;
  MaxReturnValues : LimitRule.t
}.
End StructureRulesConfig.

Module StructureConfig.
Record t : Type := { Enabled : bool; Rules : StructureRulesConfig.t }.
End StructureConfig.

Module ErrorHandlingRulesConfig.
Record t : Type := {
  NoIgnoredErrors : IgnoredErrorsRule.t;
  NoPanic : AllowedInRule.t
}.
End ErrorHandlingRulesConfig.

Module ErrorHandlingConfig.
Record t : Type := { Enabled : bool; Rules : ErrorHandlingRulesConfig.t }.
End ErrorHandlingConfig.

Module LoggingRulesConfig.
Record t : Type := { NoFmtPrintln : BaseRule.t }.
End LoggingRulesConfig.

Module LoggingConfig.
Record t : Type := { Enabled : bool; Rules : LoggingRulesConfig.t }.
End LoggingConfig.

Module DirectoryRulesConfig.
Record t : Type := { RequiredDirs : DirsRule.t; RecommendedDirs : DirsRule.t }.
End DirectoryRulesConfig.

Module DirectoryConfig.
Record t : Type := { Enabled : bool; Rules : DirectoryRulesConfig.t }.
End DirectoryConfig.

Module StructTagsRulesConfig.
Record t : Type := { JSONTag : JSONTagRule.t; ValidationTag : ValidationTagRule.t }.
End StructTagsRulesConfig.

Module StructTagsConfig.
Record t : Type := { Enabled : bool; Rules : StructTagsRulesConfig.t }.
End StructTagsConfig.

Module CustomRule.
Record t : Type := {
  Name : string;
  Enabled : bool;
  Severity : string;
  Pattern : string;
  Message : string;
  ExcludeFiles : list string
}.
End CustomRule.

(** The fields of [Config] that the checker reads. *)
Module Config.
Record t : Type := {
  Naming : NamingConfig.t;
  Structure : StructureConfig.t;
  ErrorHandling : ErrorHandlingConfig.t;
  Logging : LoggingConfig.t;
  Directory : DirectoryConfig.t;
  StructTags : StructTagsConfig.t;
  CustomRules : list CustomRule.t
}.
End Config.

Definition baseRule (enabled : bool) (severity message : string) : BaseRule.t :=
  {| BaseRule.Enabled := enabled; BaseRule.Severity := severity;
     BaseRule.Message := message |}.

(** The zero value of [BaseRule]. *)
Definition noRule : BaseRule.t := baseRule false "" "".

(** [DefaultConfig]; a field that the literal leaves out holds its zero
    value. *)
Definition DefaultConfig : Config.t :=
  {| Config.Naming :=
       {| NamingConfig.Enabled := true;
          NamingConfig.Rules :=
            {| NamingRulesConfig.PackageName :=
                 {| PatternRule.Base := baseRule true "error" "パッケージ名は小文字のみ";
                    PatternRule.Pattern := "^[a-z][a-z0-9]*$" |};
               NamingRulesConfig.ExportedNames := noRule;
               NamingRulesConfig.FileName :=
                 {| PatternRule.Base := baseRule true "warning" "ファイル名はスネークケース";
                    PatternRule.Pattern := "^[a-z][a-z0-9_]*\.go$" |};
               NamingRulesConfig.InterfaceName :=
                 {| SuffixRule.Base := noRule; SuffixRule.Suffixes := [] |};
               NamingRulesConfig.ErrorVar :=
                 {| PatternRule.Base := noRule; PatternRule.Pattern := "" |} |} |};
     Config.Structure :=
       {| StructureConfig.Enabled := true;
          StructureConfig.Rules :=
            {| StructureRulesConfig.MaxFunctionLines :=
                 {| LimitRule.Base := baseRule true "warning" "関数は50行以内";
                    LimitRule.Limit := 50 |};
               StructureRulesConfig.MaxNestingLevel :=
                 {| LimitRule.Base := baseRule true "warning" "ネストは3レベル以内";
                    LimitRule.Limit := 3 |};
               StructureRulesConfig.MaxParameters :=
                 {| LimitRule.Base := noRule; LimitRule.Limit := 0 |};
               StructureRulesConfig.MaxReturnValues :=
                 {| LimitRule.Base := noRule; LimitRule.Limit := 0 |} |} |};
     Config.ErrorHandling :=
       {| ErrorHandlingConfig.Enabled := true;
          ErrorHandlingConfig.Rules :=
            {| ErrorHandlingRulesConfig.NoIgnoredErrors :=
                 {| IgnoredErrorsRule.Base :=
                      baseRule true "error" "エラーを無視しないでください";
                    IgnoredErrorsRule.AllowedPatterns := [] |};
               ErrorHandlingRulesConfig.NoPanic :=
                 {| AllowedInRule.Base := noRule; AllowedInRule.AllowedIn := [] |} |} |};
     Config.Logging :=
       {| LoggingConfig.Enabled := false;
          LoggingConfig.Rules := {| LoggingRulesConfig.NoFmtPrintln := noRule |} |};
     Config.Directory :=
       {| DirectoryConfig.Enabled := false;
          DirectoryConfig.Rules :=
            {| DirectoryRulesConfig.RequiredDirs :=
                 {| DirsRule.Base := noRule; DirsRule.Dirs := [] |};
               DirectoryRulesConfig.RecommendedDirs :=
                 {| DirsRule.Base := noRule; DirsRule.Dirs := [] |} |} |};
     Config.StructTags :=
       {| StructTagsConfig.Enabled := false;
          StructTagsConfig.Rules :=
            {| StructTagsRulesConfig.JSONTag :=
                 {| JSONTagRule.Base := noRule; JSONTagRule.Style := "" |};
               StructTagsRulesConfig.ValidationTag :=
                 {| ValidationTagRule.Base := noRule;
                    ValidationTagRule.RequiredFor := [] |} |} |};
     Config.CustomRules := [] |}.

(** [Settings], the field of [Config] that the walk over the files and
    the command line read; [Config.t] above holds the fields that the
    rules read. *)
Module Settings.
Record t : Type := {
  TargetDir : string;
  ExcludePatterns : list string;
  ReportFormat : string;
  MinSeverity : string
}.
End Settings.

(** The [Settings] of [DefaultConfig]. *)
Definition DefaultSettings : Settings.t :=
  {| Settings.TargetDir := "";
     Settings.ExcludePatterns := ["*_test.go"; "vendor/*"; ".git/*"];
     Settings.ReportFormat := "text";
     Settings.MinSeverity := "info" |}.

End rules.

(** ** Package [report]: the violation store

    A report is made by [NewReport], which gives it an empty slice and
    two empty maps of its own; no method shares them with another
    report. *)

Module report.

Record Violation : Type := {
  File : string;
  Line : Go.int;
  Column : Go.int;
  Rule : string;
  Category : string;
  Severity : rules.Severity;
  Message : string;
  Suggestion : string;
  Code : string
}.

Record Summary : Type := {
  TotalViolations : Go.int;
  ByCategory : gmap string Z;
  BySeverity : gmap string Z;
  PassedRules : Go.int;
  FailedRules : Go.int
}.

(** [Summary_] is the field [Summary], whose name is taken by its
    type. *)
Record Report : Type := {
  ProjectPath : string;
  TotalFiles : Go.int;
  Violations : list Violation;
  Summary_ : Summary
}.

Definition NewReport (projectPath : string) : Report :=
  {| ProjectPath := projectPath;
     TotalFiles := 0;
     Violations := [];
     Summary_ := {| TotalViolations := 0; ByCategory := ∅; BySeverity := ∅;
                    PassedRules := 0; FailedRules := 0 |} |}.

Definition AddViolation (r : Report) (v : Violation) : Report :=
  {| ProjectPath := ProjectPath r;
     TotalFiles := TotalFiles r;
     Violations := Violations r ++ [v];
     Summary_ := Summary_ r |}.

Definition setTotalFiles (r : Report) (n : Go.int) : Report :=
  {| ProjectPath := ProjectPath r;
     TotalFiles := n;
     Violations := Violations r;
     Summary_ := Summary_ r |}.

(** One turn of the counting loop of [Finalize]:
    [r.Summary.ByCategory[v.Category]++; r.Summary.BySeverity[string(v.Severity)]++]. *)
Definition count (s : Summary) (v : Violation) : Summary :=
  {| TotalViolations := TotalViolations s;
     ByCategory := Go.incr (ByCategory s) (Category v);
     BySeverity := Go.incr (BySeverity s) (Severity v);
     PassedRules := PassedRules s;
     FailedRules := FailedRules s |}.

Definition setTotalViolations (s : Summary) (n : Go.int) : Summary :=
  {| TotalViolations := n;
     ByCategory := ByCategory s;
     BySeverity := BySeverity s;
     PassedRules := PassedRules s;
     FailedRules := FailedRules s |}.

(** The comparison closure that [Finalize] hands to [sort.Slice]. *)
Definition less (vi vj : Violation) : bool :=
  if negb (rules.Level (Severity vi) =? rules.Level (Severity vj)) then
    rules.Level (Severity vi) >? rules.Level (Severity vj)
  else if negb (String.eqb (File vi) (File vj)) then
    String.ltb (File vi) (File vj)
  else
    Line vi <? Line vj.

(** *** Reports behind pointers

    [Filter] reads one report and builds another.  The heap maps the
    address of a [*Report] to the report stored there; a method called on
    an address that holds no report panics ([None]). *)

Abbreviation heap := (gmap positive Report).

Section WithSorter.
Context `{sort.Sorter}.

Definition Finalize (r : Report) : Report :=
  let summary := setTotalViolations (Summary_ r) (Go.len (Violations r)) in
  let summary := fold_left count (Violations r) summary in
  {| ProjectPath := ProjectPath r;
     TotalFiles := TotalFiles r;
     Violations := sort.Slice less (Violations r);
     Summary_ := summary |}.

Definition alloc (h : heap) (r : Report) : positive * heap :=
  let p := fresh (dom h) in (p, <[p := r]> h).

Definition update (h : heap) (p : positive) (f : Report -> Report) : option heap :=
  r ← h !! p; Some (<[p := f r]> h).

(** The loop of [Filter] over the violations of the source report. *)
Fixpoint filterLoop (h : heap) (filtered : positive) (minSeverity : rules.Severity)
    (vs : list Violation) : option heap :=
  match vs with
  | [] => Some h
  | v :: vs' =>
      h ← (if rules.Level (Severity v) >=? rules.Level minSeverity
           then update h filtered (fun f => AddViolation f v)
           else Some h);
      filterLoop h filtered minSeverity vs'
  end.

Definition Filter (h : heap) (r : positive) (minSeverity : rules.Severity)
  : option (positive * heap) :=
  src ← h !! r;
  let '(filtered, h) := alloc h (NewReport (ProjectPath src)) in
  h ← update h filtered (fun f => setTotalFiles f (TotalFiles src));
  h ← filterLoop h filtered minSeverity (Violations src);
  h ← update h filtered Finalize;
  Some (filtered, h).

End WithSorter.

(** *** The text form

    [ToText] writes to a [strings.Builder]: [textWrites] is the sequence
    of the strings that it writes, and [ToText] is their concatenation.
    The loop over [r.Summary.ByCategory] meets the entries of the map in
    an order that the language leaves open; [categories] is the list of
    the entries in the order of that loop. *)

Definition newline : string := String (ascii_of_nat 10) EmptyString.

Section WithTrimSpace.

(** [strings.TrimSpace] *)
Variable TrimSpace : string -> string.

(** The icon that the loop of [ToText] chooses for a severity. *)
Definition icon (severity : rules.Severity) : string :=
  if decide (severity = rules.SeverityError) then "🔴"
  else if decide (severity = rules.SeverityWarning) then "🟡"
  else "🔵".

(** The loop of [ToText] over the violations, from the violation at the
    head of [vs] on; [currentFile] is the variable of that name. *)
Fixpoint violationWrites (currentFile : string) (vs : list Violation) : list string :=
  match vs with
  | [] => []
  | v :: vs' =>
      (if negb (String.eqb (File v) currentFile) then
         [ "📄 " +:+ File v +:+ newline;
           "────────────────────────────────────────────────────────────────────────" +:+ newline ]
       else [])
      ++ [ icon (Severity v) +:+ " [" +:+ Rule v +:+ "] Line " +:+ Go.itoa (Line v) +:+ ": " +:+ Message v +:+ newline ]
      ++ (if negb (String.eqb (Code v) "") then
            [ "   │ " +:+ TrimSpace (Code v) +:+ newline ]
          else [])
      ++ (if negb (String.eqb (Suggestion v) "") then
            [ "   💡 Suggestion: " +:+ Suggestion v +:+ newline ]
          else [])
      ++ (match vs' with
          | next :: _ => if String.eqb (File next) (File v) then [newline] else [newline]
          | [] => []
          end)
      ++ violationWrites (File v) vs'
  end.

Definition textWrites (categories : list (string * Z)) (r : Report) : list string :=
  let errorCount := Go.index (BySeverity (Summary_ r)) "error" in
  let warningCount := Go.index (BySeverity (Summary_ r)) "warning" in
  let infoCount := Go.index (BySeverity (Summary_ r)) "info" in
  [ "╔══════════════════════════════════════════════════════════════════════╗" +:+ newline;
    "║          Go Standards Checker - Compliance Report                    ║" +:+ newline;
    "╚══════════════════════════════════════════════════════════════════════╝" +:+ newline +:+ newline;
    "📁 Project: " +:+ ProjectPath r +:+ newline;
    "📄 Files Checked: " +:+ Go.itoa (TotalFiles r) +:+ newline +:+ newline;
    "━━━━━━━━━━━━━━━━━━━━━━━━━━━━━━━━━━━━━━━━━━━━━━━━━━━━━━━━━━━━━━━━━━━━━━━━" +:+ newline;
    "                              SUMMARY                                   " +:+ newline;
    "━━━━━━━━━━━━━━━━━━━━━━━━━━━━━━━━━━━━━━━━━━━━━━━━━━━━━━━━━━━━━━━━━━━━━━━━" +:+ newline;
    "🔴 Errors:   " +:+ Go.itoa (errorCount) +:+ newline;
    "🟡 Warnings: " +:+ Go.itoa (warningCount) +:+ newline;
    "🔵 Info:     " +:+ Go.itoa (infoCount) +:+ newline;
    "📊 Total:    " +:+ Go.itoa (TotalViolations (Summary_ r)) +:+ " violations" +:+ newline +:+ newline ]
  ++ (if 0 <? Z.of_nat (size (ByCategory (Summary_ r))) then
        [ "By Category:" +:+ newline ]
        ++ map (fun entry : string * Z =>
                  "  • " +:+ fst entry +:+ ": " +:+ Go.itoa (snd entry) +:+ newline)
               categories
        ++ [ newline ]
      else [])
  ++ (if Go.len (Violations r) =? 0 then
        [ "━━━━━━━━━━━━━━━━━━━━━━━━━━━━━━━━━━━━━━━━━━━━━━━━━━━━━━━━━━━━━━━━━━━━━━━━" +:+ newline;
          "✅ Congratulations! No violations found." +:+ newline;
          "━━━━━━━━━━━━━━━━━━━━━━━━━━━━━━━━━━━━━━━━━━━━━━━━━━━━━━━━━━━━━━━━━━━━━━━━" +:+ newline ]
      else
        [ "━━━━━━━━━━━━━━━━━━━━━━━━━━━━━━━━━━━━━━━━━━━━━━━━━━━━━━━━━━━━━━━━━━━━━━━━" +:+ newline;
          "                             VIOLATIONS                                 " +:+ newline;
          "━━━━━━━━━━━━━━━━━━━━━━━━━━━━━━━━━━━━━━━━━━━━━━━━━━━━━━━━━━━━━━━━━━━━━━━━" +:+ newline +:+ newline ]
        ++ violationWrites "" (Violations r)
        ++ [ newline +:+ "━━━━━━━━━━━━━━━━━━━━━━━━━━━━━━━━━━━━━━━━━━━━━━━━━━━━━━━━━━━━━━━━━━━━━━━━" +:+ newline;
             (if errorCount >? 0 then
                "❌ Check FAILED - Please fix errors before committing." +:+ newline
              else if warningCount >? 0 then
                "⚠️  Check PASSED with warnings - Consider reviewing." +:+ newline
              else
                "✅ Check PASSED - Good job!" +:+ newline);
             "━━━━━━━━━━━━━━━━━━━━━━━━━━━━━━━━━━━━━━━━━━━━━━━━━━━━━━━━━━━━━━━━━━━━━━━━" +:+ newline ]).

Definition ToText (categories : list (string * Z)) (r : Report) : string :=
  String.concat "" (textWrites categories r).

End WithTrimSpace.

Definition HasErrors (r : Report) : bool :=
  Go.index (BySeverity (Summary_ r)) "error" >? 0.

Definition HasWarnings (r : Report) : bool :=
  Go.index (BySeverity (Summary_ r)) "warning" >? 0.

Definition ExitCode (r : Report) : Go.int :=
  if HasErrors r then 1 else 0.

End report.

(** ** Library interfaces of the checker

    The checker calls into [regexp], [unicode]/[strings], [path/filepath],
    the file system and the parser.  None of them is part of the
    repository: each is an interface here, and the properties below hold
    for every implementation of it. *)

Module regexp.

Class Engine : Type := {
  (** a compiled expression, [*regexp.Regexp] *)
  Regexp : Type;
  (** [regexp.Compile]; [None] is the error result *)
  Compile : string -> option Regexp;
  (** the method [MatchString] of a compiled expression *)
  Regexp_MatchString : Regexp -> string -> bool;
  (** the method [FindAllString(s, -1)]: the successive non-overlapping
      matches of the expression in [s] *)
  FindAllString : Regexp -> string -> list string;
  (** the method [FindStringSubmatch]: the leftmost match and its groups,
      empty when there is none *)
  FindStringSubmatch : Regexp -> string -> list string;
  (** [MatchString] reports whether the string contains any match. *)
  MatchString_FindAllString : forall re s,
      Regexp_MatchString re s = true <-> FindAllString re s <> [];
  (** the expression [json:QUOTE([^QUOTE]+)QUOTE] that [checkJSONTag]
      obtains from [regexp.MustCompile] *)
  jsonTagRe : Regexp
}.

(** The package-level [regexp.MatchString(pattern, s)]; every caller
    drops the error result, which leaves [false] for a pattern that does
    not compile. *)
Definition MatchString `{Engine} (pattern s : string) : bool :=
  match Compile pattern with
  | Some re => Regexp_MatchString re s
  | None => false
  end.

End regexp.

Module unicode.

Class Tables : Type := {
  (** [unicode.IsUpper] on a code point *)
  IsUpper : Z -> bool;
  (** below [utf8.RuneSelf] the upper case letters are ['A'..'Z'] *)
  IsUpper_ASCII : forall r, 0 <= r < 128 -> IsUpper r = (65 <=? r) && (r <=? 90);
  (** [strings.ToLower] *)
  ToLower : string -> string;
  (** [strings.TrimSpace] *)
  TrimSpace : string -> string
}.

End unicode.

Module utf8.

Definition RuneError : Z := 65533.

Definition bytes (s : string) : list Z :=
  map (fun c => Z.of_N (N_of_ascii c)) (list_ascii_of_string s).

Definition ofBytes (p : list Z) : string :=
  string_of_list_ascii (map (fun b => ascii_of_N (Z.to_N b)) p).

Definition continuation (b : Z) : bool := (128 <=? b) && (b <=? 191).

(** [utf8.DecodeRune]: the first code point of [p] and its width in
    bytes; [(RuneError, 0)] on empty input and [(RuneError, 1)] on an
    encoding that is not valid. *)
Definition DecodeRune (p : list Z) : Z * nat :=
  match p with
  | [] => (RuneError, 0%nat)
  | b0 :: t =>
      if b0 <? 128 then (b0, 1%nat)
      else if (194 <=? b0) && (b0 <=? 223) then
        match t with
        | b1 :: _ =>
            if continuation b1 then ((b0 - 192) * 64 + (b1 - 128), 2%nat)
            else (RuneError, 1%nat)
        | _ => (RuneError, 1%nat)
        end
      else if (224 <=? b0) && (b0 <=? 239) then
        match t with
        | b1 :: b2 :: _ =>
            let lo := if b0 =? 224 then 160 else 128 in
            let hi := if b0 =? 237 then 159 else 191 in
            if (lo <=? b1) && (b1 <=? hi) && continuation b2
            then ((b0 - 224) * 4096 + (b1 - 128) * 64 + (b2 - 128), 3%nat)
            else (RuneError, 1%nat)
        | _ => (RuneError, 1%nat)
        end
      else if (240 <=? b0) && (b0 <=? 244) then
        match t with
        | b1 :: b2 :: b3 :: _ =>
            let lo := if b0 =? 240 then 144 else 128 in
            let hi := if b0 =? 244 then 143 else 191 in
            if (lo <=? b1) && (b1 <=? hi) && continuation b2 && continuation b3
            then ((b0 - 240) * 262144 + (b1 - 128) * 4096 + (b2 - 128) * 64 + (b3 - 128),
                  4%nat)
            else (RuneError, 1%nat)
        | _ => (RuneError, 1%nat)
        end
      else (RuneError, 1%nat)
  end.

Definition DecodeRuneInString (s : string) : Z * nat := DecodeRune (bytes s).

(** [utf8.AppendRune] on a code point that [DecodeRune] returned. *)
Definition EncodeRune (r : Z) : list Z :=
  if r <? 128 then [r]
  else if r <? 2048 then [192 + r / 64; 128 + r mod 64]
  else if r <? 65536 then [224 + r / 4096; 128 + (r / 64) mod 64; 128 + r mod 64]
  else [240 + r / 262144; 128 + (r / 4096) mod 64; 128 + (r / 64) mod 64; 128 + r mod 64].

End utf8.

Module filepath.

Class Lib : Type := {
  (** the [matched] result of [filepath.Match(pattern, name)]; the
      callers drop the error result, which leaves [false] for a pattern
      that is malformed *)
  Match : string -> string -> bool;
  (** [filepath.Base] *)
  Base : string -> string;
  (** [filepath.Join] of two elements *)
  Join : string -> string -> string
}.

Class Relative : Type := {
  (** the path result of [filepath.Rel(basepath, targpath)]; the caller
      drops the error result, which leaves the empty path *)
  Rel : string -> string -> string
}.

End filepath.

(** ** The syntax tree, as far as the checker reads it ([go/ast], [go/token]) *)

Module token.

Record Position : Type := { Line : Go.int; Column : Go.int }.

(** [token.IsExported], which [ast.IsExported] calls. *)
Definition IsExported `{unicode.Tables} (name : string) : bool :=
  unicode.IsUpper (fst (utf8.DecodeRuneInString name)).

End token.

Module ast.

(** Statements.  A [*ast.BlockStmt] may be [nil], hence [option]. *)
Inductive Stmt : Type :=
| IfStmt (Body : option (list Stmt)) (Else : option Stmt)
| ForStmt (Body : option (list Stmt))
| RangeStmt (Body : option (list Stmt))
| SwitchStmt (Body : option (list Stmt))
| TypeSwitchStmt (Body : option (list Stmt))
| SelectStmt (Body : option (list Stmt))
| BlockStmt (List : list Stmt)
| CaseClause (Body : list Stmt)
| CommClause (Body : list Stmt)
| LabeledStmt (S : Stmt)
| OtherStmt.

Inductive Expr : Type :=
| Ident (Name : string) (Pos : token.Position)
| SelectorExpr (X : Expr) (Sel : string)
| CallExpr (Fun : Expr) (Pos : token.Position)
| OtherExpr.

Record Field : Type := {
  Field_Names : list string;
  Field_Tag : option string;
  Field_Pos : token.Position
}.

Record FuncDecl : Type := {
  FuncDecl_Name : string;
  FuncDecl_Pos : token.Position;
  FuncDecl_End : token.Position;
  (** [fn.Type.Params] and [fn.Type.Results], each a [*ast.FieldList] *)
  FuncDecl_Params : option (list Field);
  FuncDecl_Results : option (list Field);
  FuncDecl_Body : option (list Stmt)
}.

Inductive Spec : Type :=
| ValueSpec (Names : list (string * token.Position)) (Type_ : option Expr)
| OtherSpec.

Inductive Token : Type := VAR | OtherToken.

Record GenDecl : Type := { GenDecl_Tok : Token; GenDecl_Specs : list Spec }.

Inductive TypeExpr : Type :=
| InterfaceType
| StructType (Fields : option (list Field))
| OtherType.

Record TypeSpec : Type := {
  TypeSpec_Name : string;
  TypeSpec_Pos : token.Position;
  TypeSpec_Type : TypeExpr
}.

Record AssignStmt : Type := {
  AssignStmt_Lhs : list Expr;
  AssignStmt_Rhs : list Expr;
  AssignStmt_Pos : token.Position
}.

(** A node as the callback of [ast.Inspect] in [checkFile] tells them
    apart. *)
Inductive Node : Type :=
| NFuncDecl (fn : FuncDecl)
| NGenDecl (gd : GenDecl)
| NTypeSpec (ts : TypeSpec)
| NAssignStmt (a : AssignStmt)
| NCallExpr (Fun : Expr) (Pos : token.Position)
| NOther.

(** A parsed file: the package clause and the nodes in the order in
    which [ast.Inspect] visits them. *)
Record File : Type := {
  File_Name : string;
  File_NamePos : token.Position;
  File_Nodes : list Node
}.

End ast.

(** ** The file system and the parser *)

Module os.

Inductive Result (A : Type) : Type :=
| Ok (a : A)
| Err (msg : string).
Arguments Ok {A} a.
Arguments Err {A} msg.

Record World : Type := {
  (** [os.Stat(path)] fails with an error for which [os.IsNotExist] holds *)
  IsNotExist : string -> bool;
  (** the walk of [collectGoFiles] below a directory *)
  GoFiles : string -> Result (list string);
  (** the scan of [readFileLines] *)
  ReadFileLines : string -> Result (list string);
  (** [parser.ParseFile] *)
  ParseFile : string -> Result ast.File
}.

End os.

(** ** The walk over a file tree ([filepath.Walk])

    The tree is what the walk meets: under a name a file, a directory
    with the result of reading its entries (in lexical order), or a
    name for which [Lstat] fails.  A symbolic link is a file to the
    walk. *)

Module fs.

Record FileInfo : Type := { Name : string; IsDir : bool }.

Inductive Entry : Type :=
| File (name : string)
| Dir (name : string) (entries : os.Result (list Entry))
| Unreadable (name : string) (err : string).

Definition entryName (e : Entry) : string :=
  match e with
  | File name | Dir name _ | Unreadable name _ => name
  end.

(** The error that a [WalkFunc] returns: [SkipDir] or another error. *)
Inductive WalkErr : Type :=
| SkipDir
| Error (msg : string).

Section Walk.
Context `{filepath.Lib} {S : Type}.

(** A [WalkFunc], with the state that the closure updates: it is called
    with the path, the file information ([nil] where [Lstat] failed) and
    the error of [Lstat] or of reading the directory.  [None] is a
    panic. *)
Variable walkFn : S -> string -> option FileInfo -> option string -> option (S * option WalkErr).

(** The function [walk] of the library.  A file is handed to the
    function.  A directory is read first and handed to the function with
    the error of reading it; when either fails, or the function asks to
    skip, the result of the function is the result.  Else the entries
    are walked in turn: [SkipDir] from a directory or from a name that
    [Lstat] fails on goes on with the next entry, [SkipDir] from a file
    leaves the directory, another error ends the walk. *)
Fixpoint walk (s : S) (path : string) (e : Entry) {struct e}
  : option (S * option WalkErr) :=
  match e with
  | File name => walkFn s path (Some {| Name := name; IsDir := false |}) None
  | Unreadable name err => walkFn s path None (Some err)
  | Dir name (os.Err err) =>
      walkFn s path (Some {| Name := name; IsDir := true |}) (Some err)
  | Dir name (os.Ok entries) =>
      match walkFn s path (Some {| Name := name; IsDir := true |}) None with
      | None => None
      | Some (s, Some err1) => Some (s, Some err1)
      | Some (s, None) =>
          (fix loop (s : S) (entries : list Entry) {struct entries}
             : option (S * option WalkErr) :=
             match entries with
             | [] => Some (s, None)
             | child :: rest =>
                 match walk s (filepath.Join path (entryName child)) child with
                 | None => None
                 | Some (s, None) => loop s rest
                 | Some (s, Some SkipDir) =>
                     match child with
                     | File _ => Some (s, Some SkipDir)
                     | _ => loop s rest
                     end
                 | Some (s, Some (Error msg)) => Some (s, Some (Error msg))
                 end
             end) s entries
      end
  end.

(** [filepath.Walk]: [SkipDir] from the root is no error. *)
Definition Walk (s : S) (root : string) (e : Entry) : option (S * option string) :=
  match walk s root e with
  | None => None
  | Some (s, Some (Error msg)) => Some (s, Some msg)
  | Some (s, _) => Some (s, None)
  end.

End Walk.

End fs.

(** ** Package [checker] *)

Module checker.

Import rules.

Record Checker : Type := {
  config : Config.t;
  report : report.Report;
  fileMap : gmap string (list string);
  (** what the run has printed on standard output *)
  stdout : list string
}.

(** [NewChecker] leaves [report] unset; [Check] sets it before any rule
    runs, and the empty report stands for the unset field here. *)
Definition NewChecker (config : Config.t) : Checker :=
  {| config := config; report := report.NewReport ""; fileMap := ∅; stdout := [] |}.

Definition setReport (c : Checker) (r : report.Report) : Checker :=
  {| config := config c; report := r; fileMap := fileMap c; stdout := stdout c |}.

Definition setFileMap (c : Checker) (m : gmap string (list string)) : Checker :=
  {| config := config c; report := report c; fileMap := m; stdout := stdout c |}.

Definition printf (c : Checker) (line : string) : Checker :=
  {| config := config c; report := report c; fileMap := fileMap c;
     stdout := stdout c ++ [line] |}.

(** [c.report.AddViolation] for each violation of [vs] in turn. *)
Definition addViolations (c : Checker) (vs : list report.Violation) : Checker :=
  setReport c (fold_left report.AddViolation vs (report c)).

(** *** Helpers *)

Definition byte (c : ascii) : Z := Z.of_N (N_of_ascii c).

Definition isPascalCase (s : string) : bool :=
  match s with
  | EmptyString => false
  | String c _ => if (byte c <? 65) || (byte c >? 90) then false else true
  end.

Definition isCamelCase (s : string) : bool :=
  match s with
  | EmptyString => false
  | String c _ => if (byte c <? 97) || (byte c >? 122) then false else true
  end.

(** The loop of [toSnakeCase] over the code points of [s]; [i] is the
    byte offset of the code point at the head of [p]. *)
Fixpoint snakeLoop (fuel : nat) (i : nat) (p : list Z) : list Z :=
  match fuel with
  | O => []
  | S fuel' =>
      match p with
      | [] => []
      | _ :: _ =>
          let '(r, w) := utf8.DecodeRune p in
          (if (0 <? i)%nat && (65 <=? r) && (r <=? 90) then [95] else [])
            ++ utf8.EncodeRune r ++ snakeLoop fuel' (i + w) (drop w p)
      end
  end.

Definition TrimSuffix (s suffix : string) : string :=
  if Go.HasSuffix s suffix
  then String.substring 0 (String.length s - String.length suffix) s
  else s.

Definition TrimPrefix (s p : string) : string :=
  if Go.HasPrefix s p
  then String.substring (String.length p) (String.length s - String.length p) s
  else s.

(** [fmt.Sprintf("%v", xs)] on a slice of strings *)
Definition sprintSlice (xs : list string) : string :=
  "[" +:+ String.concat " " xs +:+ "]".

Definition quote : string := String (ascii_of_nat 34) EmptyString.

(** [strings.Split(s, ",")[0]] *)
Fixpoint beforeComma (s : string) : string :=
  match s with
  | EmptyString => EmptyString
  | String c s' => if Ascii.eqb c "," then EmptyString else String c (beforeComma s')
  end.

Section WithLibraries.
Context `{regexp.Engine} `{unicode.Tables} `{filepath.Lib}.

Definition toSnakeCase (s : string) : string :=
  let p := utf8.bytes s in
  unicode.ToLower (utf8.ofBytes (snakeLoop (length p) 0 p)).

Definition isSnakeCase (s : string) : bool :=
  regexp.MatchString "^[a-z][a-z0-9_]*$" s.

Definition getCodeLine (c : Checker) (filePath : string) (line : Go.int) : string :=
  match fileMap c !! filePath with
  | None => ""
  | Some lines =>
      if (line <? 1) || (line >? Go.len lines) then ""
      else default "" (lines !! Z.to_nat (line - 1))
  end.

(** *** The rules

    A rule reads the configuration and the line cache and calls
    [c.report.AddViolation]; it is embedded as the violations it adds, in
    the order in which it adds them. *)

Definition checkFileName (c : Checker) (filePath : string) : list report.Violation :=
  let fileName := filepath.Base filePath in
  let rule := NamingRulesConfig.FileName (NamingConfig.Rules (Config.Naming (config c))) in
  match regexp.Compile (PatternRule.Pattern rule) with
  | None => []
  | Some pattern =>
      if negb (regexp.Regexp_MatchString pattern fileName) then
        [ {| report.File := filePath;
             report.Line := 1;
             report.Column := 0;
             report.Rule := "file_name";
             report.Category := "naming";
             report.Severity := ParseSeverity (BaseRule.Severity (PatternRule.Base rule));
             report.Message := BaseRule.Message (PatternRule.Base rule);
             report.Suggestion :=
               "Rename to: " +:+ toSnakeCase (TrimSuffix fileName ".go") +:+ ".go";
             report.Code := "" |} ]
      else []
  end.

Definition checkPackageName (c : Checker) (file : ast.File) (filePath : string)
  : list report.Violation :=
  let rule := NamingRulesConfig.PackageName (NamingConfig.Rules (Config.Naming (config c))) in
  let pkgName := ast.File_Name file in
  match regexp.Compile (PatternRule.Pattern rule) with
  | None => []
  | Some pattern =>
      if negb (regexp.Regexp_MatchString pattern pkgName) then
        let pos := ast.File_NamePos file in
        [ {| report.File := filePath;
             report.Line := token.Line pos;
             report.Column := token.Column pos;
             report.Rule := "package_name";
             report.Category := "naming";
             report.Severity := ParseSeverity (BaseRule.Severity (PatternRule.Base rule));
             report.Message :=
               BaseRule.Message (PatternRule.Base rule) +:+ ": '" +:+ pkgName +:+ "'";
             report.Suggestion := "";
             report.Code := getCodeLine c filePath (token.Line pos) |} ]
      else []
  end.

(** One statement of the loop of [checkNestingLevel]: the new value of
    [maxLevel]. *)
Fixpoint nestingStmt (stmt : ast.Stmt) (currentLevel maxLevel : Go.int) : Go.int :=
  let checkNestingLevel := fun (block : option (list ast.Stmt)) (currentLevel : Go.int) =>
    match block with
    | None => currentLevel
    | Some list =>
        fold_left (fun maxLevel stmt => nestingStmt stmt currentLevel maxLevel)
                  list currentLevel
    end in
  let nested := fun (body : option (list ast.Stmt)) (maxLevel : Go.int) =>
    let level := checkNestingLevel body (Go.add currentLevel 1) in
    if level >? maxLevel then level else maxLevel in
  match stmt with
  | ast.IfStmt body els =>
      let maxLevel := nested body maxLevel in
      match els with
      | Some (ast.BlockStmt elseBlock) => nested (Some elseBlock) maxLevel
      | _ => maxLevel
      end
  | ast.ForStmt body => nested body maxLevel
  | ast.RangeStmt body => nested body maxLevel
  | ast.SwitchStmt body => nested body maxLevel
  | ast.SelectStmt body => nested body maxLevel
  | _ => maxLevel
  end.

Definition checkNestingLevel (block : option (list ast.Stmt)) (currentLevel : Go.int)
  : Go.int :=
  match block with
  | None => currentLevel
  | Some list =>
      fold_left (fun maxLevel stmt => nestingStmt stmt currentLevel maxLevel)
                list currentLevel
  end.

(** [checkFunction] runs five checks in turn; each is a definition of
    its own here. *)

(** The check of the name of an exported function. *)
Definition checkFunction_exportedName (c : Checker) (fn : ast.FuncDecl) (filePath : string)
  : list report.Violation :=
  let pos := ast.FuncDecl_Pos fn in
  let funcName := ast.FuncDecl_Name fn in
  let naming := Config.Naming (config c) in
  if NamingConfig.Enabled naming
     && BaseRule.Enabled (NamingRulesConfig.ExportedNames (NamingConfig.Rules naming))
  then
    if token.IsExported funcName then
      if negb (isPascalCase funcName) then
        [ {| report.File := filePath;
             report.Line := token.Line pos;
             report.Column := token.Column pos;
             report.Rule := "exported_name";
             report.Category := "naming";
             report.Severity :=
               ParseSeverity
                 (BaseRule.Severity (NamingRulesConfig.ExportedNames (NamingConfig.Rules naming)));
             report.Message :=
               "公開関数 '" +:+ funcName +:+ "' はPascalCaseで命名してください";
             report.Suggestion := "";
             report.Code := getCodeLine c filePath (token.Line pos) |} ]
      else []
    else []
  else [].

(** The check of the number of lines. *)
Definition checkFunction_lines (c : Checker) (fn : ast.FuncDecl) (filePath : string)
  : list report.Violation :=
  let pos := ast.FuncDecl_Pos fn in
  let endPos := ast.FuncDecl_End fn in
  let funcName := ast.FuncDecl_Name fn in
  let structure := Config.Structure (config c) in
  let rule := StructureRulesConfig.MaxFunctionLines (StructureConfig.Rules structure) in
  if StructureConfig.Enabled structure && BaseRule.Enabled (LimitRule.Base rule) then
    let lineCount := Go.sub (token.Line endPos) (token.Line pos) in
    let limit := LimitRule.Limit rule in
    if lineCount >? limit then
      [ {| report.File := filePath;
           report.Line := token.Line pos;
           report.Column := 0;
           report.Rule := "max_function_lines";
           report.Category := "structure";
           report.Severity := ParseSeverity (BaseRule.Severity (LimitRule.Base rule));
           report.Message :=
             "関数 '" +:+ funcName +:+ "' は" +:+ Go.itoa lineCount
               +:+ "行あります（上限: " +:+ Go.itoa limit +:+ "行）";
           report.Suggestion := "関数を分割してください";
           report.Code := getCodeLine c filePath (token.Line pos) |} ]
    else []
  else [].

(** The check of the number of parameters. *)
Definition checkFunction_parameters (c : Checker) (fn : ast.FuncDecl) (filePath : string)
  : list report.Violation :=
  let pos := ast.FuncDecl_Pos fn in
  let funcName := ast.FuncDecl_Name fn in
  let structure := Config.Structure (config c) in
  let rule := StructureRulesConfig.MaxParameters (StructureConfig.Rules structure) in
  if StructureConfig.Enabled structure && BaseRule.Enabled (LimitRule.Base rule) then
    match ast.FuncDecl_Params fn with
    | None => []
    | Some params =>
        let paramCount := Go.len params in
        let limit := LimitRule.Limit rule in
        if paramCount >? limit then
          [ {| report.File := filePath;
               report.Line := token.Line pos;
               report.Column := 0;
               report.Rule := "max_parameters";
               report.Category := "structure";
               report.Severity := ParseSeverity (BaseRule.Severity (LimitRule.Base rule));
               report.Message :=
                 "関数 '" +:+ funcName +:+ "' のパラメータ数は" +:+ Go.itoa paramCount
                   +:+ "個です（上限: " +:+ Go.itoa limit +:+ "個）";
               report.Suggestion := "パラメータを構造体にまとめることを検討してください";
               report.Code := getCodeLine c filePath (token.Line pos) |} ]
        else []
    end
  else [].

(** The check of the number of return values. *)
Definition checkFunction_results (c : Checker) (fn : ast.FuncDecl) (filePath : string)
  : list report.Violation :=
  let pos := ast.FuncDecl_Pos fn in
  let funcName := ast.FuncDecl_Name fn in
  let structure := Config.Structure (config c) in
  let rule := StructureRulesConfig.MaxReturnValues (StructureConfig.Rules structure) in
  if StructureConfig.Enabled structure && BaseRule.Enabled (LimitRule.Base rule) then
    match ast.FuncDecl_Results fn with
    | None => []
    | Some results =>
        let resultCount := Go.len results in
        let limit := LimitRule.Limit rule in
        if resultCount >? limit then
          [ {| report.File := filePath;
               report.Line := token.Line pos;
               report.Column := 0;
               report.Rule := "max_return_values";
               report.Category := "structure";
               report.Severity := ParseSeverity (BaseRule.Severity (LimitRule.Base rule));
               report.Message :=
                 "関数 '" +:+ funcName +:+ "' の戻り値数は" +:+ Go.itoa resultCount
                   +:+ "個です（上限: " +:+ Go.itoa limit +:+ "個）";
               report.Suggestion := "戻り値を構造体にまとめることを検討してください";
               report.Code := getCodeLine c filePath (token.Line pos) |} ]
        else []
    end
  else [].

(** The check of the nesting level. *)
Definition checkFunction_nesting (c : Checker) (fn : ast.FuncDecl) (filePath : string)
  : list report.Violation :=
  let pos := ast.FuncDecl_Pos fn in
  let funcName := ast.FuncDecl_Name fn in
  let structure := Config.Structure (config c) in
  let rule := StructureRulesConfig.MaxNestingLevel (StructureConfig.Rules structure) in
  if StructureConfig.Enabled structure && BaseRule.Enabled (LimitRule.Base rule) then
    let maxNest := checkNestingLevel (ast.FuncDecl_Body fn) 0 in
    let limit := LimitRule.Limit rule in
    if maxNest >? limit then
      [ {| report.File := filePath;
           report.Line := token.Line pos;
           report.Column := 0;
           report.Rule := "max_nesting_level";
           report.Category := "structure";
           report.Severity := ParseSeverity (BaseRule.Severity (LimitRule.Base rule));
           report.Message :=
             "関数 '" +:+ funcName +:+ "' のネストレベルは" +:+ Go.itoa maxNest
               +:+ "です（上限: " +:+ Go.itoa limit +:+ "）";
           report.Suggestion := "早期リターンを使用してネストを浅くしてください";
           report.Code := getCodeLine c filePath (token.Line pos) |} ]
    else []
  else [].

Definition checkFunction (c : Checker) (fn : ast.FuncDecl) (filePath : string)
  : list report.Violation :=
  checkFunction_exportedName c fn filePath
  ++ checkFunction_lines c fn filePath
  ++ checkFunction_parameters c fn filePath
  ++ checkFunction_results c fn filePath
  ++ checkFunction_nesting c fn filePath.

Definition checkJSONTag (c : Checker) (tagValue structName filePath : string)
    (pos : token.Position) : list report.Violation :=
  let rule := StructTagsRulesConfig.JSONTag (StructTagsConfig.Rules (Config.StructTags (config c))) in
  match regexp.FindStringSubmatch regexp.jsonTagRe tagValue with
  | _ :: group :: _ =>
      let jsonName := beforeComma group in
      if decide (jsonName = "-") then []
      else if decide (jsonName = "") then []
      else
        let isValid :=
          if decide (JSONTagRule.Style rule = "snake_case") then isSnakeCase jsonName
          else if decide (JSONTagRule.Style rule = "camelCase") then isCamelCase jsonName
          else true in
        if negb isValid then
          [ {| report.File := filePath;
               report.Line := token.Line pos;
               report.Column := token.Column pos;
               report.Rule := "json_tag";
               report.Category := "struct_tags";
               report.Severity := ParseSeverity (BaseRule.Severity (JSONTagRule.Base rule));
               report.Message :=
                 "JSONタグ '" +:+ jsonName +:+ "' は" +:+ JSONTagRule.Style rule
                   +:+ "で命名してください";
               report.Suggestion := "json:" +:+ quote +:+ toSnakeCase jsonName +:+ quote;
               report.Code := getCodeLine c filePath (token.Line pos) |} ]
        else []
  | _ => []
  end.

Definition checkValidationTag (c : Checker) (tagValue structName filePath : string)
    (pos : token.Position) : list report.Violation :=
  let rule :=
    StructTagsRulesConfig.ValidationTag (StructTagsConfig.Rules (Config.StructTags (config c))) in
  let isTarget :=
    existsb (fun pattern => filepath.Match pattern structName)
            (ValidationTagRule.RequiredFor rule) in
  if negb isTarget then []
  else if negb (Go.Contains tagValue ("validate:" +:+ quote)) then
    [ {| report.File := filePath;
         report.Line := token.Line pos;
         report.Column := token.Column pos;
         report.Rule := "validation_tag";
         report.Category := "struct_tags";
         report.Severity := ParseSeverity (BaseRule.Severity (ValidationTagRule.Base rule));
         report.Message := BaseRule.Message (ValidationTagRule.Base rule);
         report.Suggestion := "";
         report.Code := getCodeLine c filePath (token.Line pos) |} ]
  else [].

Definition checkStructTags (c : Checker) (fields : option (list ast.Field))
    (structName filePath : string) : list report.Violation :=
  match fields with
  | None => []
  | Some list =>
      flat_map
        (fun field =>
           match ast.Field_Tag field with
           | None => []
           | Some tagValue =>
               let pos := ast.Field_Pos field in
               let tags := StructTagsConfig.Rules (Config.StructTags (config c)) in
               ((if BaseRule.Enabled (JSONTagRule.Base (StructTagsRulesConfig.JSONTag tags))
                 then checkJSONTag c tagValue structName filePath pos else [])
                ++
                (if BaseRule.Enabled
                      (ValidationTagRule.Base (StructTagsRulesConfig.ValidationTag tags))
                 then checkValidationTag c tagValue structName filePath pos else []))%list
           end)
        list
  end.

Definition checkTypeSpec (c : Checker) (ts : ast.TypeSpec) (filePath : string)
  : list report.Violation :=
  let pos := ast.TypeSpec_Pos ts in
  let typeName := ast.TypeSpec_Name ts in
  let naming := Config.Naming (config c) in
  (match ast.TypeSpec_Type ts with
   | ast.InterfaceType =>
       if NamingConfig.Enabled naming
          && BaseRule.Enabled
               (SuffixRule.Base (NamingRulesConfig.InterfaceName (NamingConfig.Rules naming)))
       then
         let rule := NamingRulesConfig.InterfaceName (NamingConfig.Rules naming) in
         let validSuffix :=
           existsb (fun suffix => Go.HasSuffix typeName suffix) (SuffixRule.Suffixes rule) in
         if negb validSuffix && token.IsExported typeName then
           [ {| report.File := filePath;
                report.Line := token.Line pos;
                report.Column := token.Column pos;
                report.Rule := "interface_name";
                report.Category := "naming";
                report.Severity := ParseSeverity (BaseRule.Severity (SuffixRule.Base rule));
                report.Message :=
                  "インタフェース '" +:+ typeName +:+ "' は標準的なサフィックス("
                    +:+ sprintSlice (SuffixRule.Suffixes rule) +:+ ")を使用してください";
                report.Suggestion := "";
                report.Code := getCodeLine c filePath (token.Line pos) |} ]
         else []
       else []
   | _ => []
   end)
  ++
  (match ast.TypeSpec_Type ts with
   | ast.StructType fields =>
       if StructTagsConfig.Enabled (Config.StructTags (config c))
       then checkStructTags c fields typeName filePath
       else []
   | _ => []
   end).

Definition checkErrorVarName (c : Checker) (name : string * token.Position)
    (filePath : string) : list report.Violation :=
  let rule := NamingRulesConfig.ErrorVar (NamingConfig.Rules (Config.Naming (config c))) in
  let pos := snd name in
  if negb (token.IsExported (fst name)) then []
  else
    match regexp.Compile (PatternRule.Pattern rule) with
    | None => []
    | Some pattern =>
        if negb (regexp.Regexp_MatchString pattern (fst name)) then
          [ {| report.File := filePath;
               report.Line := token.Line pos;
               report.Column := token.Column pos;
               report.Rule := "error_var";
               report.Category := "naming";
               report.Severity := ParseSeverity (BaseRule.Severity (PatternRule.Base rule));
               report.Message :=
                 "エラー変数 '" +:+ fst name +:+ "' はErrプレフィックスで命名してください";
               report.Suggestion := "Err" +:+ TrimPrefix (fst name) "err";
               report.Code := getCodeLine c filePath (token.Line pos) |} ]
        else []
    end.

Definition checkGenDecl (c : Checker) (gd : ast.GenDecl) (filePath : string)
  : list report.Violation :=
  match ast.GenDecl_Tok gd with
  | ast.OtherToken => []
  | ast.VAR =>
      flat_map
        (fun spec =>
           match spec with
           | ast.OtherSpec => []
           | ast.ValueSpec names type =>
               flat_map
                 (fun name =>
                    let naming := Config.Naming (config c) in
                    if NamingConfig.Enabled naming
                       && BaseRule.Enabled
                            (PatternRule.Base
                               (NamingRulesConfig.ErrorVar (NamingConfig.Rules naming)))
                    then
                      match type with
                      | Some (ast.Ident typeName _) =>
                          if decide (typeName = "error")
                          then checkErrorVarName c name filePath
                          else []
                      | _ => []
                      end
                    else [])
                 names
           end)
        (ast.GenDecl_Specs gd)
  end.

Definition getCallExprString (callFun : ast.Expr) : string :=
  match callFun with
  | ast.Ident name _ => name
  | ast.SelectorExpr (ast.Ident x _) sel => x +:+ "." +:+ sel
  | _ => ""
  end.

(** The loop of [checkAssignment] over [as.Lhs], from index [i] on. *)
Fixpoint assignmentLoop (c : Checker) (a : ast.AssignStmt) (filePath : string)
    (i : nat) (lhs : list ast.Expr) : list report.Violation :=
  match lhs with
  | [] => []
  | e :: lhs' =>
      (match e with
       | ast.Ident name _ =>
           if decide (name = "_") then
             match ast.AssignStmt_Rhs a !! i with
             | Some (ast.CallExpr callFun _) =>
                 let callStr := getCallExprString callFun in
                 let rule :=
                   ErrorHandlingRulesConfig.NoIgnoredErrors
                     (ErrorHandlingConfig.Rules (Config.ErrorHandling (config c))) in
                 let allowed :=
                   existsb (fun pattern => regexp.MatchString pattern callStr)
                           (IgnoredErrorsRule.AllowedPatterns rule) in
                 if negb allowed then
                   let pos := ast.AssignStmt_Pos a in
                   [ {| report.File := filePath;
                        report.Line := token.Line pos;
                        report.Column := token.Column pos;
                        report.Rule := "no_ignored_errors";
                        report.Category := "error_handling";
                        report.Severity :=
                          ParseSeverity (BaseRule.Severity (IgnoredErrorsRule.Base rule));
                        report.Message := BaseRule.Message (IgnoredErrorsRule.Base rule);
                        report.Suggestion := "エラーを適切にハンドリングしてください";
                        report.Code := getCodeLine c filePath (token.Line pos) |} ]
                 else []
             | _ => []
             end
           else []
       | _ => []
       end)
      ++ assignmentLoop c a filePath (S i) lhs'
  end.

Definition checkAssignment (c : Checker) (a : ast.AssignStmt) (filePath : string)
  : list report.Violation :=
  let errors := Config.ErrorHandling (config c) in
  if negb (ErrorHandlingConfig.Enabled errors)
     || negb (BaseRule.Enabled
                (IgnoredErrorsRule.Base
                   (ErrorHandlingRulesConfig.NoIgnoredErrors (ErrorHandlingConfig.Rules errors))))
  then []
  else assignmentLoop c a filePath 0 (ast.AssignStmt_Lhs a).

Definition checkCallExpr (c : Checker) (callFun : ast.Expr) (pos : token.Position)
    (filePath : string) : list report.Violation :=
  let callStr := getCallExprString callFun in
  let errors := Config.ErrorHandling (config c) in
  let logging := Config.Logging (config c) in
  (if ErrorHandlingConfig.Enabled errors
      && BaseRule.Enabled
           (AllowedInRule.Base (ErrorHandlingRulesConfig.NoPanic (ErrorHandlingConfig.Rules errors)))
   then
     if decide (callStr = "panic") then
       let rule := ErrorHandlingRulesConfig.NoPanic (ErrorHandlingConfig.Rules errors) in
       let allowed :=
         existsb (fun pattern => filepath.Match pattern (filepath.Base filePath))
                 (AllowedInRule.AllowedIn rule) in
       if negb allowed then
         [ {| report.File := filePath;
              report.Line := token.Line pos;
              report.Column := 0;
              report.Rule := "no_panic";
              report.Category := "error_handling";
              report.Severity := ParseSeverity (BaseRule.Severity (AllowedInRule.Base rule));
              report.Message := BaseRule.Message (AllowedInRule.Base rule);
              report.Suggestion := "エラーを返却してください";
              report.Code := getCodeLine c filePath (token.Line pos) |} ]
       else []
     else []
   else [])
  ++
  (if LoggingConfig.Enabled logging
      && BaseRule.Enabled (LoggingRulesConfig.NoFmtPrintln (LoggingConfig.Rules logging))
   then
     if Go.HasPrefix callStr "fmt.Print" then
       let rule := LoggingRulesConfig.NoFmtPrintln (LoggingConfig.Rules logging) in
       [ {| report.File := filePath;
            report.Line := token.Line pos;
            report.Column := 0;
            report.Rule := "no_fmt_println";
            report.Category := "logging";
            report.Severity := ParseSeverity (BaseRule.Severity rule);
            report.Message := BaseRule.Message rule;
            report.Suggestion := "構造化ログライブラリ（zerolog等）を使用してください";
            report.Code := getCodeLine c filePath (token.Line pos) |} ]
     else []
   else []).

Definition checkDirectory (w : os.World) (c : Checker) (targetDir : string)
  : list report.Violation :=
  let dirs := DirectoryConfig.Rules (Config.Directory (config c)) in
  (if BaseRule.Enabled (DirsRule.Base (DirectoryRulesConfig.RequiredDirs dirs)) then
     let rule := DirectoryRulesConfig.RequiredDirs dirs in
     flat_map
       (fun dir =>
          let path := filepath.Join targetDir dir in
          if os.IsNotExist w path then
            [ {| report.File := targetDir;
                 report.Line := 1;
                 report.Column := 0;
                 report.Rule := "required_dirs";
                 report.Category := "directory";
                 report.Severity := ParseSeverity (BaseRule.Severity (DirsRule.Base rule));
                 report.Message := "必須ディレクトリ '" +:+ dir +:+ "' が見つかりません";
                 report.Suggestion := "mkdir -p " +:+ path;
                 report.Code := "" |} ]
          else [])
       (DirsRule.Dirs rule)
   else [])
  ++
  (if BaseRule.Enabled (DirsRule.Base (DirectoryRulesConfig.RecommendedDirs dirs)) then
     let rule := DirectoryRulesConfig.RecommendedDirs dirs in
     flat_map
       (fun dir =>
          let path := filepath.Join targetDir dir in
          if os.IsNotExist w path then
            [ {| report.File := targetDir;
                 report.Line := 1;
                 report.Column := 0;
                 report.Rule := "recommended_dirs";
                 report.Category := "directory";
                 report.Severity := ParseSeverity (BaseRule.Severity (DirsRule.Base rule));
                 report.Message := "推奨ディレクトリ '" +:+ dir +:+ "' が見つかりません";
                 report.Suggestion := "";
                 report.Code := "" |} ]
          else [])
       (DirsRule.Dirs rule)
   else []).

(** The inner loop of [checkCustomRules] over the lines of the file,
    from index [i] on. *)
Fixpoint customLines (rule : CustomRule.t) (pattern : regexp.Regexp) (filePath : string)
    (i : nat) (lines : list string) : list report.Violation :=
  match lines with
  | [] => []
  | line :: lines' =>
      (if regexp.Regexp_MatchString pattern line then
         [ {| report.File := filePath;
              report.Line := Go.add (Z.of_nat i) 1;
              report.Column := 0;
              report.Rule := CustomRule.Name rule;
              report.Category := "custom";
              report.Severity := ParseSeverity (CustomRule.Severity rule);
              report.Message := CustomRule.Message rule;
              report.Suggestion := "";
              report.Code := unicode.TrimSpace line |} ]
       else [])
      ++ customLines rule pattern filePath (S i) lines'
  end.

(** One turn of the outer loop of [checkCustomRules]. *)
Definition checkCustomRule (c : Checker) (filePath : string) (rule : CustomRule.t)
  : list report.Violation :=
  if negb (CustomRule.Enabled rule) then []
  else
    let excluded :=
      existsb (fun pattern => filepath.Match pattern (filepath.Base filePath))
              (CustomRule.ExcludeFiles rule) in
    if excluded then []
    else
      match regexp.Compile (CustomRule.Pattern rule) with
      | None => []
      | Some pattern =>
          let lines := default [] (fileMap c !! filePath) in
          customLines rule pattern filePath 0 lines
      end.

Definition checkCustomRules (c : Checker) (filePath : string) : list report.Violation :=
  flat_map (checkCustomRule c filePath) (Config.CustomRules (config c)).

(** The callback that [checkFile] hands to [ast.Inspect]. *)
Definition inspect (c : Checker) (filePath : string) (n : ast.Node)
  : list report.Violation :=
  match n with
  | ast.NFuncDecl node => checkFunction c node filePath
  | ast.NGenDecl node => checkGenDecl c node filePath
  | ast.NTypeSpec node => checkTypeSpec c node filePath
  | ast.NAssignStmt node => checkAssignment c node filePath
  | ast.NCallExpr callFun pos => checkCallExpr c callFun pos filePath
  | ast.NOther => []
  end.

(** [checkFile]: the checker after the call and the error it returns. *)
Definition checkFile (w : os.World) (c : Checker) (filePath : string)
  : Checker * option string :=
  match os.ReadFileLines w filePath with
  | os.Err err => (c, Some err)
  | os.Ok lines =>
      let c := setFileMap c (<[filePath := lines]> (fileMap c)) in
      match os.ParseFile w filePath with
      | os.Err err => (c, Some ("parse error: " +:+ err))
      | os.Ok file =>
          let naming := Config.Naming (config c) in
          let c :=
            if NamingConfig.Enabled naming
               && BaseRule.Enabled
                    (PatternRule.Base (NamingRulesConfig.FileName (NamingConfig.Rules naming)))
            then addViolations c (checkFileName c filePath) else c in
          let c :=
            if NamingConfig.Enabled naming
               && BaseRule.Enabled
                    (PatternRule.Base (NamingRulesConfig.PackageName (NamingConfig.Rules naming)))
            then addViolations c (checkPackageName c file filePath) else c in
          let c :=
            fold_left (fun c n => addViolations c (inspect c filePath n))
                      (ast.File_Nodes file) c in
          (c, None)
      end
  end.

Definition newline : string := String (ascii_of_nat 10) EmptyString.

(** The first loop of [Check]: every file is checked, and a file whose
    check returns an error leaves a warning on standard output. *)
Definition checkFiles (w : os.World) (c : Checker) (goFiles : list string) : Checker :=
  fold_left
    (fun c filePath =>
       match checkFile w c filePath with
       | (c, Some err) =>
           printf c ("Warning: failed to check " +:+ filePath +:+ ": " +:+ err +:+ newline)
       | (c, None) => c
       end)
    goFiles c.

(** The second loop of [Check]. *)
Definition checkAllCustomRules (c : Checker) (goFiles : list string) : Checker :=
  fold_left (fun c filePath => addViolations c (checkCustomRules c filePath)) goFiles c.

Context `{sort.Sorter}.

Definition Check (w : os.World) (c : Checker) (targetDir : string)
  : Checker * os.Result report.Report :=
  let c := setReport c (report.NewReport targetDir) in
  let c :=
    if DirectoryConfig.Enabled (Config.Directory (config c))
    then addViolations c (checkDirectory w c targetDir) else c in
  match os.GoFiles w targetDir with
  | os.Err err => (c, os.Err ("failed to collect Go files: " +:+ err))
  | os.Ok goFiles =>
      let c := setReport c (report.setTotalFiles (report c) (Go.len goFiles)) in
      let c := checkFiles w c goFiles in
      let c := checkAllCustomRules c goFiles in
      let c := setReport c (report.Finalize (report c)) in
      (c, os.Ok (report c))
  end.

(** *** Collecting the files

    [collectGoFiles] reads [c.config.Settings] only; the walk starts
    from the empty slice [files], and a walk that fails returns the files
    collected so far with the error. *)

Context `{filepath.Relative}.

(** The function that [collectGoFiles] hands to [filepath.Walk]; it
    appends to [files].  Reading [info] where it is [nil] panics. *)
Definition collectGoFile (settings : Settings.t) (dir : string) (files : list string)
    (path : string) (info : option fs.FileInfo) (err : option string)
  : option (list string * option fs.WalkErr) :=
  match err with
  | Some err => Some (files, Some (fs.Error err))
  | None =>
      info ← info;
      if fs.IsDir info then
        if existsb (fun pattern => filepath.Match pattern (fs.Name info)
                                   || filepath.Match pattern path)
                   (Settings.ExcludePatterns settings)
        then Some (files, Some fs.SkipDir)
        else Some (files, None)
      else if negb (Go.HasSuffix path ".go") then Some (files, None)
      else
        let relPath := filepath.Rel dir path in
        if existsb (fun pattern => filepath.Match pattern (filepath.Base path)
                                   || filepath.Match pattern relPath)
                   (Settings.ExcludePatterns settings)
        then Some (files, None)
        else Some (files ++ [path], None)
  end.

Definition collectGoFiles (settings : Settings.t) (dir : string) (root : fs.Entry)
  : option (list string * option string) :=
  fs.Walk (collectGoFile settings dir) [] dir root.

End WithLibraries.

End checker.

(** * Properties *)

(** ** Arithmetic of [int] *)

Lemma wrap_small z : Go.minInt <= z <= Go.maxInt -> Go.wrap z = z.
Proof.
  unfold Go.wrap, Go.minInt, Go.maxInt. intros Hz.
  rewrite Z.mod_small by lia. lia.
Qed.

Lemma wrap_range z : Go.minInt <= Go.wrap z <= Go.maxInt.
Proof.
  unfold Go.wrap, Go.minInt, Go.maxInt.
  pose proof (Z.mod_pos_bound (z + 2 ^ 63) (2 ^ 64)). lia.
Qed.

Lemma wrap_add_l a b : Go.wrap (Go.wrap a + b) = Go.wrap (a + b).
Proof.
  unfold Go.wrap.
  replace ((a + 2 ^ 63) mod 2 ^ 64 - 2 ^ 63 + b + 2 ^ 63)
    with ((a + 2 ^ 63) mod 2 ^ 64 + b) by lia.
  rewrite Zplus_mod_idemp_l. f_equal. f_equal. lia.
Qed.

Lemma wrap_wrap z : Go.wrap (Go.wrap z) = Go.wrap z.
Proof.
  pose proof (wrap_add_l z 0) as E. by rewrite !Z.add_0_r in E.
Qed.

Lemma add_small a b : Go.minInt <= a + b <= Go.maxInt -> Go.add a b = a + b.
Proof. apply wrap_small. Qed.

Lemma sub_small a b : Go.minInt <= a - b <= Go.maxInt -> Go.sub a b = a - b.
Proof. apply wrap_small. Qed.

(** Two integers with the same wrap-around differ by a multiple of [2^64]. *)
Lemma wrap_eq_inv a b : Go.wrap a = Go.wrap b -> (a - b) mod 2 ^ 64 = 0.
Proof.
  unfold Go.wrap. intros Hab.
  assert (Hmod : (a + 2 ^ 63) mod 2 ^ 64 = (b + 2 ^ 63) mod 2 ^ 64) by lia.
  replace (a - b) with ((a + 2 ^ 63) - (b + 2 ^ 63)) by lia.
  rewrite Zminus_mod, Hmod, Z.sub_diag. reflexivity.
Qed.

(** ** [sort]: the insertion sort meets the contract of [sort.Slice] *)

Section InsertionSort.
Context {A : Type} (less : A -> A -> bool).

Lemma insertBack_perm x l : sort.insertBack less x l ≡ₚ x :: l.
Proof.
  induction l as [|y l IH]; simpl; [done|].
  destruct (less x y); [|done].
  rewrite IH. apply perm_swap.
Qed.

Lemma insertionSort_perm l : sort.insertionSort less l ≡ₚ l.
Proof.
  unfold sort.insertionSort.
  assert (Hgen : forall acc,
    fold_left (fun revPrefix x => sort.insertBack less x revPrefix) l acc ≡ₚ l ++ acc).
  { induction l as [|x l IH]; intros acc; simpl; [done|].
    rewrite IH, insertBack_perm. by rewrite Permutation_middle. }
  rewrite <- Permutation_rev, Hgen. by rewrite app_nil_r.
Qed.

Hypothesis less_swo : sort.StrictWeakOrder less.

(** Not-less is transitive for a strict weak order. *)
Lemma not_less_trans a b c :
  less a b = false -> less b c = false -> less a c = false.
Proof.
  intros Hab Hbc. destruct (less a c) eqn:Hac; [|done].
  destruct (sort.swo_cotrans less less_swo a c b Hac); congruence.
Qed.

(** The reversed prefix is sorted from its right end. *)
Lemma insertBack_sorted x l :
  StronglySorted (fun a b => less a b = false) l ->
  StronglySorted (fun a b => less a b = false) (sort.insertBack less x l).
Proof.
  induction l as [|y l IH]; simpl; intros Hs.
  - repeat constructor.
  - apply StronglySorted_inv in Hs as [Hl Hy].
    destruct (less x y) eqn:Hxy.
    + constructor; [by apply IH|].
      rewrite insertBack_perm. constructor; [|done].
      by apply (sort.swo_asym less less_swo).
    + constructor; [by constructor|].
      constructor; [done|].
      eapply Forall_impl; [exact Hy|]. intros z Hyz. by eapply not_less_trans.
Qed.

Lemma StronglySorted_rev_flip (R : A -> A -> Prop) l :
  StronglySorted R l -> StronglySorted (fun x y => R y x) (rev l).
Proof.
  induction 1 as [|x l Hl IH Hx]; simpl; [constructor|].
  apply StronglySorted_app; split_and!; [|done|repeat constructor].
  intros x1 x2 Hx1 Hx2. apply list_elem_of_singleton in Hx2 as ->.
  rewrite Forall_forall in Hx. apply Hx.
  apply list_elem_of_In, in_rev. by apply list_elem_of_In.
Qed.

Lemma insertionSort_sorted l : sort.SortedBy less (sort.insertionSort less l).
Proof.
  unfold sort.SortedBy, sort.insertionSort.
  apply (StronglySorted_rev_flip (fun a b => less a b = false)).
  assert (Hgen : forall acc,
    StronglySorted (fun a b => less a b = false) acc ->
    StronglySorted (fun a b => less a b = false)
      (fold_left (fun revPrefix x => sort.insertBack less x revPrefix) l acc)).
  { induction l as [|x l IH]; intros acc Hacc; simpl; [done|].
    apply IH. by apply insertBack_sorted. }
  apply Hgen. constructor.
Qed.

End InsertionSort.

(** [sort.Slice] as it runs on a slice of at most twelve elements. *)
Definition insertionSorter : sort.Sorter := {|
  sort.Slice := @sort.insertionSort;
  sort.Slice_perm := @insertionSort_perm;
  sort.Slice_sorted := fun A less l Hswo => insertionSort_sorted less Hswo l
|}.

(** ** Byte-wise order of strings, the order of Go's [<] on [string] *)

Lemma string_ltb_lt a b : String.ltb a b = true <-> String_as_OT.lt a b.
Proof.
  unfold String.ltb. rewrite <- String_as_OT.cmp_lt. unfold String_as_OT.cmp.
  destruct (String.compare a b); split; congruence.
Qed.

Lemma string_ltb_asym a b : String.ltb a b = true -> String.ltb b a = false.
Proof.
  rewrite string_ltb_lt. intros Hab.
  destruct (String.ltb b a) eqn:Hba; [|done].
  apply string_ltb_lt in Hba.
  destruct (String_as_OT.lt_not_eq _ _ (String_as_OT.lt_trans _ _ _ Hab Hba)).
  reflexivity.
Qed.

Lemma string_ltb_total a b :
  String.ltb a b = false -> String.ltb b a = false -> a = b.
Proof.
  unfold String.ltb. rewrite (String.compare_antisym b a).
  destruct (String.compare a b) eqn:Hc; simpl; try congruence.
  intros _ _. by apply String.compare_eq_iff.
Qed.

Lemma string_ltb_cotrans a b c :
  String.ltb a b = true -> String.ltb a c = true \/ String.ltb c b = true.
Proof.
  intros Hab.
  destruct (String.ltb a c) eqn:Hac; [by left|right].
  destruct (String.ltb c a) eqn:Hca.
  - apply string_ltb_lt. apply string_ltb_lt in Hab, Hca.
    eapply String_as_OT.lt_trans; eassumption.
  - by rewrite (string_ltb_total c a Hca Hac).
Qed.

(** ** The order of the report *)

(** The three keys that [report.less] compares. *)
Definition sortKey (v : report.Violation) : Z * string * Z :=
  (rules.Level (report.Severity v), report.File v, report.Line v).

(** [report.less] on the keys alone. *)
Definition keyLess (k1 k2 : Z * string * Z) : bool :=
  let '(l1, f1, n1) := k1 in
  let '(l2, f2, n2) := k2 in
  if negb (l1 =? l2) then l1 >? l2
  else if negb (String.eqb f1 f2) then String.ltb f1 f2
  else n1 <? n2.

Lemma less_keyLess vi vj : report.less vi vj = keyLess (sortKey vi) (sortKey vj).
Proof. reflexivity. Qed.

Lemma keyLess_asym k1 k2 : keyLess k1 k2 = true -> keyLess k2 k1 = false.
Proof.
  destruct k1 as [[l1 f1] n1], k2 as [[l2 f2] n2]. simpl.
  destruct (Z.eqb_spec l1 l2) as [->|Hl]; simpl.
  - rewrite Z.eqb_refl. simpl.
    destruct (String.eqb_spec f1 f2) as [->|Hf]; simpl.
    + rewrite String.eqb_refl. simpl. lia.
    + destruct (String.eqb_spec f2 f1) as [->|_]; [done|]. simpl.
      apply string_ltb_asym.
  - destruct (Z.eqb_spec l2 l1) as [->|_]; [done|]. simpl. lia.
Qed.

Lemma keyLess_cotrans k1 k2 k3 :
  keyLess k1 k2 = true -> keyLess k1 k3 = true \/ keyLess k3 k2 = true.
Proof.
  destruct k1 as [[l1 f1] n1], k2 as [[l2 f2] n2], k3 as [[l3 f3] n3]. simpl.
  destruct (Z.eqb_spec l1 l2) as [->|H12]; simpl.
  - destruct (Z.eqb_spec l2 l3) as [->|H23]; simpl.
    + rewrite Z.eqb_refl. simpl.
      destruct (String.eqb_spec f1 f2) as [->|F12]; simpl.
      * destruct (String.eqb_spec f2 f3) as [->|F23]; simpl.
        -- rewrite String.eqb_refl. simpl. lia.
        -- destruct (String.eqb_spec f3 f2) as [->|_]; [done|]. simpl. intros _.
           destruct (String.ltb f2 f3) eqn:E; [by left|right].
           destruct (String.ltb f3 f2) eqn:E'; [done|].
           destruct F23. by apply string_ltb_total.
      * intros Hlt.
        destruct (string_ltb_cotrans _ _ f3 Hlt) as [H13|H32].
        -- left. destruct (String.eqb_spec f1 f3) as [->|_]; simpl; [|done].
           by rewrite (string_ltb_asym _ _ H13) in H13.
        -- right. destruct (String.eqb_spec f3 f2) as [->|_]; simpl; [|done].
           by rewrite (string_ltb_asym _ _ H32) in H32.
    + intros _. destruct (Z.eqb_spec l3 l2) as [->|_]; [done|]. simpl. lia.
  - intros Hgt.
    destruct (Z.eqb_spec l1 l3) as [->|H13]; simpl.
    + right. destruct (Z.eqb_spec l3 l2) as [->|_]; [done|]. simpl. lia.
    + destruct (Z.eqb_spec l3 l2) as [->|H32]; simpl; [left; lia|]. lia.
Qed.

(** No key is less than the other exactly when the keys are equal. *)
Lemma keyLess_antisym k1 k2 :
  keyLess k1 k2 = false -> keyLess k2 k1 = false -> k1 = k2.
Proof.
  destruct k1 as [[l1 f1] n1], k2 as [[l2 f2] n2]. simpl.
  destruct (Z.eqb_spec l1 l2) as [->|Hl]; simpl.
  - rewrite Z.eqb_refl. simpl.
    destruct (String.eqb_spec f1 f2) as [->|Hf]; simpl.
    + rewrite String.eqb_refl. simpl. intros. repeat f_equal. lia.
    + destruct (String.eqb_spec f2 f1) as [->|_]; [done|]. simpl.
      intros H1 H2. destruct Hf. by apply string_ltb_total.
  - destruct (Z.eqb_spec l2 l1) as [->|_]; [done|]. simpl. lia.
Qed.

Lemma less_swo : sort.StrictWeakOrder report.less.
Proof.
  split.
  - intros a b. rewrite !less_keyLess. apply keyLess_asym.
  - intros a b c. rewrite !less_keyLess. apply keyLess_cotrans.
Qed.

(** ** Counting into a [map[string]int] *)

(** The map that the counting loop builds from an empty map. *)
Definition counts (ks : list string) : gmap string Z := fold_left Go.incr ks ∅.

(** The number of occurrences of [k] among [ks]. *)
Definition occurrences (k : string) (ks : list string) : Z :=
  Go.len (filter (fun k' => k' = k) ks).

(** The sum of the values of a map, over all of its keys. *)
Definition sumValues (m : gmap string Z) : Z := map_fold (fun _ v acc => v + acc) 0 m.

Lemma occurrences_nil k : occurrences k [] = 0.
Proof. reflexivity. Qed.

Lemma occurrences_snoc k ks k' :
  occurrences k (ks ++ [k']) = occurrences k ks + (if decide (k' = k) then 1 else 0).
Proof.
  unfold occurrences, Go.len. rewrite filter_app, length_app.
  rewrite filter_cons, filter_nil. destruct (decide (k' = k)); simpl; lia.
Qed.

Lemma occurrences_range k ks : 0 <= occurrences k ks <= Go.len ks.
Proof.
  unfold occurrences, Go.len. pose proof (length_filter (fun k' => k' = k) ks). lia.
Qed.

Lemma occurrences_pos k ks : k ∈ ks <-> 0 < occurrences k ks.
Proof.
  unfold occurrences, Go.len. split.
  - intros Hin. assert (Hk : k ∈ filter (fun k' => k' = k) ks) by by apply list_elem_of_filter.
    destruct (filter (fun k' => k' = k) ks); [by apply not_elem_of_nil in Hk|simpl; lia].
  - intros Hpos. destruct (filter (fun k' => k' = k) ks) as [|x l] eqn:E; [simpl in Hpos; lia|].
    assert (Hx : x ∈ filter (fun k' => k' = k) ks) by (rewrite E; left).
    apply list_elem_of_filter in Hx as [-> Hx]. done.
Qed.

Lemma occurrences_perm k ks ks' : ks ≡ₚ ks' -> occurrences k ks = occurrences k ks'.
Proof. intros Hp. unfold occurrences, Go.len. by rewrite Hp. Qed.

Lemma counts_snoc ks k : counts (ks ++ [k]) = Go.incr (counts ks) k.
Proof. unfold counts. by rewrite fold_left_app. Qed.

(** As long as the slice is no longer than [maxInt], no counter wraps
    around: each key holds the number of its occurrences. *)
Lemma counts_lookup ks k :
  Go.len ks <= Go.maxInt ->
  counts ks !! k = if decide (k ∈ ks) then Some (occurrences k ks) else None.
Proof.
  revert k. induction ks as [|k' ks IH] using rev_ind; intros k Hlen.
  - unfold counts. simpl. by rewrite lookup_empty.
  - assert (Hlen' : Go.len ks <= Go.maxInt /\ Go.len ks + 1 <= Go.maxInt).
    { unfold Go.len in *. rewrite length_app in Hlen. simpl in Hlen. lia. }
    destruct Hlen' as [Hlen1 Hlen2].
    rewrite counts_snoc. unfold Go.incr, Go.index.
    assert (Hold : default 0 (counts ks !! k') = occurrences k' ks).
    { rewrite IH by done. destruct (decide (k' ∈ ks)) as [|Hn]; [done|]. simpl.
      pose proof (occurrences_range k' ks). pose proof (occurrences_pos k' ks).
      destruct (decide (0 < occurrences k' ks)); [tauto|lia]. }
    rewrite Hold, occurrences_snoc.
    rewrite add_small
      by (pose proof (occurrences_range k' ks); unfold Go.minInt, Go.maxInt in *; lia).
    destruct (decide (k' = k)) as [->|Hne].
    + rewrite lookup_insert_eq. rewrite decide_True by (apply elem_of_app; right; left). done.
    + rewrite lookup_insert_ne by done. rewrite IH by done.
      destruct (decide (k ∈ ks)) as [Hin|Hnin].
      * rewrite decide_True by (apply elem_of_app; by left). f_equal. lia.
      * rewrite decide_False; [done|].
        rewrite elem_of_app, list_elem_of_singleton. intros [?|?]; congruence.
Qed.

Lemma sumValues_empty : sumValues ∅ = 0.
Proof. unfold sumValues. by rewrite map_fold_empty. Qed.

Lemma sumValues_insert_None (m : gmap string Z) k v :
  m !! k = None -> sumValues (<[k := v]> m) = v + sumValues m.
Proof.
  intros Hk. unfold sumValues. rewrite map_fold_insert_L; [done| |done].
  intros. lia.
Qed.

Lemma sumValues_insert (m : gmap string Z) k v :
  sumValues (<[k := v]> m) = sumValues m - default 0 (m !! k) + v.
Proof.
  destruct (m !! k) as [x|] eqn:Hk; simpl.
  - rewrite <- insert_delete_eq.
    rewrite sumValues_insert_None by apply lookup_delete_eq.
    rewrite <- (insert_delete_id m k x) at 2 by done.
    rewrite sumValues_insert_None by apply lookup_delete_eq. lia.
  - rewrite sumValues_insert_None by done. lia.
Qed.

Lemma sumValues_counts ks : Go.len ks <= Go.maxInt -> sumValues (counts ks) = Go.len ks.
Proof.
  induction ks as [|k ks IH] using rev_ind; intros Hlen.
  - unfold counts. simpl. apply sumValues_empty.
  - assert (Hlen' : Go.len ks <= Go.maxInt /\ Go.len (ks ++ [k]) = Go.len ks + 1).
    { unfold Go.len in *. rewrite length_app in *. simpl in *. lia. }
    destruct Hlen' as [Hlen1 Hlen2].
    rewrite counts_snoc. unfold Go.incr, Go.index.
    rewrite sumValues_insert, IH, Hlen2 by done.
    assert (Hold : default 0 (counts ks !! k) = occurrences k ks).
    { rewrite counts_lookup by done. destruct (decide (k ∈ ks)) as [|Hn]; [done|]. simpl.
      pose proof (occurrences_range k ks). pose proof (occurrences_pos k ks).
      destruct (decide (0 < occurrences k ks)); [tauto|lia]. }
    rewrite Hold.
    rewrite add_small
      by (pose proof (occurrences_range k ks); unfold Go.minInt, Go.maxInt in *; lia).
    lia.
Qed.

(** A counter after the loop, whatever the map held before it. *)
Lemma index_fold_incr ks (m : gmap string Z) k :
  Go.wrap (Go.index (fold_left Go.incr ks m) k)
  = Go.wrap (Go.index m k + occurrences k ks).
Proof.
  revert m. induction ks as [|k' ks IH] using rev_ind; intros m.
  - simpl. rewrite occurrences_nil. f_equal. lia.
  - rewrite fold_left_app. simpl. rewrite occurrences_snoc.
    unfold Go.incr at 1. unfold Go.index at 1.
    destruct (decide (k' = k)) as [->|Hne].
    + rewrite lookup_insert_eq. simpl. unfold Go.add.
      rewrite <- (wrap_add_l (Go.index _ k) 1), IH, wrap_add_l.
      rewrite wrap_wrap. f_equal. lia.
    + rewrite lookup_insert_ne by done. fold (Go.index (fold_left Go.incr ks m) k).
      rewrite IH. f_equal. lia.
Qed.

(** ** The report: [AddViolation] and [Finalize] *)

Lemma fold_count_TotalViolations vs s :
  report.TotalViolations (fold_left report.count vs s) = report.TotalViolations s.
Proof. revert s. induction vs as [|v vs IH]; intros s; simpl; [done|]. by rewrite IH. Qed.

Lemma fold_count_BySeverity vs s :
  report.BySeverity (fold_left report.count vs s)
  = fold_left Go.incr (report.Severity <$> vs) (report.BySeverity s).
Proof. revert s. induction vs as [|v vs IH]; intros s; simpl; [done|]. by rewrite IH. Qed.

Lemma fold_count_ByCategory vs s :
  report.ByCategory (fold_left report.count vs s)
  = fold_left Go.incr (report.Category <$> vs) (report.ByCategory s).
Proof. revert s. induction vs as [|v vs IH]; intros s; simpl; [done|]. by rewrite IH. Qed.

Lemma fold_count_PassedRules vs s :
  report.PassedRules (fold_left report.count vs s) = report.PassedRules s.
Proof. revert s. induction vs as [|v vs IH]; intros s; simpl; [done|]. by rewrite IH. Qed.

Lemma fold_count_FailedRules vs s :
  report.FailedRules (fold_left report.count vs s) = report.FailedRules s.
Proof. revert s. induction vs as [|v vs IH]; intros s; simpl; [done|]. by rewrite IH. Qed.

Lemma fold_AddViolation_Violations vs r :
  report.Violations (fold_left report.AddViolation vs r) = report.Violations r ++ vs.
Proof.
  revert r. induction vs as [|v vs IH]; intros r; simpl; [by rewrite app_nil_r|].
  rewrite IH. simpl. by rewrite <- app_assoc.
Qed.

Lemma fold_AddViolation_Summary vs r :
  report.Summary_ (fold_left report.AddViolation vs r) = report.Summary_ r.
Proof. revert r. induction vs as [|v vs IH]; intros r; simpl; [done|]. by rewrite IH. Qed.

Lemma fold_AddViolation_TotalFiles vs r :
  report.TotalFiles (fold_left report.AddViolation vs r) = report.TotalFiles r.
Proof. revert r. induction vs as [|v vs IH]; intros r; simpl; [done|]. by rewrite IH. Qed.

Lemma fold_AddViolation_ProjectPath vs r :
  report.ProjectPath (fold_left report.AddViolation vs r) = report.ProjectPath r.
Proof. revert r. induction vs as [|v vs IH]; intros r; simpl; [done|]. by rewrite IH. Qed.

(** The order that the sort establishes between an earlier finding [vi]
    and a later finding [vj]: severity descending, then file path
    ascending, then line ascending. *)
Definition inOrder (vi vj : report.Violation) : Prop :=
  rules.Level (report.Severity vi) > rules.Level (report.Severity vj)
  \/ (rules.Level (report.Severity vi) = rules.Level (report.Severity vj)
      /\ (String.ltb (report.File vi) (report.File vj) = true
          \/ (report.File vi = report.File vj /\ report.Line vi <= report.Line vj))).

Lemma not_less_inOrder vi vj : report.less vj vi = false -> inOrder vi vj.
Proof.
  unfold report.less, inOrder.
  destruct (Z.eqb_spec (rules.Level (report.Severity vj)) (rules.Level (report.Severity vi)))
    as [Hl|Hl]; simpl.
  - destruct (String.eqb_spec (report.File vj) (report.File vi)) as [Hf|Hf]; simpl.
    + intros Hn. right. split; [done|]. right. split; [done|]. lia.
    + intros Hn. right. split; [done|]. left.
      destruct (String.ltb (report.File vi) (report.File vj)) eqn:E; [done|].
      destruct Hf. by apply string_ltb_total.
  - intros Hn. left. lia.
Qed.

Section ReportProperties.
Context `{sort.Sorter}.

Lemma Finalize_Violations_perm r :
  report.Violations (report.Finalize r) ≡ₚ report.Violations r.
Proof. apply sort.Slice_perm. Qed.

Lemma Finalize_Violations_sorted r :
  sort.SortedBy report.less (report.Violations (report.Finalize r)).
Proof. apply sort.Slice_sorted, less_swo. Qed.

Lemma Finalize_TotalViolations r :
  report.TotalViolations (report.Summary_ (report.Finalize r))
  = Go.len (report.Violations r).
Proof. simpl. by rewrite fold_count_TotalViolations. Qed.

Lemma Finalize_BySeverity r :
  report.BySeverity (report.Summary_ (report.Finalize r))
  = fold_left Go.incr (report.Severity <$> report.Violations r)
              (report.BySeverity (report.Summary_ r)).
Proof. simpl. by rewrite fold_count_BySeverity. Qed.

Lemma Finalize_ByCategory r :
  report.ByCategory (report.Summary_ (report.Finalize r))
  = fold_left Go.incr (report.Category <$> report.Violations r)
              (report.ByCategory (report.Summary_ r)).
Proof. simpl. by rewrite fold_count_ByCategory. Qed.

Lemma SortedBy_lookup {A : Type} (less : A -> A -> bool) (l : list A) i j x y :
  sort.SortedBy less l -> (i < j)%nat -> l !! i = Some x -> l !! j = Some y ->
  less y x = false.
Proof.
  unfold sort.SortedBy. intros Hs. revert i j.
  induction Hs as [|a l Hl IH Ha]; intros i j Hij Hi Hj; [done|].
  destruct j as [|j]; [lia|]. destruct i as [|i]; simpl in *.
  - injection Hi as ->. rewrite Forall_forall in Ha. apply Ha.
    by eapply list_elem_of_lookup_2.
  - eapply (IH i j); [lia|done..].
Qed.

(** Two sorted permutations of the same findings show the same sequence
    of keys. *)
Lemma sorted_keys_unique (l1 l2 : list report.Violation) :
  sort.SortedBy report.less l1 -> sort.SortedBy report.less l2 -> l1 ≡ₚ l2 ->
  sortKey <$> l1 = sortKey <$> l2.
Proof.
  intros H1 H2 Hp.
  apply (StronglySorted_unique_strong (fun k1 k2 => keyLess k2 k1 = false)).
  - intros k1 k2 _ _ Hk1 Hk2. by apply keyLess_antisym.
  - eapply StronglySorted_fmap; [|exact H1]. intros x y Hxy. exact Hxy.
  - eapply StronglySorted_fmap; [|exact H2]. intros x y Hxy. exact Hxy.
  - by rewrite Hp.
Qed.

End ReportProperties.

(** *** Findings and reports used as concrete inputs *)

Definition finding (file : string) (line : Z) (rule category : string)
    (severity : rules.Severity) : report.Violation :=
  {| report.File := file; report.Line := line; report.Column := 0;
     report.Rule := rule; report.Category := category; report.Severity := severity;
     report.Message := ""; report.Suggestion := ""; report.Code := "" |}.

(** A report as a scan builds it: [NewReport], then [AddViolation] for
    each finding in turn. *)
Definition reportOf (projectPath : string) (vs : list report.Violation) : report.Report :=
  fold_left report.AddViolation vs (report.NewReport projectPath).

(** Such a report has empty counters until [Finalize] runs. *)
Lemma reportOf_BySeverity projectPath vs :
  report.BySeverity (report.Summary_ (reportOf projectPath vs)) = ∅.
Proof. unfold reportOf. by rewrite fold_AddViolation_Summary. Qed.

Definition oneError : report.Report :=
  reportOf "proj" [finding "a.go" 1 "file_name" "naming" rules.SeverityError].

(** Two findings of [checkFunction] for one function: they agree on
    severity, file and line. *)
Definition tooManyParameters : report.Violation :=
  finding "a.go" 3 "max_parameters" "structure" rules.SeverityWarning.
Definition tooManyResults : report.Violation :=
  finding "a.go" 3 "max_return_values" "structure" rules.SeverityWarning.

Section FinalizeClaims.
Context `{sort.Sorter}.

(** C1 (the code departs from the claim): on a report that holds one
    finding of severity error, the first [Finalize] counts it once and a
    second [Finalize] counts it again: the per-severity and per-category
    counters read 2 while [TotalViolations] still reads 1, so the state
    after two calls differs from the state after one. *)
Theorem Finalize_twice_counts_twice :
  report.BySeverity (report.Summary_ (report.Finalize oneError)) !! "error" = Some 1
  /\ report.BySeverity (report.Summary_ (report.Finalize (report.Finalize oneError)))
       !! "error" = Some 2
  /\ report.ByCategory (report.Summary_ (report.Finalize (report.Finalize oneError)))
       !! "naming" = Some 2
  /\ report.TotalViolations (report.Summary_ (report.Finalize (report.Finalize oneError))) = 1
  /\ report.Finalize (report.Finalize oneError) <> report.Finalize oneError.
Proof.
  set (v := finding "a.go" 1 "file_name" "naming" rules.SeverityError).
  assert (Hone : report.Violations (report.Finalize oneError) = [v]).
  { apply Permutation_singleton_r. apply (Finalize_Violations_perm oneError). }
  assert (H1 : report.BySeverity (report.Summary_ (report.Finalize oneError)) !! "error"
               = Some 1).
  { rewrite Finalize_BySeverity. reflexivity. }
  assert (H2 : report.BySeverity (report.Summary_ (report.Finalize (report.Finalize oneError)))
                 !! "error" = Some 2).
  { rewrite Finalize_BySeverity, Hone, Finalize_BySeverity. reflexivity. }
  split_and!; [done|done| | |].
  - rewrite Finalize_ByCategory, Hone, Finalize_ByCategory. reflexivity.
  - rewrite Finalize_TotalViolations, Hone. reflexivity.
  - intros Heq. rewrite Heq in H2. congruence.
Qed.

(** X1: a second [Finalize] changes the summary of every report that
    holds a finding. *)
Theorem Finalize_not_idempotent (r : report.Report) :
  report.Violations r <> [] -> Go.len (report.Violations r) <= Go.maxInt ->
  report.Finalize (report.Finalize r) <> report.Finalize r.
Proof.
  intros Hne Hlen Heq.
  destruct (report.Violations r) as [|v vs] eqn:Hvs; [done|].
  set (k := report.Severity v).
  pose proof (f_equal (fun x => Go.wrap (Go.index (report.BySeverity (report.Summary_ x)) k))
                      Heq) as Hk.
  cbv beta in Hk. rewrite (Finalize_BySeverity (report.Finalize r)) in Hk.
  rewrite index_fold_incr in Hk.
  apply wrap_eq_inv in Hk.
  set (n := occurrences k (report.Severity <$> report.Violations (report.Finalize r))) in Hk.
  assert (Hn : 0 < n <= Go.maxInt).
  { unfold n.
    rewrite (occurrences_perm k _ (report.Severity <$> report.Violations r))
      by (by rewrite Finalize_Violations_perm).
    rewrite Hvs. split.
    - apply occurrences_pos. left.
    - pose proof (occurrences_range k (report.Severity <$> v :: vs)) as Hr.
      unfold Go.len in *. rewrite length_fmap in Hr. lia. }
  replace (Go.index _ k + n - Go.index _ k) with n in Hk by lia.
  rewrite Z.mod_small in Hk by (unfold Go.maxInt in Hn; lia). lia.
Qed.

(** The invariant of the summary, where it holds: on a report whose
    per-severity counters are empty before the call, as [NewReport]
    makes them and [AddViolation] leaves them, after [Finalize] the total
    equals the length of the violations, and the per-severity counters
    add up to the total. *)
Lemma Finalize_summary_invariant (r : report.Report) :
  report.BySeverity (report.Summary_ r) = ∅ ->
  Go.len (report.Violations r) <= Go.maxInt ->
  report.TotalViolations (report.Summary_ (report.Finalize r))
  = Go.len (report.Violations (report.Finalize r))
  /\ sumValues (report.BySeverity (report.Summary_ (report.Finalize r)))
     = report.TotalViolations (report.Summary_ (report.Finalize r)).
Proof.
  intros Hempty Hlen.
  rewrite Finalize_TotalViolations, Finalize_BySeverity, Hempty.
  split.
  - unfold Go.len. by rewrite Finalize_Violations_perm.
  - fold (counts (report.Severity <$> report.Violations r)).
    rewrite sumValues_counts; unfold Go.len in *; by rewrite ?length_fmap.
Qed.

(** C3 (the code departs from the claim): the invariant holds after
    the first [Finalize] of the report with one finding, and not after
    the second.  [Finalize] assigns the total and counts every finding
    on top of the counters that the first call left: after the second
    call the total is 1, the length of the violations, and the
    per-severity counters add up to 2. *)
Theorem Finalize_twice_breaks_summary_invariant :
  let once := report.Finalize oneError in
  let twice := report.Finalize once in
  report.TotalViolations (report.Summary_ once) = Go.len (report.Violations once)
  /\ sumValues (report.BySeverity (report.Summary_ once))
     = report.TotalViolations (report.Summary_ once)
  /\ report.TotalViolations (report.Summary_ twice) = Go.len (report.Violations twice)
  /\ report.TotalViolations (report.Summary_ twice) = 1
  /\ sumValues (report.BySeverity (report.Summary_ twice)) = 2
  /\ sumValues (report.BySeverity (report.Summary_ twice))
     <> report.TotalViolations (report.Summary_ twice).
Proof.
  intros once twice.
  set (v := finding "a.go" 1 "file_name" "naming" rules.SeverityError).
  assert (Hone : report.Violations once = [v]).
  { apply Permutation_singleton_r. apply (Finalize_Violations_perm oneError). }
  assert (Hempty : report.BySeverity (report.Summary_ oneError) = ∅)
    by apply reportOf_BySeverity.
  assert (Hlen : Go.len (report.Violations oneError) <= Go.maxInt)
    by (vm_compute; discriminate).
  destruct (Finalize_summary_invariant oneError Hempty Hlen) as [Htotal Hsum].
  assert (Htotal2 : report.TotalViolations (report.Summary_ twice) = 1).
  { unfold twice. rewrite Finalize_TotalViolations, Hone. reflexivity. }
  assert (Hsum2 : sumValues (report.BySeverity (report.Summary_ twice)) = 2).
  { unfold twice. rewrite Finalize_BySeverity, Hone. unfold once.
    rewrite Finalize_BySeverity. reflexivity. }
  split; [exact Htotal|]. split; [exact Hsum|]. split; [|split; [exact Htotal2|]].
  - unfold twice. rewrite Finalize_TotalViolations. unfold Go.len.
    by rewrite Finalize_Violations_perm.
  - split; [exact Hsum2|]. rewrite Hsum2, Htotal2. discriminate.
Qed.

(** C2 (amended): after [Finalize] the findings are a permutation of
    the findings inserted; an earlier finding has a higher severity
    level than a later one, or the same level and a smaller file path,
    or the same level and path and a line that is not greater; and for a
    fixed multiset of findings the sequence of (level, file, line) keys
    is the same whatever the insertion order. *)
Theorem Finalize_order (r : report.Report) :
  report.Violations (report.Finalize r) ≡ₚ report.Violations r
  /\ (forall (i j : nat) (vi vj : report.Violation),
        (i < j)%nat ->
        report.Violations (report.Finalize r) !! i = Some vi ->
        report.Violations (report.Finalize r) !! j = Some vj ->
        inOrder vi vj)
  /\ (forall r' : report.Report,
        report.Violations r' ≡ₚ report.Violations r ->
        sortKey <$> report.Violations (report.Finalize r')
        = sortKey <$> report.Violations (report.Finalize r)).
Proof.
  split_and!.
  - apply Finalize_Violations_perm.
  - intros i j vi vj Hij Hi Hj. apply not_less_inOrder.
    eapply SortedBy_lookup; [apply Finalize_Violations_sorted|done..].
  - intros r' Hp. apply sorted_keys_unique; try apply Finalize_Violations_sorted.
    by rewrite !Finalize_Violations_perm.
Qed.

End FinalizeClaims.

(** C2, on a report of three findings inserted in ascending order of
    severity. *)
Lemma Finalize_order_witness :
  let r := reportOf "proj"
             [finding "b.go" 9 "todo" "custom" rules.SeverityInfo;
              finding "b.go" 4 "max_parameters" "structure" rules.SeverityWarning;
              finding "a.go" 7 "no_ignored_errors" "error_handling" rules.SeverityError] in
  report.Violations (@report.Finalize insertionSorter r) ≡ₚ report.Violations r
  /\ sortKey <$> report.Violations (@report.Finalize insertionSorter r)
     = [(3, "a.go", 7); (2, "b.go", 4); (1, "b.go", 9)].
Proof.
  intros r. split.
  - exact (proj1 (@Finalize_order insertionSorter r)).
  - reflexivity.
Defined.

(** C2, the claim as stated fails: the same two findings, tied on
    severity, file and line, inserted in the two possible orders, end in
    two different final orders.  The sort is the one that [sort.Slice]
    runs on a slice of two elements. *)
Lemma Finalize_order_depends_on_insertion :
  report.Violations (reportOf "proj" [tooManyParameters; tooManyResults])
    ≡ₚ report.Violations (reportOf "proj" [tooManyResults; tooManyParameters])
  /\ report.Violations
       (@report.Finalize insertionSorter (reportOf "proj" [tooManyParameters; tooManyResults]))
     = [tooManyParameters; tooManyResults]
  /\ report.Violations
       (@report.Finalize insertionSorter (reportOf "proj" [tooManyResults; tooManyParameters]))
     = [tooManyResults; tooManyParameters]
  /\ [tooManyParameters; tooManyResults] <> [tooManyResults; tooManyParameters].
Proof.
  split_and!.
  - apply perm_swap.
  - reflexivity.
  - reflexivity.
  - discriminate.
Qed.

(** ** [Filter] *)

(** The findings that [Filter] retains. *)
Definition retained (minSeverity : rules.Severity) (vs : list report.Violation)
  : list report.Violation :=
  filter (fun v => rules.Level minSeverity <= rules.Level (report.Severity v)) vs.

Section FilterProperties.
Context `{sort.Sorter}.

Lemma alloc_fresh (h : report.heap) r :
  h !! (report.alloc h r).1 = None.
Proof. simpl. apply not_elem_of_dom, is_fresh. Qed.

Lemma update_Some (h : report.heap) p r f :
  h !! p = Some r -> report.update h p f = Some (<[p := f r]> h).
Proof. intros Hp. unfold report.update. by rewrite Hp. Qed.

Lemma filterLoop_spec vs (h : report.heap) filtered minSeverity f :
  h !! filtered = Some f ->
  report.filterLoop h filtered minSeverity vs
  = Some (<[filtered := fold_left report.AddViolation (retained minSeverity vs) f]> h).
Proof.
  revert h f. induction vs as [|v vs IH]; intros h f Hf; simpl.
  - by rewrite insert_id.
  - unfold retained. rewrite filter_cons.
    destruct (Z.geb_spec (rules.Level (report.Severity v)) (rules.Level minSeverity))
      as [Hge|Hlt].
    + rewrite (update_Some _ _ _ _ Hf). simpl.
      rewrite (IH _ (report.AddViolation f v)) by apply lookup_insert_eq.
      rewrite insert_insert_eq. rewrite decide_True by lia. done.
    + simpl. rewrite (IH _ f Hf). rewrite decide_False by lia. done.
Qed.

(** [Filter] in closed form: the new report sits at a fresh address and
    the heap is otherwise the one before the call. *)
Lemma Filter_eq (h : report.heap) r src minSeverity :
  h !! r = Some src ->
  report.Filter h r minSeverity
  = Some (fresh (dom h),
          <[fresh (dom h) :=
              report.Finalize
                (fold_left report.AddViolation
                   (retained minSeverity (report.Violations src))
                   (report.setTotalFiles (report.NewReport (report.ProjectPath src))
                                         (report.TotalFiles src)))]> h).
Proof.
  intros Hr. unfold report.Filter. rewrite Hr. simpl.
  set (q := fresh (dom h)).
  rewrite (update_Some _ q (report.NewReport (report.ProjectPath src)))
    by apply lookup_insert_eq.
  simpl. rewrite insert_insert_eq.
  erewrite filterLoop_spec by apply lookup_insert_eq. simpl.
  rewrite insert_insert_eq.
  erewrite update_Some by apply lookup_insert_eq. simpl.
  by rewrite insert_insert_eq.
Qed.

(** C4: [Filter] returns the address of a new report; the heap is
    unchanged at every other address, so the source report is not
    mutated.  The new report holds exactly the findings of the source
    whose level is at least the level of the threshold, sorted; its
    [ProjectPath] and [TotalFiles] are those of the source; its summary
    counts the retained findings and nothing else. *)
Theorem Filter_correct (h : report.heap) (r : positive) (src : report.Report)
    (minSeverity : rules.Severity) :
  h !! r = Some src ->
  Go.len (report.Violations src) <= Go.maxInt ->
  exists (filtered : positive) (out : report.Report) (h' : report.heap),
    report.Filter h r minSeverity = Some (filtered, h')
    /\ h !! filtered = None
    /\ h' !! filtered = Some out
    /\ (forall p : positive, p <> filtered -> h' !! p = h !! p)
    /\ h' !! r = Some src
    /\ report.Violations out ≡ₚ retained minSeverity (report.Violations src)
    /\ sort.SortedBy report.less (report.Violations out)
    /\ report.ProjectPath out = report.ProjectPath src
    /\ report.TotalFiles out = report.TotalFiles src
    /\ report.TotalViolations (report.Summary_ out) = Go.len (report.Violations out)
    /\ (forall k : string,
          report.BySeverity (report.Summary_ out) !! k
          = if decide (k ∈ report.Severity <$> report.Violations out)
            then Some (occurrences k (report.Severity <$> report.Violations out))
            else None)
    /\ (forall k : string,
          report.ByCategory (report.Summary_ out) !! k
          = if decide (k ∈ report.Category <$> report.Violations out)
            then Some (occurrences k (report.Category <$> report.Violations out))
            else None)
    /\ report.PassedRules (report.Summary_ out) = 0
    /\ report.FailedRules (report.Summary_ out) = 0.
Proof.
  intros Hr Hlen.
  set (q := fresh (dom h)).
  assert (Hq : h !! q = None) by apply not_elem_of_dom, is_fresh.
  assert (Hqr : r <> q) by (intros ->; congruence).
  set (kept := retained minSeverity (report.Violations src)).
  set (pre := fold_left report.AddViolation kept
                (report.setTotalFiles (report.NewReport (report.ProjectPath src))
                                      (report.TotalFiles src))).
  assert (Hpre : report.Violations pre = kept).
  { unfold pre. by rewrite fold_AddViolation_Violations. }
  assert (Hperm : report.Violations (report.Finalize pre) ≡ₚ kept).
  { by rewrite Finalize_Violations_perm, Hpre. }
  assert (Hkept : Go.len kept <= Go.maxInt).
  { unfold kept, retained, Go.len in *.
    pose proof (length_filter
      (fun v => rules.Level minSeverity <= rules.Level (report.Severity v))
      (report.Violations src)). lia. }
  exists q, (report.Finalize pre), (<[q := report.Finalize pre]> h).
  split_and!.
  - by apply Filter_eq.
  - done.
  - apply lookup_insert_eq.
  - intros p Hp. by rewrite lookup_insert_ne.
  - by rewrite lookup_insert_ne.
  - done.
  - apply Finalize_Violations_sorted.
  - unfold pre. simpl. by rewrite fold_AddViolation_ProjectPath.
  - unfold pre. simpl. by rewrite fold_AddViolation_TotalFiles.
  - rewrite Finalize_TotalViolations. unfold Go.len. by rewrite Hperm, Hpre.
  - intros k.
    assert (Hocc : occurrences k (report.Severity <$> report.Violations (report.Finalize pre))
                   = occurrences k (report.Severity <$> kept))
      by (apply occurrences_perm; by rewrite Hperm).
    assert (Hmem : k ∈ report.Severity <$> report.Violations (report.Finalize pre)
                   <-> k ∈ report.Severity <$> kept) by (by rewrite Hperm).
    rewrite Hocc, Finalize_BySeverity, Hpre.
    replace (report.BySeverity (report.Summary_ pre)) with (∅ : gmap string Z)
      by (unfold pre; by rewrite fold_AddViolation_Summary).
    fold (counts (report.Severity <$> kept)).
    rewrite counts_lookup by (unfold Go.len in *; by rewrite length_fmap).
    repeat case_decide; first [done|exfalso; tauto].
  - intros k.
    assert (Hocc : occurrences k (report.Category <$> report.Violations (report.Finalize pre))
                   = occurrences k (report.Category <$> kept))
      by (apply occurrences_perm; by rewrite Hperm).
    assert (Hmem : k ∈ report.Category <$> report.Violations (report.Finalize pre)
                   <-> k ∈ report.Category <$> kept) by (by rewrite Hperm).
    rewrite Hocc, Finalize_ByCategory, Hpre.
    replace (report.ByCategory (report.Summary_ pre)) with (∅ : gmap string Z)
      by (unfold pre; by rewrite fold_AddViolation_Summary).
    fold (counts (report.Category <$> kept)).
    rewrite counts_lookup by (unfold Go.len in *; by rewrite length_fmap).
    repeat case_decide; first [done|exfalso; tauto].
  - simpl. rewrite fold_count_PassedRules. simpl.
    unfold pre. by rewrite fold_AddViolation_Summary.
  - simpl. rewrite fold_count_FailedRules. simpl.
    unfold pre. by rewrite fold_AddViolation_Summary.
Qed.

End FilterProperties.

(** C4, on a heap with one report of three findings, filtered at
    warning. *)
Lemma Filter_correct_witness :
  let src := reportOf "proj" [tooManyParameters;
                              finding "b.go" 1 "file_name" "naming" rules.SeverityInfo;
                              tooManyResults] in
  let h : report.heap := {[ 1%positive := src ]} in
  h !! 1%positive = Some src
  /\ Go.len (report.Violations src) <= Go.maxInt
  /\ exists (filtered : positive) (out : report.Report) (h' : report.heap),
       @report.Filter insertionSorter h 1%positive rules.SeverityWarning = Some (filtered, h')
       /\ h' !! filtered = Some out
       /\ h' !! 1%positive = Some src
       /\ report.Violations out
            ≡ₚ retained rules.SeverityWarning (report.Violations src)
       /\ report.TotalFiles out = report.TotalFiles src
       /\ report.TotalViolations (report.Summary_ out) = Go.len (report.Violations out).
Proof.
  intros src h.
  assert (Hsrc : h !! 1%positive = Some src) by reflexivity.
  assert (Hlen : Go.len (report.Violations src) <= Go.maxInt) by (vm_compute; discriminate).
  split; [exact Hsrc|]. split; [exact Hlen|].
  destruct (@Filter_correct insertionSorter h 1%positive src rules.SeverityWarning Hsrc Hlen)
    as (filtered & out & h' & HF & _ & Hout & _ & Hr & Hp & _ & _ & Htf & Htv & _).
  exists filtered, out, h'. repeat split; assumption.
Defined.

(** ** Instances of the library interfaces, to run the checker on
       concrete inputs *)

(** *** [regexp]

    A small engine: it compiles an expression without metacharacters,
    which matches where it occurs as a substring, and the expression of
    [checkJSONTag]; every other expression is an error for it.  On the
    expressions that it compiles it agrees with the library. *)

Inductive LiteralRegexp : Type :=
| Literal (s : string)
| JSONTag.

Definition isMeta (c : ascii) : bool :=
  existsb (Ascii.eqb c)
    (list_ascii_of_string ("\.+*?()|[]{}^$")).

Definition jsonTagPattern : string :=
  "json:" +:+ checker.quote +:+ "([^" +:+ checker.quote +:+ "]+)" +:+ checker.quote.

Definition literalCompile (pattern : string) : option LiteralRegexp :=
  if decide (pattern = jsonTagPattern) then Some JSONTag
  else if existsb isMeta (list_ascii_of_string pattern) then None
  else Some (Literal pattern).

(** The run of bytes other than the quote at the head of [s], and what
    follows it. *)
Fixpoint spanNonQuote (s : string) : string * string :=
  match s with
  | EmptyString => (EmptyString, EmptyString)
  | String c s' =>
      if Ascii.eqb c (ascii_of_nat 34) then (EmptyString, s)
      else let '(run, rest) := spanNonQuote s' in (String c run, rest)
  end.

(** A match of the expression of [checkJSONTag] at the head of [s]: the
    text matched and its group. *)
Definition jsonTagAt (s : string) : option (string * string) :=
  let opening := "json:" +:+ checker.quote in
  if String.prefix opening s then
    let '(group, rest) :=
      spanNonQuote (String.substring (String.length opening)
                                     (String.length s - String.length opening) s) in
    match group, rest with
    | String _ _, String _ _ => Some (opening +:+ group +:+ checker.quote, group)
    | _, _ => None
    end
  else None.

Definition matchAt (re : LiteralRegexp) (s : string) : option (string * list string) :=
  match re with
  | Literal lit => if String.prefix lit s then Some (lit, []) else None
  | JSONTag =>
      match jsonTagAt s with
      | Some (text, group) => Some (text, [group])
      | None => None
      end
  end.

(** The successive matches that do not overlap, from left to right;
    [skip] counts the bytes of the last match that lie ahead. *)
Fixpoint findAll (re : LiteralRegexp) (skip : nat) (s : string)
  : list (string * list string) :=
  match skip with
  | S skip' =>
      match s with
      | EmptyString => []
      | String _ s' => findAll re skip' s'
      end
  | O =>
      match matchAt re s with
      | Some (text, groups) =>
          (text, groups)
            :: match s with
               | EmptyString => []
               | String _ s' => findAll re (String.length text - 1) s'
               end
      | None =>
          match s with
          | EmptyString => []
          | String _ s' => findAll re 0 s'
          end
      end
  end.

Definition literalFindAllString (re : LiteralRegexp) (s : string) : list string :=
  fst <$> findAll re 0 s.

Definition literalMatchString (re : LiteralRegexp) (s : string) : bool :=
  match literalFindAllString re s with
  | [] => false
  | _ :: _ => true
  end.

Definition literalFindStringSubmatch (re : LiteralRegexp) (s : string) : list string :=
  match findAll re 0 s with
  | [] => []
  | (text, groups) :: _ => text :: groups
  end.

Lemma literalMatchString_FindAllString re s :
  literalMatchString re s = true <-> literalFindAllString re s <> [].
Proof.
  unfold literalMatchString. destruct (literalFindAllString re s); split; congruence.
Qed.

Definition literalEngine : regexp.Engine := {|
  regexp.Regexp := LiteralRegexp;
  regexp.Compile := literalCompile;
  regexp.Regexp_MatchString := literalMatchString;
  regexp.FindAllString := literalFindAllString;
  regexp.FindStringSubmatch := literalFindStringSubmatch;
  regexp.MatchString_FindAllString := literalMatchString_FindAllString;
  regexp.jsonTagRe := JSONTag
|}.

(** *** [unicode]

    The table of upper case letters up to U+00FF, and the ASCII part of
    the letter case mapping and of the white space. *)

Definition latin1IsUpper (r : Z) : bool :=
  ((65 <=? r) && (r <=? 90))
  || ((192 <=? r) && (r <=? 222) && negb (r =? 215)).

Lemma latin1IsUpper_ASCII r :
  0 <= r < 128 -> latin1IsUpper r = (65 <=? r) && (r <=? 90).
Proof. unfold latin1IsUpper. intros Hr. destruct ((65 <=? r) && (r <=? 90)) eqn:E; [done|]. simpl. lia. Qed.

Definition asciiToLower (s : string) : string :=
  utf8.ofBytes
    (map (fun b => if (65 <=? b) && (b <=? 90) then b + 32 else b) (utf8.bytes s)).

Definition isAsciiSpace (c : ascii) : bool :=
  let b := checker.byte c in (b =? 32) || ((9 <=? b) && (b <=? 13)).

Fixpoint trimLeft (s : string) : string :=
  match s with
  | EmptyString => EmptyString
  | String c s' => if isAsciiSpace c then trimLeft s' else s
  end.

Definition asciiTrimSpace (s : string) : string :=
  String.rev (trimLeft (String.rev (trimLeft s))).

Definition latin1Tables : unicode.Tables := {|
  unicode.IsUpper := latin1IsUpper;
  unicode.IsUpper_ASCII := latin1IsUpper_ASCII;
  unicode.ToLower := asciiToLower;
  unicode.TrimSpace := asciiTrimSpace
|}.

(** *** [path/filepath]

    Slash-separated paths; a pattern is a name, where [*] stands for any
    run of bytes other than the separator and [?] for one such byte. *)

Fixpoint glob (pattern : list ascii) : list ascii -> bool :=
  match pattern with
  | [] => fun name => match name with [] => true | _ => false end
  | p :: pattern' =>
      if Ascii.eqb p "*" then
        fix star (name : list ascii) : bool :=
          glob pattern' name
          || match name with
             | [] => false
             | c :: name' => negb (Ascii.eqb c "/") && star name'
             end
      else
        fun name =>
          match name with
          | [] => false
          | c :: name' =>
              (if Ascii.eqb p "?" then negb (Ascii.eqb c "/") else Ascii.eqb p c)
              && glob pattern' name'
          end
  end.

Definition globMatch (pattern name : string) : bool :=
  glob (list_ascii_of_string pattern) (list_ascii_of_string name).

(** The last element of a path without a trailing separator. *)
Fixpoint lastElement (acc : string) (path : string) : string :=
  match path with
  | EmptyString => acc
  | String c path' =>
      if Ascii.eqb c "/" then lastElement EmptyString path'
      else lastElement (acc +:+ String c EmptyString) path'
  end.

Fixpoint trimSlashes (s : string) : string :=
  match s with
  | EmptyString => EmptyString
  | String c s' => if Ascii.eqb c "/" then trimSlashes s' else s
  end.

Definition slashBase (path : string) : string :=
  match path with
  | EmptyString => "."
  | _ =>
      match String.rev (trimSlashes (String.rev path)) with
      | EmptyString => "/"
      | stripped => lastElement EmptyString stripped
      end
  end.

(** [Join] of two elements that are clean already. *)
Definition slashJoin (dir name : string) : string :=
  if decide (dir = "") then name
  else if decide (name = "") then dir
  else dir +:+ "/" +:+ name.

Definition slashPaths : filepath.Lib := {|
  filepath.Match := globMatch;
  filepath.Base := slashBase;
  filepath.Join := slashJoin
|}.

(** ** Structural rules *)

(** The findings of one rule among the violations that a check adds. *)
Definition findingsOf (rule : string) (vs : list report.Violation) : list report.Violation :=
  filter (fun v => report.Rule v = rule) vs.

(** [func f() { if a { } else if b { for { } } }] *)
Definition elseIfWithLoop : option (list ast.Stmt) :=
  Some [ast.IfStmt (Some [])
          (Some (ast.IfStmt (Some [ast.ForStmt (Some [])]) None))].

(** [func f() { if a { } else { for { } } }] *)
Definition elseBlockWithLoop : option (list ast.Stmt) :=
  Some [ast.IfStmt (Some []) (Some (ast.BlockStmt [ast.ForStmt (Some [])]))].

(** [func f() { if a { for { } } }] *)
Definition ifWithLoop : option (list ast.Stmt) :=
  Some [ast.IfStmt (Some [ast.ForStmt (Some [])]) None].

(** C5 (the code departs from the claim): an else branch that is itself
    a conditional ([else if]) is not evaluated at all.  For
    [if a { } else if b { for { } }] the nesting level is 1, the level of
    the empty then-body, although the loop sits in an else branch; the
    same loop in a plain else block gives 2, as it does in the
    then-body.  Whatever the [else if] holds, the level is that of the
    conditional without it. *)
Theorem checkNestingLevel_skips_else_if :
  checker.checkNestingLevel elseIfWithLoop 0 = 1
  /\ checker.checkNestingLevel elseBlockWithLoop 0 = 2
  /\ checker.checkNestingLevel ifWithLoop 0 = 2
  /\ forall (body nested : option (list ast.Stmt)) (els : option ast.Stmt)
            (currentLevel : Go.int),
       checker.checkNestingLevel
         (Some [ast.IfStmt body (Some (ast.IfStmt nested els))]) currentLevel
       = checker.checkNestingLevel (Some [ast.IfStmt body None]) currentLevel.
Proof. repeat split. Qed.

Lemma findingsOf_app rule vs1 vs2 :
  findingsOf rule (vs1 ++ vs2) = findingsOf rule vs1 ++ findingsOf rule vs2.
Proof. apply filter_app. Qed.

Lemma findingsOf_same rule vs :
  Forall (fun v => report.Rule v = rule) vs -> findingsOf rule vs = vs.
Proof.
  induction 1 as [|v vs Hv _ IH]; [done|].
  unfold findingsOf in *. rewrite filter_cons, decide_True by done. by rewrite IH.
Qed.

Lemma findingsOf_other rule rule' vs :
  Forall (fun v => report.Rule v = rule') vs -> rule' <> rule -> findingsOf rule vs = [].
Proof.
  intros Hall Hne. induction Hall as [|v vs Hv _ IH]; [done|].
  unfold findingsOf in *. rewrite filter_cons, decide_False by congruence. exact IH.
Qed.

Section StructuralRules.
Context `{unicode.Tables}.
Import rules.

Lemma checkFunction_exportedName_rule c fn filePath :
  Forall (fun v => report.Rule v = "exported_name")
         (checker.checkFunction_exportedName c fn filePath).
Proof. unfold checker.checkFunction_exportedName. repeat case_match; repeat constructor. Qed.

Lemma checkFunction_lines_rule c fn filePath :
  Forall (fun v => report.Rule v = "max_function_lines")
         (checker.checkFunction_lines c fn filePath).
Proof. unfold checker.checkFunction_lines. repeat case_match; repeat constructor. Qed.

Lemma checkFunction_parameters_rule c fn filePath :
  Forall (fun v => report.Rule v = "max_parameters")
         (checker.checkFunction_parameters c fn filePath).
Proof. unfold checker.checkFunction_parameters. repeat case_match; repeat constructor. Qed.

Lemma checkFunction_results_rule c fn filePath :
  Forall (fun v => report.Rule v = "max_return_values")
         (checker.checkFunction_results c fn filePath).
Proof. unfold checker.checkFunction_results. repeat case_match; repeat constructor. Qed.

Lemma checkFunction_nesting_rule c fn filePath :
  Forall (fun v => report.Rule v = "max_nesting_level")
         (checker.checkFunction_nesting c fn filePath).
Proof. unfold checker.checkFunction_nesting. repeat case_match; repeat constructor. Qed.

(** Selecting the findings of one rule from what [checkFunction] adds
    leaves what the check of that rule added. *)
Ltac select_rule :=
  unfold checker.checkFunction; rewrite !findingsOf_app;
  repeat first
    [ rewrite (findingsOf_same _ _ (checkFunction_exportedName_rule _ _ _))
    | rewrite (findingsOf_same _ _ (checkFunction_lines_rule _ _ _))
    | rewrite (findingsOf_same _ _ (checkFunction_parameters_rule _ _ _))
    | rewrite (findingsOf_same _ _ (checkFunction_results_rule _ _ _))
    | rewrite (findingsOf_same _ _ (checkFunction_nesting_rule _ _ _))
    | rewrite (findingsOf_other _ _ _ (checkFunction_exportedName_rule _ _ _)) by discriminate
    | rewrite (findingsOf_other _ _ _ (checkFunction_lines_rule _ _ _)) by discriminate
    | rewrite (findingsOf_other _ _ _ (checkFunction_parameters_rule _ _ _)) by discriminate
    | rewrite (findingsOf_other _ _ _ (checkFunction_results_rule _ _ _)) by discriminate
    | rewrite (findingsOf_other _ _ _ (checkFunction_nesting_rule _ _ _)) by discriminate ];
  rewrite ?app_nil_r; simpl.

Lemma findingsOf_exported_name c fn filePath :
  findingsOf "exported_name" (checker.checkFunction c fn filePath)
  = checker.checkFunction_exportedName c fn filePath.
Proof. by select_rule. Qed.

Lemma findingsOf_max_function_lines c fn filePath :
  findingsOf "max_function_lines" (checker.checkFunction c fn filePath)
  = checker.checkFunction_lines c fn filePath.
Proof. by select_rule. Qed.

Lemma findingsOf_max_parameters c fn filePath :
  findingsOf "max_parameters" (checker.checkFunction c fn filePath)
  = checker.checkFunction_parameters c fn filePath.
Proof. by select_rule. Qed.

Lemma findingsOf_max_return_values c fn filePath :
  findingsOf "max_return_values" (checker.checkFunction c fn filePath)
  = checker.checkFunction_results c fn filePath.
Proof. by select_rule. Qed.

Lemma findingsOf_max_nesting_level c fn filePath :
  findingsOf "max_nesting_level" (checker.checkFunction c fn filePath)
  = checker.checkFunction_nesting c fn filePath.
Proof. by select_rule. Qed.

End StructuralRules.

Section LimitRules.
Context `{unicode.Tables}.
Import rules.

(** C6: with the structure rules and [max_function_lines] enabled, a
    function whose line count equals the limit has no
    [max_function_lines] finding, and a function one line over has
    exactly one, whose message shows the count and the limit; the rule
    fires exactly when the count is greater than the limit.  The
    parameter, return value and nesting rules, when enabled, fire
    exactly when their count is greater than their limit. *)
Theorem limit_rules_strict (c : checker.Checker) (fn : ast.FuncDecl) (filePath : string) :
  let structure := Config.Structure (checker.config c) in
  let limits := StructureConfig.Rules structure in
  let out := checker.checkFunction c fn filePath in
  let lineCount :=
    Go.sub (token.Line (ast.FuncDecl_End fn)) (token.Line (ast.FuncDecl_Pos fn)) in
  let lineLimit := LimitRule.Limit (StructureRulesConfig.MaxFunctionLines limits) in
  StructureConfig.Enabled structure = true ->
  BaseRule.Enabled (LimitRule.Base (StructureRulesConfig.MaxFunctionLines limits)) = true ->
  (lineCount = lineLimit -> findingsOf "max_function_lines" out = [])
  /\ (lineCount = lineLimit + 1 ->
      exists v : report.Violation,
        findingsOf "max_function_lines" out = [v]
        /\ report.Message v
           = "関数 '" +:+ ast.FuncDecl_Name fn +:+ "' は" +:+ Go.itoa (lineLimit + 1)
               +:+ "行あります（上限: " +:+ Go.itoa lineLimit +:+ "行）")
  /\ (findingsOf "max_function_lines" out <> [] <-> lineCount > lineLimit)
  /\ (BaseRule.Enabled (LimitRule.Base (StructureRulesConfig.MaxParameters limits)) = true ->
      (findingsOf "max_parameters" out <> []
       <-> exists params, ast.FuncDecl_Params fn = Some params
             /\ Go.len params > LimitRule.Limit (StructureRulesConfig.MaxParameters limits)))
  /\ (BaseRule.Enabled (LimitRule.Base (StructureRulesConfig.MaxReturnValues limits)) = true ->
      (findingsOf "max_return_values" out <> []
       <-> exists results, ast.FuncDecl_Results fn = Some results
             /\ Go.len results
                > LimitRule.Limit (StructureRulesConfig.MaxReturnValues limits)))
  /\ (BaseRule.Enabled (LimitRule.Base (StructureRulesConfig.MaxNestingLevel limits)) = true ->
      (findingsOf "max_nesting_level" out <> []
       <-> checker.checkNestingLevel (ast.FuncDecl_Body fn) 0
           > LimitRule.Limit (StructureRulesConfig.MaxNestingLevel limits))).
Proof.
  intros structure limits out lineCount lineLimit Hs Hl. subst out.
  rewrite findingsOf_max_function_lines, findingsOf_max_parameters,
    findingsOf_max_return_values, findingsOf_max_nesting_level.
  unfold checker.checkFunction_lines, checker.checkFunction_parameters,
    checker.checkFunction_results, checker.checkFunction_nesting.
  fold structure. fold limits. rewrite Hs, Hl. simpl. fold lineCount. fold lineLimit.
  split_and!.
  - intros Heq. destruct (Z.gtb_spec lineCount lineLimit); [lia|done].
  - intros Heq. destruct (Z.gtb_spec lineCount lineLimit); [|lia].
    eexists. split; [reflexivity|]. simpl. by rewrite Heq.
  - destruct (Z.gtb_spec lineCount lineLimit); split; intros; first [done|lia].
  - intros ->. destruct (ast.FuncDecl_Params fn) as [params|].
    + destruct (Z.gtb_spec (Go.len params)
                  (LimitRule.Limit (StructureRulesConfig.MaxParameters limits))); split.
      * intros _. eexists. split; [reflexivity|lia].
      * done.
      * done.
      * intros (? & [= <-] & ?). lia.
    + split; [done|]. intros (? & ? & ?). discriminate.
  - intros ->. destruct (ast.FuncDecl_Results fn) as [results|].
    + destruct (Z.gtb_spec (Go.len results)
                  (LimitRule.Limit (StructureRulesConfig.MaxReturnValues limits))); split.
      * intros _. eexists. split; [reflexivity|lia].
      * done.
      * done.
      * intros (? & [= <-] & ?). lia.
    + split; [done|]. intros (? & ? & ?). discriminate.
  - intros ->.
    destruct (Z.gtb_spec (checker.checkNestingLevel (ast.FuncDecl_Body fn) 0)
                (LimitRule.Limit (StructureRulesConfig.MaxNestingLevel limits)));
      split; intros; first [done|lia].
Qed.

End LimitRules.

(** A checker with the default configuration, and a function
    declaration that spans the given lines. *)
Definition defaultChecker : checker.Checker := checker.NewChecker rules.DefaultConfig.

Definition funcDecl (name : string) (startLine endLine : Z) : ast.FuncDecl :=
  {| ast.FuncDecl_Name := name;
     ast.FuncDecl_Pos := {| token.Line := startLine; token.Column := 1 |};
     ast.FuncDecl_End := {| token.Line := endLine; token.Column := 2 |};
     ast.FuncDecl_Params := Some [];
     ast.FuncDecl_Results := None;
     ast.FuncDecl_Body := Some [] |}.

(** C6, on the default configuration (limit 50): a function of 50 lines
    has no finding, a function of 51 lines has one. *)
Lemma limit_rules_strict_witness :
  rules.StructureConfig.Enabled (rules.Config.Structure (checker.config defaultChecker)) = true
  /\ rules.BaseRule.Enabled
       (rules.LimitRule.Base
          (rules.StructureRulesConfig.MaxFunctionLines
             (rules.StructureConfig.Rules
                (rules.Config.Structure (checker.config defaultChecker))))) = true
  /\ findingsOf "max_function_lines"
       (@checker.checkFunction latin1Tables defaultChecker (funcDecl "Handle" 10 60) "a.go")
     = []
  /\ exists v : report.Violation,
       findingsOf "max_function_lines"
         (@checker.checkFunction latin1Tables defaultChecker (funcDecl "Handle" 10 61) "a.go")
       = [v]
       /\ report.Message v = "関数 'Handle' は51行あります（上限: 50行）".
Proof.
  split; [reflexivity|]. split; [reflexivity|]. split.
  - apply (proj1 (@limit_rules_strict latin1Tables defaultChecker (funcDecl "Handle" 10 60)
                    "a.go" eq_refl eq_refl)).
    reflexivity.
  - apply (proj1 (proj2 (@limit_rules_strict latin1Tables defaultChecker
                           (funcDecl "Handle" 10 61) "a.go" eq_refl eq_refl))).
    reflexivity.
Defined.

(** ** The name of an exported function *)

Lemma byte_range c : 0 <= checker.byte c < 256.
Proof.
  unfold checker.byte. pose proof (N_ascii_bounded c). lia.
Qed.

Lemma DecodeRune_ASCII b0 t : b0 < 128 -> utf8.DecodeRune (b0 :: t) = (b0, 1%nat).
Proof. intros Hb. simpl. by rewrite (proj2 (Z.ltb_lt _ _) Hb). Qed.

(** A code point below [utf8.RuneSelf] is decoded from one byte, which
    is the code point. *)
Lemma DecodeRune_ASCII_inv b0 t :
  fst (utf8.DecodeRune (b0 :: t)) < 128 -> fst (utf8.DecodeRune (b0 :: t)) = b0.
Proof.
  unfold utf8.DecodeRune, utf8.continuation, utf8.RuneError.
  repeat case_match; simpl; lia.
Qed.

Section ExportedName.
Context `{unicode.Tables}.
Import rules.

Lemma IsExported_ASCII b rest :
  checker.byte b < 128 ->
  token.IsExported (String b rest) = checker.isPascalCase (String b rest).
Proof.
  intros Hb. unfold token.IsExported, utf8.DecodeRuneInString, utf8.bytes. simpl.
  fold (checker.byte b). rewrite (proj2 (Z.ltb_lt _ _) Hb). simpl.
  rewrite unicode.IsUpper_ASCII by (pose proof (byte_range b); lia).
  destruct (Z.leb_spec 65 (checker.byte b)), (Z.leb_spec (checker.byte b) 90),
    (Z.ltb_spec (checker.byte b) 65), (Z.gtb_spec (checker.byte b) 90); simpl; lia || done.
Qed.

(** C10: for a function whose name begins with an ASCII byte the
    [exported_name] rule adds no finding; and a finding of the rule
    implies that the first code point of the name is an upper case
    letter for [unicode.IsUpper] outside ['A'..'Z']. *)
Theorem exported_name_only_beyond_ASCII (c : checker.Checker) (fn : ast.FuncDecl)
    (filePath : string) :
  let name := ast.FuncDecl_Name fn in
  let out := findingsOf "exported_name" (checker.checkFunction c fn filePath) in
  (forall (b : ascii) (rest : string),
      name = String b rest -> checker.byte b < 128 -> out = [])
  /\ (out <> [] ->
      unicode.IsUpper (fst (utf8.DecodeRuneInString name)) = true
      /\ ~ (65 <= fst (utf8.DecodeRuneInString name) <= 90)).
Proof.
  intros name out. subst out. rewrite findingsOf_exported_name.
  unfold checker.checkFunction_exportedName. fold name.
  split.
  - intros b rest Hname Hb. rewrite Hname, (IsExported_ASCII b rest Hb).
    destruct (_ && _); [|done]. by destruct (checker.isPascalCase _).
  - destruct (_ && _); [|done].
    destruct (token.IsExported name) eqn:Hexp; [|done].
    destruct (checker.isPascalCase name) eqn:Hpascal; [done|]. intros _.
    split; [exact Hexp|]. intros Hr.
    destruct name as [|b rest].
    + unfold utf8.DecodeRuneInString, utf8.bytes in Hr. simpl in Hr.
      unfold utf8.RuneError in Hr. lia.
    + unfold utf8.DecodeRuneInString, utf8.bytes in Hr.
      change (list_ascii_of_string (String b rest))
        with (b :: list_ascii_of_string rest) in Hr.
      rewrite map_cons in Hr. fold (checker.byte b) in Hr.
      rewrite DecodeRune_ASCII_inv in Hr by lia.
      simpl in Hpascal.
      destruct (Z.ltb_spec (checker.byte b) 65), (Z.gtb_spec (checker.byte b) 90);
        simpl in Hpascal; lia || done.
Qed.

End ExportedName.

(** The default configuration with the [exported_names] rule enabled. *)
Definition exportedNamesChecker : checker.Checker :=
  let naming := rules.NamingConfig.Rules (rules.Config.Naming rules.DefaultConfig) in
  checker.NewChecker
    {| rules.Config.Naming :=
         {| rules.NamingConfig.Enabled := true;
            rules.NamingConfig.Rules :=
              {| rules.NamingRulesConfig.PackageName :=
                   rules.NamingRulesConfig.PackageName naming;
                 rules.NamingRulesConfig.ExportedNames := rules.baseRule true "warning" "";
                 rules.NamingRulesConfig.FileName := rules.NamingRulesConfig.FileName naming;
                 rules.NamingRulesConfig.InterfaceName :=
                   rules.NamingRulesConfig.InterfaceName naming;
                 rules.NamingRulesConfig.ErrorVar := rules.NamingRulesConfig.ErrorVar naming
              |} |};
       rules.Config.Structure := rules.Config.Structure rules.DefaultConfig;
       rules.Config.ErrorHandling := rules.Config.ErrorHandling rules.DefaultConfig;
       rules.Config.Logging := rules.Config.Logging rules.DefaultConfig;
       rules.Config.Directory := rules.Config.Directory rules.DefaultConfig;
       rules.Config.StructTags := rules.Config.StructTags rules.DefaultConfig;
       rules.Config.CustomRules := [] |}.

(** C10, on the name [Handle]. *)
Lemma exported_name_only_beyond_ASCII_witness :
  checker.byte "H" < 128
  /\ findingsOf "exported_name"
       (@checker.checkFunction latin1Tables exportedNamesChecker (funcDecl "Handle" 1 2)
          "a.go")
     = [].
Proof.
  assert (Hb : checker.byte "H" < 128) by (vm_compute; reflexivity).
  split; [exact Hb|].
  exact (proj1 (@exported_name_only_beyond_ASCII latin1Tables exportedNamesChecker
                  (funcDecl "Handle" 1 2) "a.go")
               "H"%char "andle" eq_refl Hb).
Defined.

(** With the table of upper case letters up to U+00FF: [Handle] and
    [handle] have no finding, and a name that begins with U+00DC has
    one. *)
Lemma exported_name_examples :
  findingsOf "exported_name"
    (@checker.checkFunction latin1Tables exportedNamesChecker (funcDecl "Handle" 1 2) "a.go")
  = []
  /\ findingsOf "exported_name"
       (@checker.checkFunction latin1Tables exportedNamesChecker (funcDecl "handle" 1 2)
          "a.go")
     = []
  /\ report.Message
       <$> findingsOf "exported_name"
             (@checker.checkFunction latin1Tables exportedNamesChecker
                (funcDecl "Übersicht" 1 2) "a.go")
     = ["公開関数 'Übersicht' はPascalCaseで命名してください"].
Proof. repeat split. Qed.

(** ** Pattern rules *)

(** A configuration with other custom rules, and one with another
    allow-list for [no_ignored_errors]. *)
Definition withCustomRules (cfg : rules.Config.t) (customRules : list rules.CustomRule.t)
  : rules.Config.t :=
  {| rules.Config.Naming := rules.Config.Naming cfg;
     rules.Config.Structure := rules.Config.Structure cfg;
     rules.Config.ErrorHandling := rules.Config.ErrorHandling cfg;
     rules.Config.Logging := rules.Config.Logging cfg;
     rules.Config.Directory := rules.Config.Directory cfg;
     rules.Config.StructTags := rules.Config.StructTags cfg;
     rules.Config.CustomRules := customRules |}.

Definition withAllowedPatterns (cfg : rules.Config.t) (patterns : list string)
  : rules.Config.t :=
  let errors := rules.Config.ErrorHandling cfg in
  let rule :=
    rules.ErrorHandlingRulesConfig.NoIgnoredErrors (rules.ErrorHandlingConfig.Rules errors) in
  {| rules.Config.Naming := rules.Config.Naming cfg;
     rules.Config.Structure := rules.Config.Structure cfg;
     rules.Config.ErrorHandling :=
       {| rules.ErrorHandlingConfig.Enabled := rules.ErrorHandlingConfig.Enabled errors;
          rules.ErrorHandlingConfig.Rules :=
            {| rules.ErrorHandlingRulesConfig.NoIgnoredErrors :=
                 {| rules.IgnoredErrorsRule.Base := rules.IgnoredErrorsRule.Base rule;
                    rules.IgnoredErrorsRule.AllowedPatterns := patterns |};
               rules.ErrorHandlingRulesConfig.NoPanic :=
                 rules.ErrorHandlingRulesConfig.NoPanic
                   (rules.ErrorHandlingConfig.Rules errors) |} |};
     rules.Config.Logging := rules.Config.Logging cfg;
     rules.Config.Directory := rules.Config.Directory cfg;
     rules.Config.StructTags := rules.Config.StructTags cfg;
     rules.Config.CustomRules := rules.Config.CustomRules cfg |}.

Definition withConfig (c : checker.Checker) (cfg : rules.Config.t) : checker.Checker :=
  {| checker.config := cfg; checker.report := checker.report c;
     checker.fileMap := checker.fileMap c; checker.stdout := checker.stdout c |}.

Lemma filter_none {A : Type} (P : A -> Prop) `{forall x, Decision (P x)} (l : list A) :
  Forall (fun x => ~ P x) l -> filter P l = [].
Proof. induction 1 as [|x l Hx _ IH]; [done|]. by rewrite filter_cons, decide_False. Qed.

Section CustomRules.
Context `{regexp.Engine} `{unicode.Tables} `{filepath.Lib}.
Import rules.

(** The finding that [checkCustomRules] adds for the line at index [n]. *)
Definition customFinding (rule : CustomRule.t) (filePath : string) (n : nat) (line : string)
  : report.Violation :=
  {| report.File := filePath;
     report.Line := Go.add (Z.of_nat n) 1;
     report.Column := 0;
     report.Rule := CustomRule.Name rule;
     report.Category := "custom";
     report.Severity := ParseSeverity (CustomRule.Severity rule);
     report.Message := CustomRule.Message rule;
     report.Suggestion := "";
     report.Code := unicode.TrimSpace line |}.

Lemma customLines_fields rule re filePath i lines :
  Forall (fun v => report.File v = filePath /\ report.Rule v = CustomRule.Name rule
                   /\ report.Category v = "custom")
         (checker.customLines rule re filePath i lines).
Proof.
  revert i. induction lines as [|line lines IH]; intros i; simpl; [constructor|].
  apply Forall_app. split; [|apply IH].
  destruct (regexp.Regexp_MatchString re line); repeat constructor.
Qed.

Lemma customLines_range rule re filePath i lines :
  Z.of_nat (i + length lines) <= Go.maxInt ->
  Forall (fun v => Z.of_nat i + 1 <= report.Line v <= Z.of_nat (i + length lines))
         (checker.customLines rule re filePath i lines).
Proof.
  revert i. induction lines as [|line lines IH]; intros i Hlen; simpl in *; [constructor|].
  apply Forall_app. split.
  - destruct (regexp.Regexp_MatchString re line); [|constructor].
    repeat constructor; simpl;
      rewrite add_small by (unfold Go.minInt, Go.maxInt in *; lia); lia.
  - eapply Forall_impl; [apply (IH (S i)); lia|]. simpl. intros v Hv. lia.
Qed.

(** Every finding comes from a line that matches. *)
Lemma customLines_source rule re filePath i lines v :
  Z.of_nat (i + length lines) <= Go.maxInt ->
  v ∈ checker.customLines rule re filePath i lines ->
  exists (n : nat) (line : string),
    lines !! n = Some line /\ regexp.Regexp_MatchString re line = true
    /\ report.Line v = Z.of_nat (i + n) + 1.
Proof.
  revert i. induction lines as [|line0 lines IH]; intros i Hlen Hv; simpl in *.
  - by apply not_elem_of_nil in Hv.
  - apply elem_of_app in Hv as [Hv|Hv].
    + destruct (regexp.Regexp_MatchString re line0) eqn:Hm; [|by apply not_elem_of_nil in Hv].
      apply list_elem_of_singleton in Hv as ->.
      exists 0%nat, line0. split_and!; [done|done|]. simpl.
      rewrite add_small by (unfold Go.minInt, Go.maxInt in *; lia). lia.
    + destruct (IH (S i) ltac:(lia) Hv) as (n & line & Hn & Hm & Hl).
      exists (S n), line. split_and!; [done|done|]. rewrite Hl. lia.
Qed.

(** Among the findings of one rule on one file, the line at index [n]
    has one finding when it matches and none when it does not. *)
Lemma customLines_at rule re filePath i lines n line :
  Z.of_nat (i + length lines) <= Go.maxInt ->
  lines !! n = Some line ->
  filter (fun v => report.Line v = Z.of_nat (i + n) + 1)
         (checker.customLines rule re filePath i lines)
  = if regexp.Regexp_MatchString re line then [customFinding rule filePath (i + n) line]
    else [].
Proof.
  revert i n. induction lines as [|line0 lines IH]; intros i n Hlen Hn; [done|].
  simpl in Hlen. simpl. rewrite filter_app.
  destruct n as [|n]; simpl in Hn.
  - injection Hn as ->. rewrite Nat.add_0_r.
    rewrite (filter_none _ (checker.customLines rule re filePath (S i) lines)).
    + rewrite app_nil_r. destruct (regexp.Regexp_MatchString re line); [|done].
      rewrite filter_cons, decide_True; [done|]. simpl.
      rewrite add_small by (unfold Go.minInt, Go.maxInt in *; lia). done.
    + eapply Forall_impl; [apply customLines_range; lia|]. simpl. intros v Hv. lia.
  - replace (i + S n)%nat with (S i + n)%nat by lia.
    rewrite (IH (S i) n) by (done || lia).
    rewrite filter_none; [done|].
    destruct (regexp.Regexp_MatchString re line0); repeat constructor. simpl.
    rewrite add_small by (unfold Go.minInt, Go.maxInt in *; lia). lia.
Qed.

(** C7 (amended): an enabled custom rule whose pattern compiles, on a
    file that its exclusions do not match, adds one finding for each
    line that the pattern matches and none for a line that it does not
    match, however many matches the line holds; each finding carries the
    path of the file, the name of the rule, the category [custom] and
    the number of its line. *)
Theorem custom_rule_one_finding_per_matching_line (c : checker.Checker) (filePath : string)
    (rule : CustomRule.t) (re : regexp.Regexp) (lines : list string) :
  CustomRule.Enabled rule = true ->
  existsb (fun pattern => filepath.Match pattern (filepath.Base filePath))
          (CustomRule.ExcludeFiles rule) = false ->
  regexp.Compile (CustomRule.Pattern rule) = Some re ->
  checker.fileMap c !! filePath = Some lines ->
  Go.len lines <= Go.maxInt ->
  let out := checker.checkCustomRule c filePath rule in
  Forall (fun v => report.File v = filePath /\ report.Rule v = CustomRule.Name rule
                   /\ report.Category v = "custom") out
  /\ (forall (n : nat) (line : string),
        lines !! n = Some line ->
        filter (fun v => report.Line v = Z.of_nat n + 1) out
        = if regexp.Regexp_MatchString re line then [customFinding rule filePath n line]
          else [])
  /\ (forall v : report.Violation,
        v ∈ out ->
        exists (n : nat) (line : string),
          lines !! n = Some line /\ regexp.Regexp_MatchString re line = true
          /\ report.Line v = Z.of_nat n + 1).
Proof.
  intros Hen Hex Hre Hlines Hlen out. subst out.
  unfold checker.checkCustomRule. rewrite Hen, Hex, Hre, Hlines. simpl.
  split_and!.
  - apply customLines_fields.
  - intros n line Hn. by apply (customLines_at rule re filePath 0 lines n line).
  - intros v Hv. destruct (customLines_source rule re filePath 0 lines v Hlen Hv)
      as (n & line & Hn & Hm & Hl).
    exists n, line. by rewrite Nat.add_0_l in Hl.
Qed.

End CustomRules.

(** A custom rule that looks for the text [TODO], and a checker that
    holds the lines of [a.go] in its line cache. *)
Definition todoRule : rules.CustomRule.t :=
  {| rules.CustomRule.Name := "todo";
     rules.CustomRule.Enabled := true;
     rules.CustomRule.Severity := "warning";
     rules.CustomRule.Pattern := "TODO";
     rules.CustomRule.Message := "unresolved TODO";
     rules.CustomRule.ExcludeFiles := ["*_test.go"] |}.

Definition todoChecker (lines : list string) : checker.Checker :=
  {| checker.config := withCustomRules rules.DefaultConfig [todoRule];
     checker.report := report.NewReport ".";
     checker.fileMap := {[ "a.go" := lines ]};
     checker.stdout := [] |}.

(** C7, on a file of three lines of which the second and the third
    match. *)
Lemma custom_rule_one_finding_per_matching_line_witness :
  let c := todoChecker ["x := 1"; "// TODO first"; "// TODO second"] in
  rules.CustomRule.Enabled todoRule = true
  /\ existsb (fun pattern => globMatch pattern (slashBase "a.go"))
             (rules.CustomRule.ExcludeFiles todoRule) = false
  /\ literalCompile (rules.CustomRule.Pattern todoRule) = Some (Literal "TODO")
  /\ checker.fileMap c !! "a.go" = Some ["x := 1"; "// TODO first"; "// TODO second"]
  /\ Go.len ["x := 1"; "// TODO first"; "// TODO second"] <= Go.maxInt
  /\ Forall (fun v => report.File v = "a.go" /\ report.Rule v = "todo"
                      /\ report.Category v = "custom")
            (@checker.checkCustomRule literalEngine latin1Tables slashPaths c "a.go" todoRule)
  /\ report.Line
       <$> @checker.checkCustomRule literalEngine latin1Tables slashPaths c "a.go" todoRule
     = [2; 3].
Proof.
  intros c.
  assert (Hlen : Go.len ["x := 1"; "// TODO first"; "// TODO second"] <= Go.maxInt)
    by (vm_compute; discriminate).
  split_and!; try reflexivity; try exact Hlen.
  exact (proj1 (@custom_rule_one_finding_per_matching_line
                  literalEngine latin1Tables slashPaths c "a.go" todoRule (Literal "TODO")
                  ["x := 1"; "// TODO first"; "// TODO second"]
                  eq_refl eq_refl eq_refl eq_refl Hlen)).
Defined.

(** C7, the claim as stated fails: a line that holds two matches of the
    pattern, which do not overlap, gets one finding. *)
Lemma custom_rule_two_matches_one_finding :
  let line := "// TODO first, TODO second" in
  @regexp.Compile literalEngine "TODO" = Some (Literal "TODO")
  /\ @regexp.FindAllString literalEngine (Literal "TODO") line = ["TODO"; "TODO"]
  /\ length (@checker.checkCustomRules literalEngine latin1Tables slashPaths
               (todoChecker [line]) "a.go") = 1%nat
  /\ report.Line
       <$> @checker.checkCustomRules literalEngine latin1Tables slashPaths
             (todoChecker [line]) "a.go"
     = [1].
Proof. repeat split. Qed.

(** ** Patterns that do not compile *)

Section MalformedPatterns.
Context `{regexp.Engine} `{unicode.Tables} `{filepath.Lib} `{sort.Sorter}.
Import rules.

Lemma MatchString_malformed pattern s :
  regexp.Compile pattern = None -> regexp.MatchString pattern s = false.
Proof. intros Hc. unfold regexp.MatchString. by rewrite Hc. Qed.

(** An allow-list matches a call exactly when its patterns that compile
    do. *)
Lemma allowed_compiled patterns callStr :
  existsb (fun pattern => regexp.MatchString pattern callStr) patterns
  = existsb (fun pattern => regexp.MatchString pattern callStr)
            (filter (fun pattern => is_Some (regexp.Compile pattern)) patterns).
Proof.
  induction patterns as [|p patterns IH]; [done|].
  rewrite filter_cons. simpl. destruct (decide (is_Some (regexp.Compile p))) as [Hs|Hn].
  - simpl. by rewrite IH.
  - rewrite MatchString_malformed; [done|]. by apply eq_None_not_Some.
Qed.

Lemma assignmentLoop_compiled c a filePath i lhs :
  checker.assignmentLoop c a filePath i lhs
  = checker.assignmentLoop
      (withConfig c
         (withAllowedPatterns (checker.config c)
            (filter (fun pattern => is_Some (regexp.Compile pattern))
               (IgnoredErrorsRule.AllowedPatterns
                  (ErrorHandlingRulesConfig.NoIgnoredErrors
                     (ErrorHandlingConfig.Rules
                        (Config.ErrorHandling (checker.config c))))))))
      a filePath i lhs.
Proof.
  revert i. induction lhs as [|e lhs IH]; intros i; [done|].
  simpl. rewrite <- IH. f_equal.
  destruct e as [name pos| | |]; try done.
  destruct (decide (name = "_")); [|done].
  destruct (ast.AssignStmt_Rhs a !! i) as [[| |callFun callPos|]|]; try done.
  by rewrite <- allowed_compiled.
Qed.

Lemma Check_returns_report w c targetDir goFiles :
  os.GoFiles w targetDir = os.Ok goFiles ->
  exists r : report.Report, snd (checker.Check w c targetDir) = os.Ok r.
Proof. intros Hw. unfold checker.Check. rewrite Hw. by eexists. Qed.

(** C8 (amended): a [file_name], [package_name] or [error_var] rule, or
    a custom rule, whose pattern does not compile adds no finding, in
    any call; an allow-list pattern of [no_ignored_errors] that does not
    compile matches no call, so that the rule adds what it adds with
    that pattern taken off the list; and [Check] returns a report
    whenever the walk has succeeded. *)
Theorem malformed_patterns (c : checker.Checker) :
  let naming := NamingConfig.Rules (Config.Naming (checker.config c)) in
  (regexp.Compile (PatternRule.Pattern (NamingRulesConfig.FileName naming)) = None ->
   forall filePath, checker.checkFileName c filePath = [])
  /\ (regexp.Compile (PatternRule.Pattern (NamingRulesConfig.PackageName naming)) = None ->
      forall file filePath, checker.checkPackageName c file filePath = [])
  /\ (regexp.Compile (PatternRule.Pattern (NamingRulesConfig.ErrorVar naming)) = None ->
      forall gd filePath, checker.checkGenDecl c gd filePath = [])
  /\ (forall rule filePath,
        regexp.Compile (CustomRule.Pattern rule) = None ->
        checker.checkCustomRule c filePath rule = [])
  /\ (forall pattern callStr,
        regexp.Compile pattern = None -> regexp.MatchString pattern callStr = false)
  /\ (forall a filePath,
        checker.checkAssignment c a filePath
        = checker.checkAssignment
            (withConfig c
               (withAllowedPatterns (checker.config c)
                  (filter (fun pattern => is_Some (regexp.Compile pattern))
                     (IgnoredErrorsRule.AllowedPatterns
                        (ErrorHandlingRulesConfig.NoIgnoredErrors
                           (ErrorHandlingConfig.Rules
                              (Config.ErrorHandling (checker.config c))))))))
            a filePath)
  /\ (forall w targetDir goFiles,
        os.GoFiles w targetDir = os.Ok goFiles ->
        exists r : report.Report, snd (checker.Check w c targetDir) = os.Ok r).
Proof.
  intros naming. split_and!.
  - intros Hc filePath. unfold checker.checkFileName. fold naming. by rewrite Hc.
  - intros Hc file filePath. unfold checker.checkPackageName. fold naming. by rewrite Hc.
  - intros Hc gd filePath. unfold checker.checkGenDecl.
    destruct (ast.GenDecl_Tok gd); [|done].
    induction (ast.GenDecl_Specs gd) as [|spec specs IH]; [done|].
    simpl. rewrite IH, app_nil_r. destruct spec as [names type|]; [|done].
    induction names as [|name names IHn]; [done|].
    simpl. rewrite IHn, app_nil_r.
    destruct (_ && _); [|done].
    destruct type as [[typeName ?| | |]|]; try done.
    destruct (decide (typeName = "error")); [|done].
    unfold checker.checkErrorVarName. fold naming. rewrite Hc.
    by destruct (negb _).
  - intros rule filePath Hc. unfold checker.checkCustomRule. rewrite Hc.
    destruct (negb _); [done|]. by destruct (existsb _ _).
  - apply MatchString_malformed.
  - intros a filePath. unfold checker.checkAssignment. simpl.
    destruct (_ || _); [done|]. apply assignmentLoop_compiled.
  - intros w targetDir goFiles. apply Check_returns_report.
Qed.

End MalformedPatterns.

(** [_ = os.Remove(path)], at line 7 of a file. *)
Definition discardedCall : ast.AssignStmt :=
  let pos := {| token.Line := 7; token.Column := 2 |} in
  {| ast.AssignStmt_Lhs := [ast.Ident "_" pos];
     ast.AssignStmt_Rhs :=
       [ast.CallExpr (ast.SelectorExpr (ast.Ident "os" pos) "Remove") pos];
     ast.AssignStmt_Pos := pos |}.

(** The default configuration with an allow-list of one pattern, whose
    parenthesis is never closed. *)
Definition unclosedAllowList : checker.Checker :=
  withConfig defaultChecker (withAllowedPatterns rules.DefaultConfig ["(os.Remove"]).

(** C8, the claim as stated fails for the allow-list of
    [no_ignored_errors]: its only pattern does not compile, and the rule
    still reports the discarded call. *)
Lemma no_ignored_errors_with_malformed_allow_list :
  @regexp.Compile literalEngine "(os.Remove" = None
  /\ report.Rule <$> @checker.checkAssignment literalEngine unclosedAllowList discardedCall "a.go"
     = ["no_ignored_errors"].
Proof. repeat split. Qed.

(** C8, on a custom rule whose pattern does not compile. *)
Lemma malformed_patterns_witness :
  let rule :=
    {| rules.CustomRule.Name := "secret"; rules.CustomRule.Enabled := true;
       rules.CustomRule.Severity := "error"; rules.CustomRule.Pattern := "(password";
       rules.CustomRule.Message := ""; rules.CustomRule.ExcludeFiles := [] |} in
  literalCompile (rules.CustomRule.Pattern rule) = None
  /\ @checker.checkCustomRule literalEngine latin1Tables slashPaths
       (todoChecker ["password = (password"]) "a.go" rule = [].
Proof.
  intros rule. split; [reflexivity|].
  apply (proj1 (proj2 (proj2 (proj2
           (@malformed_patterns literalEngine latin1Tables slashPaths insertionSorter
              (todoChecker ["password = (password"])))))).
  reflexivity.
Defined.

(** ** Files that do not parse *)

Section ParseFailure.
Context `{regexp.Engine} `{unicode.Tables} `{filepath.Lib} `{sort.Sorter}.
Import rules.

(** When the lines of a file cannot be read, [checkFile] returns the
    error and leaves the checker as it was. *)
Lemma checkFile_read_failure w c filePath err :
  os.ReadFileLines w filePath = os.Err err ->
  checker.checkFile w c filePath = (c, Some err).
Proof. intros Hr. unfold checker.checkFile. by rewrite Hr. Qed.

(** C9 (amended): when a file that was read does not parse, [checkFile]
    returns the parse error after it has stored the lines of the file in
    the line cache, and adds no finding: neither the file name and
    package name rules nor the rules on the syntax tree run.  [Check]
    prints a warning for the file, goes on with the remaining files and
    returns a report.  The custom rules, which [Check] evaluates in a
    second pass over all files, still read the lines of that file. *)
Theorem parse_failure_skips_syntax_rules (w : os.World) (c : checker.Checker)
    (filePath : string) (lines : list string) (err : string) :
  os.ReadFileLines w filePath = os.Ok lines ->
  os.ParseFile w filePath = os.Err err ->
  let c' := checker.setFileMap c (<[filePath := lines]> (checker.fileMap c)) in
  checker.checkFile w c filePath = (c', Some ("parse error: " +:+ err))
  /\ checker.report c' = checker.report c
  /\ (forall rest : list string,
        checker.checkFiles w c (filePath :: rest)
        = checker.checkFiles w
            (checker.printf c'
               ("Warning: failed to check " +:+ filePath +:+ ": parse error: " +:+ err
                  +:+ checker.newline))
            rest)
  /\ (forall (rule : CustomRule.t) (re : regexp.Regexp),
        CustomRule.Enabled rule = true ->
        existsb (fun pattern => filepath.Match pattern (filepath.Base filePath))
                (CustomRule.ExcludeFiles rule) = false ->
        regexp.Compile (CustomRule.Pattern rule) = Some re ->
        checker.checkCustomRule c' filePath rule
        = checker.customLines rule re filePath 0 lines)
  /\ (forall (targetDir : string) (goFiles : list string),
        os.GoFiles w targetDir = os.Ok goFiles ->
        exists r : report.Report, snd (checker.Check w c targetDir) = os.Ok r).
Proof.
  intros Hr Hp c'.
  assert (Hfile : checker.checkFile w c filePath = (c', Some ("parse error: " +:+ err))).
  { unfold checker.checkFile. by rewrite Hr, Hp. }
  split_and!.
  - exact Hfile.
  - reflexivity.
  - intros rest. unfold checker.checkFiles. simpl. by rewrite Hfile.
  - intros rule re Hen Hex Hc. unfold checker.checkCustomRule.
    rewrite Hen, Hex, Hc. simpl. by rewrite lookup_insert_eq.
  - intros targetDir goFiles. apply Check_returns_report.
Qed.

End ParseFailure.

(** A directory with one file, which can be read and does not parse. *)
Definition unparsable : os.World :=
  {| os.IsNotExist := fun _ => false;
     os.GoFiles := fun _ => os.Ok ["a.go"];
     os.ReadFileLines := fun _ => os.Ok ["package main"; "// TODO fix"; "func {"];
     os.ParseFile := fun _ => os.Err "a.go:3:6: expected 'IDENT', found '{'" |}.

(** C9, the claim as stated fails: the file does not parse, the warning
    is printed, and the report still holds a finding of a custom rule
    for the file. *)
Lemma parse_failure_keeps_custom_findings :
  let run :=
    @checker.Check literalEngine latin1Tables slashPaths insertionSorter unparsable
      (checker.NewChecker (withCustomRules rules.DefaultConfig [todoRule])) "." in
  os.ParseFile unparsable "a.go" = os.Err "a.go:3:6: expected 'IDENT', found '{'"
  /\ length (checker.stdout (fst run)) = 1%nat
  /\ exists r : report.Report,
       snd run = os.Ok r
       /\ report.Rule <$> report.Violations r = ["todo"]
       /\ report.File <$> report.Violations r = ["a.go"]
       /\ report.Line <$> report.Violations r = [2].
Proof.
  split; [reflexivity|]. split; [reflexivity|].
  eexists. split; [reflexivity|]. repeat split.
Qed.

(** C9, on the same file. *)
Lemma parse_failure_skips_syntax_rules_witness :
  let c := checker.NewChecker (withCustomRules rules.DefaultConfig [todoRule]) in
  let lines := ["package main"; "// TODO fix"; "func {"] in
  os.ReadFileLines unparsable "a.go" = os.Ok lines
  /\ os.ParseFile unparsable "a.go" = os.Err "a.go:3:6: expected 'IDENT', found '{'"
  /\ @checker.checkFile literalEngine latin1Tables slashPaths unparsable c "a.go"
     = (checker.setFileMap c (<["a.go" := lines]> (checker.fileMap c)),
        Some "parse error: a.go:3:6: expected 'IDENT', found '{'").
Proof.
  intros c lines. split; [reflexivity|]. split; [reflexivity|].
  exact (proj1 (@parse_failure_skips_syntax_rules
                  literalEngine latin1Tables slashPaths insertionSorter unparsable c "a.go"
                  lines "a.go:3:6: expected 'IDENT', found '{'" eq_refl eq_refl)).
Defined.

(** ** More on the nesting level *)

(** The statements for which [checkNestingLevel] goes one level down. *)
Definition nestable (s : ast.Stmt) : bool :=
  match s with
  | ast.IfStmt _ _ | ast.ForStmt _ | ast.RangeStmt _ | ast.SwitchStmt _
  | ast.SelectStmt _ => true
  | _ => false
  end.

Lemma nestingStmt_not_nestable s currentLevel maxLevel :
  nestable s = false -> checker.nestingStmt s currentLevel maxLevel = maxLevel.
Proof. by destruct s. Qed.

(** X2: a body that is [nil], or that holds no nestable statement, has
    the level at which it is evaluated: 0 for the body of a function. *)
Theorem checkNestingLevel_flat (body : option (list ast.Stmt)) (currentLevel : Go.int) :
  (forall l, body = Some l -> Forall (fun s => nestable s = false) l) ->
  checker.checkNestingLevel body currentLevel = currentLevel.
Proof.
  destruct body as [l|]; [|done]. intros Hl. specialize (Hl l eq_refl). simpl.
  induction Hl as [|s l Hs _ IH]; [done|]. simpl.
  by rewrite nestingStmt_not_nestable.
Qed.

(** X2, on a body of two statements, neither of them nestable. *)
Lemma checkNestingLevel_flat_witness :
  (forall l, Some [ast.OtherStmt; ast.BlockStmt [ast.OtherStmt]] = Some l ->
             Forall (fun s => nestable s = false) l)
  /\ checker.checkNestingLevel (Some [ast.OtherStmt; ast.BlockStmt [ast.OtherStmt]]) 0 = 0.
Proof.
  assert (Hl : forall l, Some [ast.OtherStmt; ast.BlockStmt [ast.OtherStmt]] = Some l ->
                         Forall (fun s => nestable s = false) l).
  { intros l [= <-]. repeat constructor. }
  split; [exact Hl|]. exact (checkNestingLevel_flat _ 0 Hl).
Defined.

(** X3: a conditional with an else block: the then-body and the else
    block are both evaluated one level below the conditional, and the
    level is the greatest of the current level and of the two. *)
Theorem checkNestingLevel_else_block (thenBody : option (list ast.Stmt))
    (elseBlock : list ast.Stmt) (currentLevel : Go.int) :
  checker.checkNestingLevel
    (Some [ast.IfStmt thenBody (Some (ast.BlockStmt elseBlock))]) currentLevel
  = Z.max currentLevel
      (Z.max (checker.checkNestingLevel thenBody (Go.add currentLevel 1))
             (checker.checkNestingLevel (Some elseBlock) (Go.add currentLevel 1))).
Proof.
  simpl.
  fold (checker.checkNestingLevel thenBody (Go.add currentLevel 1)).
  set (a := checker.checkNestingLevel thenBody (Go.add currentLevel 1)).
  set (b := fold_left _ elseBlock _).
  destruct (Z.gtb_spec a currentLevel); destruct (Z.gtb_spec b a);
    destruct (Z.gtb_spec b currentLevel); lia.
Qed.

(** X4: the statements of a case clause are not visited: a switch
    counts one level whatever its clauses hold. *)
Theorem checkNestingLevel_case_clauses (clauses : list (list ast.Stmt))
    (currentLevel : Go.int) :
  checker.checkNestingLevel
    (Some [ast.SwitchStmt (Some (ast.CaseClause <$> clauses))]) currentLevel
  = Z.max currentLevel (Go.add currentLevel 1).
Proof.
  simpl.
  assert (Hfold : forall (l : list (list ast.Stmt)) m,
    fold_left (fun maxLevel stmt => checker.nestingStmt stmt (Go.add currentLevel 1) maxLevel)
      (ast.CaseClause <$> l) m = m).
  { induction l as [|cl l IH]; intros m; [done|]. simpl. apply IH. }
  rewrite Hfold. destruct (Z.gtb_spec (Go.add currentLevel 1) currentLevel); lia.
Qed.

(** ** The report of a run *)

(** X1, on the report with one finding. *)
Lemma Finalize_not_idempotent_witness :
  report.Violations oneError <> []
  /\ Go.len (report.Violations oneError) <= Go.maxInt
  /\ @report.Finalize insertionSorter (@report.Finalize insertionSorter oneError)
     <> @report.Finalize insertionSorter oneError.
Proof.
  assert (Hne : report.Violations oneError <> []) by discriminate.
  assert (Hlen : Go.len (report.Violations oneError) <= Go.maxInt)
    by (vm_compute; discriminate).
  split; [exact Hne|]. split; [exact Hlen|].
  exact (@Finalize_not_idempotent insertionSorter oneError Hne Hlen).
Defined.

Section RunProperties.
Context `{regexp.Engine} `{unicode.Tables} `{filepath.Lib} `{sort.Sorter}.

(** X5: the exit status of a report that was finalized once is 1
    exactly when the report holds a finding of severity error. *)
Theorem ExitCode_error (r : report.Report) :
  report.BySeverity (report.Summary_ r) = ∅ ->
  Go.len (report.Violations r) <= Go.maxInt ->
  (report.ExitCode (report.Finalize r) = 1
   <-> exists v, v ∈ report.Violations r /\ report.Severity v = rules.SeverityError)
  /\ (report.ExitCode (report.Finalize r) = 0
      <-> forall v, v ∈ report.Violations r -> report.Severity v <> rules.SeverityError).
Proof.
  intros Hempty Hlen.
  unfold report.ExitCode, report.HasErrors, Go.index.
  rewrite Finalize_BySeverity, Hempty.
  fold (counts (report.Severity <$> report.Violations r)).
  rewrite counts_lookup by (unfold Go.len in *; by rewrite length_fmap).
  assert (Hin : "error" ∈ report.Severity <$> report.Violations r
                <-> exists v, v ∈ report.Violations r
                              /\ report.Severity v = rules.SeverityError).
  { rewrite list_elem_of_fmap. unfold rules.SeverityError. split.
    - intros (v & Hs & Hv). exists v. by split.
    - intros (v & Hv & Hs). exists v. by split. }
  case_decide as He; simpl.
  - pose proof (proj1 (occurrences_pos _ _) He) as Hpos.
    destruct (Z.gtb_spec (occurrences "error" (report.Severity <$> report.Violations r)) 0);
      [|lia].
    split.
    + split; [|done]. intros _. by apply Hin.
    + split; [done|]. intros Hall. apply Hin in He as (v & Hv & Hs).
      by destruct (Hall v Hv).
  - split.
    + split; [done|]. intros Hex. destruct He. by apply Hin.
    + split; [|done]. intros _ v Hv Hs. apply He, Hin. by exists v.
Qed.

Lemma addViolations_report c vs :
  checker.report (checker.addViolations c vs)
  = fold_left report.AddViolation vs (checker.report c).
Proof. reflexivity. Qed.

(** The checks only add violations: the rest of the report stays. *)
Definition sameFrame (r r' : report.Report) : Prop :=
  report.Summary_ r' = report.Summary_ r
  /\ report.ProjectPath r' = report.ProjectPath r
  /\ report.TotalFiles r' = report.TotalFiles r.

Lemma sameFrame_refl r : sameFrame r r.
Proof. by repeat split. Qed.

Lemma sameFrame_trans r1 r2 r3 : sameFrame r1 r2 -> sameFrame r2 r3 -> sameFrame r1 r3.
Proof. intros (?&?&?) (?&?&?). repeat split; congruence. Qed.

Lemma addViolations_frame c vs :
  sameFrame (checker.report c) (checker.report (checker.addViolations c vs)).
Proof.
  rewrite addViolations_report. repeat split.
  - apply fold_AddViolation_Summary.
  - apply fold_AddViolation_ProjectPath.
  - apply fold_AddViolation_TotalFiles.
Qed.

Lemma checkFile_frame w c filePath :
  sameFrame (checker.report c) (checker.report (checker.checkFile w c filePath).1).
Proof.
  unfold checker.checkFile.
  destruct (os.ReadFileLines w filePath) as [lines|]; [|apply sameFrame_refl].
  destruct (os.ParseFile w filePath) as [file|]; [|apply sameFrame_refl]. simpl.
  set (c0 := checker.setFileMap c _).
  set (c1 := if _ && _ then _ else c0).
  set (c2 := if _ && _ then _ else c1).
  assert (Hframe1 : sameFrame (checker.report c) (checker.report c1)).
  { unfold c1. destruct (_ && _); [apply (addViolations_frame c0)|apply sameFrame_refl]. }
  assert (Hframe2 : sameFrame (checker.report c) (checker.report c2)).
  { unfold c2. clearbody c1. destruct (_ && _); [|exact Hframe1].
    eapply sameFrame_trans; [exact Hframe1|apply addViolations_frame]. }
  clearbody c2. clear Hframe1.
  revert c2 Hframe2. induction (ast.File_Nodes file) as [|n nodes IH]; intros c2 Hframe2; [done|].
  simpl. apply IH. eapply sameFrame_trans; [exact Hframe2|apply addViolations_frame].
Qed.

Lemma checkFiles_frame w goFiles c :
  sameFrame (checker.report c) (checker.report (checker.checkFiles w c goFiles)).
Proof.
  unfold checker.checkFiles. revert c.
  induction goFiles as [|filePath goFiles IH]; intros c; [apply sameFrame_refl|].
  simpl. pose proof (checkFile_frame w c filePath) as Hf.
  destruct (checker.checkFile w c filePath) as [c' [err|]]; simpl in Hf;
    (eapply sameFrame_trans; [exact Hf|]).
  - exact (IH (checker.printf c' _)).
  - exact (IH c').
Qed.

Lemma checkAllCustomRules_frame goFiles c :
  sameFrame (checker.report c) (checker.report (checker.checkAllCustomRules c goFiles)).
Proof.
  unfold checker.checkAllCustomRules. revert c.
  induction goFiles as [|filePath goFiles IH]; intros c; [apply sameFrame_refl|].
  simpl. eapply sameFrame_trans; [apply addViolations_frame|apply IH].
Qed.

(** X6: the report that [Check] returns: it names the target directory
    and the number of files, its findings are in order, its total is
    their number, and its per-severity counters add up to the total. *)
Theorem Check_report (w : os.World) (c : checker.Checker) (targetDir : string)
    (r : report.Report) :
  snd (checker.Check w c targetDir) = os.Ok r ->
  Go.len (report.Violations r) <= Go.maxInt ->
  report.ProjectPath r = targetDir
  /\ (forall goFiles, os.GoFiles w targetDir = os.Ok goFiles ->
                      report.TotalFiles r = Go.len goFiles)
  /\ sort.SortedBy report.less (report.Violations r)
  /\ report.TotalViolations (report.Summary_ r) = Go.len (report.Violations r)
  /\ sumValues (report.BySeverity (report.Summary_ r))
     = report.TotalViolations (report.Summary_ r).
Proof.
  unfold checker.Check.
  destruct (os.GoFiles w targetDir) as [goFiles|]; [|done]. simpl.
  set (c0 := checker.setReport c (report.NewReport targetDir)).
  set (c1 := if rules.DirectoryConfig.Enabled _ then _ else c0).
  set (c2 := checker.setReport c1 _).
  set (pre := checker.report (checker.checkAllCustomRules (checker.checkFiles w c2 goFiles)
                                goFiles)).
  intros [= <-] Hlen.
  assert (Hframe1 : sameFrame (report.NewReport targetDir) (checker.report c1)).
  { unfold c1. simpl. destruct (rules.DirectoryConfig.Enabled _); [|apply sameFrame_refl].
    apply (addViolations_frame c0). }
  assert (Hpre : sameFrame (checker.report c2) pre).
  { unfold pre. eapply sameFrame_trans; [apply checkFiles_frame|].
    apply checkAllCustomRules_frame. }
  destruct Hframe1 as (Hs1 & Hp1 & _). destruct Hpre as (Hs & Hp & Hf).
  simpl in Hs, Hp, Hf.
  assert (Hlen' : Go.len (report.Violations pre) <= Go.maxInt).
  { unfold Go.len in *. by rewrite <- (Finalize_Violations_perm pre). }
  split_and!.
  - simpl. by rewrite Hp, Hp1.
  - intros goFiles' [= <-]. simpl. by rewrite Hf.
  - apply Finalize_Violations_sorted.
  - rewrite Finalize_TotalViolations. unfold Go.len. by rewrite Finalize_Violations_perm.
  - rewrite Finalize_TotalViolations, Finalize_BySeverity, Hs, Hs1. simpl.
    fold (counts (report.Severity <$> report.Violations pre)).
    rewrite sumValues_counts; unfold Go.len in *; by rewrite ?length_fmap.
Qed.

End RunProperties.

(** X5, on a report with a warning and an error. *)
Lemma ExitCode_error_witness :
  let r := reportOf "proj"
             [tooManyParameters;
              finding "a.go" 7 "no_ignored_errors" "error_handling" rules.SeverityError] in
  report.BySeverity (report.Summary_ r) = ∅
  /\ Go.len (report.Violations r) <= Go.maxInt
  /\ report.ExitCode (@report.Finalize insertionSorter r) = 1.
Proof.
  intros r.
  assert (Hempty : report.BySeverity (report.Summary_ r) = ∅) by reflexivity.
  assert (Hlen : Go.len (report.Violations r) <= Go.maxInt) by (vm_compute; discriminate).
  split; [exact Hempty|]. split; [exact Hlen|].
  apply (proj1 (@ExitCode_error insertionSorter r Hempty Hlen)).
  exists (finding "a.go" 7 "no_ignored_errors" "error_handling" rules.SeverityError).
  split; [|reflexivity]. apply list_elem_of_In. right. left. reflexivity.
Defined.

(** The run on the directory whose only file does not parse, with the
    custom rule that looks for [TODO]. *)
Definition todoRun : checker.Checker * os.Result report.Report :=
  @checker.Check literalEngine latin1Tables slashPaths insertionSorter unparsable
    (checker.NewChecker (withCustomRules rules.DefaultConfig [todoRule])) ".".

Definition todoReport : report.Report :=
  match snd todoRun with
  | os.Ok r => r
  | os.Err _ => report.NewReport ""
  end.

(** X6, on that run. *)
Lemma Check_report_witness :
  snd todoRun = os.Ok todoReport
  /\ Go.len (report.Violations todoReport) <= Go.maxInt
  /\ report.TotalFiles todoReport = 1
  /\ report.TotalViolations (report.Summary_ todoReport)
     = Go.len (report.Violations todoReport)
  /\ sumValues (report.BySeverity (report.Summary_ todoReport))
     = report.TotalViolations (report.Summary_ todoReport).
Proof.
  assert (Hrun : snd todoRun = os.Ok todoReport) by reflexivity.
  assert (Hlen : Go.len (report.Violations todoReport) <= Go.maxInt)
    by (vm_compute; discriminate).
  destruct (@Check_report literalEngine latin1Tables slashPaths insertionSorter unparsable
              (checker.NewChecker (withCustomRules rules.DefaultConfig [todoRule])) "."
              todoReport Hrun Hlen) as (_ & Hfiles & _ & Htotal & Hsum).
  split; [exact Hrun|]. split; [exact Hlen|]. split; [|split; [exact Htotal|exact Hsum]].
  exact (Hfiles ["a.go"] eq_refl).
Defined.

(** ** The nesting level against the words of the specification

    Section 4.1 of the specification defines the nesting depth over the
    body of a declaration.  The body itself is depth 0.  A nestable
    construct (conditional branch, counted loop, iteration loop,
    multi-way branch, concurrent-wait multiplexer) increases the depth
    of its nested body by 1 relative to its own depth; non-nestable
    statements do not change depth.  An else-branch is evaluated at the
    same depth as the nested body of its guarding conditional.  The
    fact is the maximum depth observed over the whole body, recursively
    including nested constructs inside nested constructs.

    [specNestingStmt] follows these words on the syntax tree: it goes
    through every statement that holds statements, and only the
    nestable constructs add to the depth.  The words leave two points
    open, and each is a parameter: whether a type switch is a multi-way
    branch ([typeSwitchNests]), and whether the body of an [else if]
    shares the depth of the then-body before it or lies one deeper, the
    [else if] being a conditional that stands at that depth
    ([elseIfStacks]).  [ast.OtherStmt] is a statement that holds no
    statement. *)

Section SpecWords.
Variable typeSwitchNests : bool.
Variable elseIfStacks : bool.

(** The greatest depth observed in [stmt], which stands at [depth]. *)
Fixpoint specNestingStmt (stmt : ast.Stmt) (depth : Z) : Z :=
  let block := fun (list : list ast.Stmt) (depth : Z) =>
    fold_left (fun observed stmt => Z.max observed (specNestingStmt stmt depth))
              list depth in
  let nested := fun (body : option (list ast.Stmt)) (depth : Z) =>
    match body with
    | None => depth
    | Some list => block list depth
    end in
  match stmt with
  | ast.IfStmt body els =>
      Z.max (nested body (depth + 1))
            match els with
            | None => depth
            | Some (ast.BlockStmt elseBlock) => block elseBlock (depth + 1)
            | Some elseStmt =>
                specNestingStmt elseStmt (if elseIfStacks then depth + 1 else depth)
            end
  | ast.ForStmt body => nested body (depth + 1)
  | ast.RangeStmt body => nested body (depth + 1)
  | ast.SwitchStmt body => nested body (depth + 1)
  | ast.SelectStmt body => nested body (depth + 1)
  | ast.TypeSwitchStmt body => nested body (if typeSwitchNests then depth + 1 else depth)
  | ast.BlockStmt list => block list depth
  | ast.CaseClause list => block list depth
  | ast.CommClause list => block list depth
  | ast.LabeledStmt s => specNestingStmt s depth
  | ast.OtherStmt => depth
  end.

(** The greatest depth observed in the statements of [list], all at
    [depth], or [observed] if that is greater. *)
Definition specNestingList (list : list ast.Stmt) (depth observed : Z) : Z :=
  fold_left (fun observed stmt => Z.max observed (specNestingStmt stmt depth)) list observed.

(** The nesting depth of a body that stands at [depth]: 0 for the body
    of a declaration. *)
Definition specNestingLevel (body : option (list ast.Stmt)) (depth : Z) : Z :=
  match body with
  | None => depth
  | Some list => specNestingList list depth depth
  end.




(** Induction on statements, through the lists and options that hold
    their parts. *)
Definition allIn (P : ast.Stmt -> Prop) (body : option (list ast.Stmt)) : Prop :=
  match body with
  | None => True
  | Some list => Forall P list
  end.

Lemma Stmt_nested_ind (P : ast.Stmt -> Prop) :
  (forall body els,
      allIn P body -> match els with Some e => P e | None => True end ->
      P (ast.IfStmt body els)) ->
  (forall body, allIn P body -> P (ast.ForStmt body)) ->
  (forall body, allIn P body -> P (ast.RangeStmt body)) ->
  (forall body, allIn P body -> P (ast.SwitchStmt body)) ->
  (forall body, allIn P body -> P (ast.TypeSwitchStmt body)) ->
  (forall body, allIn P body -> P (ast.SelectStmt body)) ->
  (forall list, Forall P list -> P (ast.BlockStmt list)) ->
  (forall list, Forall P list -> P (ast.CaseClause list)) ->
  (forall list, Forall P list -> P (ast.CommClause list)) ->
  (forall s, P s -> P (ast.LabeledStmt s)) ->
  P ast.OtherStmt ->
  forall s, P s.
Proof.
  intros HIf HFor HRange HSwitch HTypeSwitch HSelect HBlock HCase HComm HLabeled HOther.
  fix IH 1. intros s.
  assert (Hlist : forall l : list ast.Stmt, Forall P l).
  { fix IHl 1. intros [|x l]; constructor; [apply IH|apply IHl]. }
  assert (Hbody : forall body, allIn P body).
  { intros [l|]; simpl; [apply Hlist|exact I]. }
  destruct s as [body els|body|body|body|body|body|l|l|l|s'|].
  - apply HIf; [apply Hbody|]. destruct els as [e|]; [apply IH|exact I].
  - apply HFor, Hbody.
  - apply HRange, Hbody.
  - apply HSwitch, Hbody.
  - apply HTypeSwitch, Hbody.
  - apply HSelect, Hbody.
  - apply HBlock, Hlist.
  - apply HCase, Hlist.
  - apply HComm, Hlist.
  - apply HLabeled, IH.
  - apply HOther.
Qed.

(** *** The depth that the words give *)

Lemma specNestingList_cons s list depth observed :
  specNestingList (s :: list) depth observed
  = specNestingList list depth (Z.max observed (specNestingStmt s depth)).
Proof. reflexivity. Qed.

Lemma specNestingList_ge list depth observed :
  observed <= specNestingList list depth observed.
Proof.
  revert observed. induction list as [|s list IH]; intros observed; [simpl; lia|].
  rewrite specNestingList_cons. specialize (IH (Z.max observed (specNestingStmt s depth))).
  lia.
Qed.

Lemma specNestingList_mono list depth observed observed' :
  observed <= observed' ->
  specNestingList list depth observed <= specNestingList list depth observed'.
Proof.
  revert observed observed'. induction list as [|s list IH]; intros o o' Ho; [done|].
  rewrite !specNestingList_cons. apply IH. lia.
Qed.

Lemma specNestingLevel_ge body depth : depth <= specNestingLevel body depth.
Proof. destruct body; simpl; [apply specNestingList_ge|lia]. Qed.

(** The equations of [specNestingStmt], case by case. *)
Lemma specNestingStmt_nestable stmt body depth :
  match stmt with
  | ast.ForStmt b | ast.RangeStmt b | ast.SwitchStmt b | ast.SelectStmt b => b = body
  | _ => False
  end ->
  specNestingStmt stmt depth = specNestingLevel body (depth + 1).
Proof. by destruct stmt; try done; intros ->; destruct body. Qed.

Lemma specNestingStmt_if body els depth :
  specNestingStmt (ast.IfStmt body els) depth
  = Z.max (specNestingLevel body (depth + 1))
          match els with
          | None => depth
          | Some (ast.BlockStmt elseBlock) => specNestingLevel (Some elseBlock) (depth + 1)
          | Some elseStmt =>
              specNestingStmt elseStmt (if elseIfStacks then depth + 1 else depth)
          end.
Proof. destruct body; by destruct els as [[]|]. Qed.

Lemma specNestingStmt_ge stmt : forall depth, depth <= specNestingStmt stmt depth.
Proof.
  induction stmt as [body els Hbody Hels|body Hbody|body Hbody|body Hbody|body Hbody|body Hbody
                    |l Hl|l Hl|l Hl|s' Hs'|] using Stmt_nested_ind; intros depth.
  - rewrite specNestingStmt_if. pose proof (specNestingLevel_ge body (depth + 1)). lia.
  - rewrite (specNestingStmt_nestable _ body) by done.
    pose proof (specNestingLevel_ge body (depth + 1)). lia.
  - rewrite (specNestingStmt_nestable _ body) by done.
    pose proof (specNestingLevel_ge body (depth + 1)). lia.
  - rewrite (specNestingStmt_nestable _ body) by done.
    pose proof (specNestingLevel_ge body (depth + 1)). lia.
  - change (depth <= specNestingLevel body (if typeSwitchNests then depth + 1 else depth)).
    pose proof (specNestingLevel_ge body (if typeSwitchNests then depth + 1 else depth)).
    destruct typeSwitchNests; lia.
  - rewrite (specNestingStmt_nestable _ body) by done.
    pose proof (specNestingLevel_ge body (depth + 1)). lia.
  - apply (specNestingList_ge l depth depth).
  - apply (specNestingList_ge l depth depth).
  - apply (specNestingList_ge l depth depth).
  - apply Hs'.
  - simpl. lia.
Qed.



(** *** The level that the code gives *)














End SpecWords.




(** ** Ties on a short slice

    On a slice of at most twelve elements [sort.Slice] runs the
    insertion sort, which never moves an element past one that is not
    greater: findings that agree on the three keys keep the order in
    which they were inserted. *)

(** The findings of [vs] with the keys [k], in their order in [vs]. *)
Definition withKey (k : Z * string * Z) (vs : list report.Violation)
  : list report.Violation :=
  filter (fun v => sortKey v = k) vs.

Lemma keyLess_irrefl k : keyLess k k = false.
Proof.
  destruct (keyLess k k) eqn:E; [|done]. by rewrite (keyLess_asym _ _ E) in E.
Qed.

Lemma withKey_insertBack k x rp :
  withKey k (sort.insertBack report.less x rp) = withKey k (x :: rp).
Proof.
  induction rp as [|y rp IH]; [done|]. simpl.
  destruct (report.less x y) eqn:Hxy; [|done].
  unfold withKey in *. rewrite filter_cons, IH, !filter_cons.
  destruct (decide (sortKey y = k)) as [Hy|Hy]; [|done].
  destruct (decide (sortKey x = k)) as [Hx|Hx]; [|done].
  rewrite less_keyLess, Hx, Hy, keyLess_irrefl in Hxy. discriminate.
Qed.

Lemma withKey_rev k vs : withKey k (rev vs) = rev (withKey k vs).
Proof.
  unfold withKey. induction vs as [|v vs IH]; [done|].
  change (rev (v :: vs)) with (rev vs ++ [v]).
  rewrite filter_app, IH, !filter_cons, filter_nil.
  destruct (decide (sortKey v = k)); simpl; [done|by rewrite app_nil_r].
Qed.

Lemma withKey_insertionSort k vs :
  withKey k (sort.insertionSort report.less vs) = withKey k vs.
Proof.
  unfold sort.insertionSort. rewrite withKey_rev.
  assert (Hgen : forall acc,
    rev (withKey k (fold_left (fun rp x => sort.insertBack report.less x rp) vs acc))
    = rev (withKey k acc) ++ withKey k vs).
  { induction vs as [|v vs IH]; intros acc; simpl; [by rewrite app_nil_r|].
    rewrite IH, withKey_insertBack. unfold withKey. rewrite !filter_cons.
    destruct (decide (sortKey v = k)); simpl; [|done]. by rewrite <- app_assoc. }
  by rewrite Hgen.
Qed.

(** X9: on a report of at most twelve findings, sorted as [sort.Slice]
    sorts a slice of that length, the findings that agree on severity
    level, file and line stand after [Finalize] in the order in which
    they were inserted. *)
Theorem Finalize_keeps_ties_on_short_slices (r : report.Report) (k : Z * string * Z) :
  (length (report.Violations r) <= 12)%nat ->
  withKey k (report.Violations (@report.Finalize insertionSorter r))
  = withKey k (report.Violations r).
Proof. intros _. apply withKey_insertionSort. Qed.

(** X9, on two findings tied on the three keys, with a third between
    them. *)
Lemma Finalize_keeps_ties_on_short_slices_witness :
  let r := reportOf "proj"
             [tooManyResults;
              finding "a.go" 1 "file_name" "naming" rules.SeverityError;
              tooManyParameters] in
  (length (report.Violations r) <= 12)%nat
  /\ withKey (2, "a.go", 3) (report.Violations (@report.Finalize insertionSorter r))
     = [tooManyResults; tooManyParameters].
Proof.
  intros r.
  assert (Hlen : (length (report.Violations r) <= 12)%nat) by (vm_compute; lia).
  split; [exact Hlen|].
  exact (@Finalize_keeps_ties_on_short_slices r (2, "a.go", 3) Hlen).
Defined.

(** ** Severities *)

Lemma Level_range (s : rules.Severity) : 1 <= rules.Level s <= 3.
Proof. unfold rules.Level. repeat case_decide; lia. Qed.

Lemma Level_error_max (s : rules.Severity) : rules.Level s <= rules.Level rules.SeverityError.
Proof. pose proof (Level_range s). change (rules.Level rules.SeverityError) with 3. lia. Qed.

(** X10: parsing a severity keeps its level, and a name that is neither
    [error] nor [warning] stands for [info]: the level of any string is
    the level of the severity it parses to, between 1 and 3; parsing is
    the identity on the three severities and on what it returns. *)
Theorem ParseSeverity_Level (s : string) :
  rules.Level (rules.ParseSeverity s) = rules.Level s
  /\ 1 <= rules.Level s <= 3
  /\ rules.ParseSeverity (rules.ParseSeverity s) = rules.ParseSeverity s
  /\ (rules.ParseSeverity s = s
      <-> s = rules.SeverityError \/ s = rules.SeverityWarning \/ s = rules.SeverityInfo)
  /\ (rules.Level s = 1 <-> s <> rules.SeverityError /\ s <> rules.SeverityWarning).
Proof.
  split; [|split; [apply Level_range|split; [|split]]].
  - unfold rules.ParseSeverity, rules.Level, rules.SeverityError, rules.SeverityWarning,
      rules.SeverityInfo.
    destruct (decide (s = "error")) as [->|]; [reflexivity|].
    destruct (decide (s = "warning")) as [->|]; [reflexivity|].
    by rewrite (decide_False (P := s = "error")), (decide_False (P := s = "warning")).
  - unfold rules.ParseSeverity, rules.SeverityError, rules.SeverityWarning, rules.SeverityInfo.
    destruct (decide (s = "error")) as [->|]; [reflexivity|].
    destruct (decide (s = "warning")) as [->|]; reflexivity.
  - unfold rules.ParseSeverity, rules.SeverityError, rules.SeverityWarning, rules.SeverityInfo.
    destruct (decide (s = "error")) as [->|]; [by split; [left|]|].
    destruct (decide (s = "warning")) as [->|]; [by split; [right; left|]|].
    split; [intros <-; auto|]. intros [?|[?|?]]; congruence.
  - unfold rules.Level. repeat case_decide; split; try lia; try tauto; by intros [].
Qed.

(** ** More on [Filter] *)

Lemma index_counts (ks : list string) (k : string) :
  Go.len ks <= Go.maxInt -> Go.index (counts ks) k = occurrences k ks.
Proof.
  intros Hlen. unfold Go.index. rewrite counts_lookup by done.
  case_decide as Hk; [done|]. simpl.
  pose proof (occurrences_pos k ks) as Hpos. pose proof (occurrences_range k ks). 
  destruct (decide (0 < occurrences k ks)); [tauto|lia].
Qed.

Lemma retained_length minSeverity vs :
  Go.len (retained minSeverity vs) <= Go.len vs.
Proof.
  unfold retained, Go.len.
  pose proof (length_filter
    (fun v => rules.Level minSeverity <= rules.Level (report.Severity v)) vs). lia.
Qed.

Lemma retained_perm minSeverity vs vs' :
  vs ≡ₚ vs' -> retained minSeverity vs ≡ₚ retained minSeverity vs'.
Proof. intros Hp. unfold retained. by rewrite Hp. Qed.

Lemma retained_all minSeverity vs :
  rules.Level minSeverity = 1 -> retained minSeverity vs = vs.
Proof.
  intros Hmin. unfold retained. induction vs as [|v vs IH]; [done|].
  rewrite filter_cons, decide_True; [by rewrite IH|].
  pose proof (Level_range (report.Severity v)). lia.
Qed.

Lemma retained_retained s1 s2 vs :
  retained s2 (retained s1 vs)
  = retained (if rules.Level s1 <? rules.Level s2 then s2 else s1) vs.
Proof.
  unfold retained. induction vs as [|v vs IH]; [done|].
  rewrite !filter_cons. 
  destruct (Z.ltb_spec (rules.Level s1) (rules.Level s2)); repeat case_decide;
    rewrite ?filter_cons; repeat case_decide; try lia; by rewrite IH.
Qed.

Lemma retained_error minSeverity vs v :
  report.Severity v = rules.SeverityError -> v ∈ vs -> v ∈ retained minSeverity vs.
Proof.
  intros Hs Hv. apply list_elem_of_filter. split; [|done].
  rewrite Hs. apply Level_error_max.
Qed.

Section FilterComposition.
Context `{sort.Sorter}.

(** The report that [Filter] builds from the report [src]. *)
Definition filteredFrom (minSeverity : rules.Severity) (src : report.Report) : report.Report :=
  report.Finalize
    (fold_left report.AddViolation (retained minSeverity (report.Violations src))
       (report.setTotalFiles (report.NewReport (report.ProjectPath src))
                             (report.TotalFiles src))).

Lemma filteredFrom_Violations minSeverity src :
  report.Violations (filteredFrom minSeverity src)
  ≡ₚ retained minSeverity (report.Violations src).
Proof.
  unfold filteredFrom. by rewrite Finalize_Violations_perm, fold_AddViolation_Violations.
Qed.

Lemma filteredFrom_BySeverity minSeverity src :
  report.BySeverity (report.Summary_ (filteredFrom minSeverity src))
  = counts (report.Severity <$> retained minSeverity (report.Violations src)).
Proof.
  unfold filteredFrom. rewrite Finalize_BySeverity, fold_AddViolation_Violations.
  by rewrite fold_AddViolation_Summary.
Qed.

(** X11: a threshold other than [error] and [warning] hides nothing:
    the filtered report holds every finding of the source. *)
Theorem Filter_keeps_all (h : report.heap) (r : positive) (src : report.Report)
    (minSeverity : rules.Severity) :
  h !! r = Some src ->
  minSeverity <> rules.SeverityError ->
  minSeverity <> rules.SeverityWarning ->
  exists (filtered : positive) (out : report.Report) (h' : report.heap),
    report.Filter h r minSeverity = Some (filtered, h')
    /\ h' !! filtered = Some out
    /\ report.Violations out ≡ₚ report.Violations src
    /\ report.TotalViolations (report.Summary_ out) = Go.len (report.Violations src).
Proof.
  intros Hr He Hw.
  assert (Hmin : rules.Level minSeverity = 1).
  { unfold rules.Level. by rewrite !decide_False. }
  exists (fresh (dom h)), (filteredFrom minSeverity src),
    (<[fresh (dom h) := filteredFrom minSeverity src]> h).
  split_and!.
  - by apply Filter_eq.
  - apply lookup_insert_eq.
  - by rewrite filteredFrom_Violations, retained_all.
  - unfold filteredFrom. rewrite Finalize_TotalViolations, fold_AddViolation_Violations.
    by rewrite retained_all.
Qed.

(** X12: filtering a filtered report is filtering the source at the
    higher of the two thresholds; the source and the first filtered
    report are still in the heap as they were. *)
Theorem Filter_twice (h : report.heap) (r : positive) (src : report.Report)
    (s1 s2 : rules.Severity) :
  h !! r = Some src ->
  exists (p1 p2 : positive) (h1 h2 : report.heap) (out1 out2 : report.Report),
    report.Filter h r s1 = Some (p1, h1)
    /\ report.Filter h1 p1 s2 = Some (p2, h2)
    /\ h2 !! r = Some src
    /\ h2 !! p1 = Some out1
    /\ h2 !! p2 = Some out2
    /\ p1 <> p2
    /\ report.Violations out1 ≡ₚ retained s1 (report.Violations src)
    /\ report.Violations out2
       ≡ₚ retained (if rules.Level s1 <? rules.Level s2 then s2 else s1)
            (report.Violations src)
    /\ sort.SortedBy report.less (report.Violations out2).
Proof.
  intros Hr.
  set (p1 := fresh (dom h)).
  set (out1 := filteredFrom s1 src).
  set (h1 := <[p1 := out1]> h).
  set (p2 := fresh (dom h1)).
  set (out2 := filteredFrom s2 out1).
  assert (Hp1 : h !! p1 = None) by apply not_elem_of_dom, is_fresh.
  assert (Hp2 : h1 !! p2 = None) by apply not_elem_of_dom, is_fresh.
  assert (H1 : h1 !! p1 = Some out1) by apply lookup_insert_eq.
  assert (Hne : p1 <> p2) by (intros E; rewrite <- E in Hp2; congruence).
  assert (Hrp1 : r <> p1) by (intros ->; congruence).
  assert (Hr1 : h1 !! r = Some src) by (unfold h1; by rewrite lookup_insert_ne).
  assert (Hrp2 : r <> p2) by (intros E; rewrite <- E in Hp2; congruence).
  exists p1, p2, h1, (<[p2 := out2]> h1), out1, out2.
  split_and!.
  - by apply Filter_eq.
  - by apply Filter_eq.
  - by rewrite lookup_insert_ne.
  - by rewrite lookup_insert_ne.
  - apply lookup_insert_eq.
  - done.
  - apply filteredFrom_Violations.
  - unfold out2, out1. rewrite filteredFrom_Violations.
    rewrite (retained_perm s2 _ _ (filteredFrom_Violations s1 src)).
    by rewrite retained_retained.
  - apply Finalize_Violations_sorted.
Qed.

(** X13: no threshold hides an error from the exit status: the exit
    status of the filtered report is 1 exactly when the source holds a
    finding of severity error, whatever the threshold is. *)
Theorem Filter_ExitCode (h : report.heap) (r : positive) (src : report.Report)
    (minSeverity : rules.Severity) :
  h !! r = Some src ->
  Go.len (report.Violations src) <= Go.maxInt ->
  exists (filtered : positive) (out : report.Report) (h' : report.heap),
    report.Filter h r minSeverity = Some (filtered, h')
    /\ h' !! filtered = Some out
    /\ (report.ExitCode out = 1
        <-> exists v, v ∈ report.Violations src /\ report.Severity v = rules.SeverityError)
    /\ (report.ExitCode out = 0
        <-> forall v, v ∈ report.Violations src -> report.Severity v <> rules.SeverityError).
Proof.
  intros Hr Hlen.
  exists (fresh (dom h)), (filteredFrom minSeverity src),
    (<[fresh (dom h) := filteredFrom minSeverity src]> h).
  split; [by apply Filter_eq|]. split; [apply lookup_insert_eq|].
  unfold report.ExitCode, report.HasErrors.
  rewrite filteredFrom_BySeverity.
  set (kept := retained minSeverity (report.Violations src)).
  assert (Hkept : Go.len (report.Severity <$> kept) <= Go.maxInt).
  { pose proof (retained_length minSeverity (report.Violations src)) as Hret.
    unfold Go.len in *. rewrite length_fmap. fold kept in Hret. lia. }
  rewrite index_counts by done.
  pose proof (occurrences_pos "error" (report.Severity <$> kept)) as Hpos.
  assert (Hin : "error" ∈ report.Severity <$> kept
                <-> exists v, v ∈ report.Violations src
                              /\ report.Severity v = rules.SeverityError).
  { rewrite list_elem_of_fmap. unfold rules.SeverityError. split.
    - intros (v & Hs & Hv). exists v. split; [|done].
      by apply list_elem_of_filter in Hv as [_ Hv].
    - intros (v & Hv & Hs). exists v. split; [done|]. by apply retained_error. }
  destruct (Z.gtb_spec (occurrences "error" (report.Severity <$> kept)) 0) as [Hgt|Hle].
  - assert (He : "error" ∈ report.Severity <$> kept) by (apply Hpos; lia).
    split.
    + split; [|done]. intros _. by apply Hin.
    + split; [done|]. intros Hall. apply Hin in He as (v & Hv & Hs). by destruct (Hall v Hv).
  - assert (He : ~ "error" ∈ report.Severity <$> kept) by (rewrite Hpos; lia).
    split.
    + split; [done|]. intros Hex. destruct He. by apply Hin.
    + split; [|done]. intros _ v Hv Hs. apply He, Hin. by exists v.
Qed.

End FilterComposition.

(** ** The line cache *)

(** X14: [getCodeLine] on the bounds: a line number from 1 to the
    number of cached lines gives that line; a smaller or greater one, or
    a file that is not cached, gives the empty string. *)
Theorem getCodeLine_bounds (c : checker.Checker) (filePath : string) (line : Go.int) :
  (forall lines, checker.fileMap c !! filePath = Some lines ->
                 1 <= line <= Go.len lines ->
                 lines !! Z.to_nat (line - 1) = Some (checker.getCodeLine c filePath line))
  /\ (forall lines, checker.fileMap c !! filePath = Some lines ->
                    line < 1 \/ Go.len lines < line ->
                    checker.getCodeLine c filePath line = "")
  /\ (checker.fileMap c !! filePath = None -> checker.getCodeLine c filePath line = "").
Proof.
  unfold checker.getCodeLine. split_and!.
  - intros lines -> Hline.
    destruct (Z.ltb_spec line 1); [lia|]. destruct (Z.gtb_spec line (Go.len lines)); [lia|].
    simpl. destruct (lines !! Z.to_nat (line - 1)) as [l|] eqn:E; [done|].
    apply lookup_ge_None in E. unfold Go.len in *. lia.
  - intros lines -> Hline.
    destruct (Z.ltb_spec line 1); [done|]. destruct (Z.gtb_spec line (Go.len lines)); [done|].
    lia.
  - by intros ->.
Qed.

Section DirectoryRules.
Context `{regexp.Engine} `{unicode.Tables} `{filepath.Lib}.

Import rules.

(** *** The directory rules *)

(** X15: [checkDirectory] adds one [required_dirs] finding for each
    configured directory that does not exist below the target, none when
    the rule is off; every directory finding is at line 1 of the target
    directory. *)
Theorem checkDirectory_required_dirs (w : os.World) (c : checker.Checker)
    (targetDir : string) :
  let rule := DirectoryRulesConfig.RequiredDirs
                (DirectoryConfig.Rules (Config.Directory (checker.config c))) in
  report.Suggestion <$> findingsOf "required_dirs" (checker.checkDirectory w c targetDir)
  = (if BaseRule.Enabled (DirsRule.Base rule)
     then (fun dir => "mkdir -p " +:+ filepath.Join targetDir dir)
            <$> filter (fun dir => os.IsNotExist w (filepath.Join targetDir dir) = true)
                       (DirsRule.Dirs rule)
     else [])
  /\ Forall (fun v => report.File v = targetDir /\ report.Line v = 1
                      /\ report.Category v = "directory")
            (checker.checkDirectory w c targetDir).
Proof.
  intros rule. unfold checker.checkDirectory. fold rule.
  set (rec := DirectoryRulesConfig.RecommendedDirs _).
  split.
  - rewrite findingsOf_app.
    assert (Hrec : forall dirs, findingsOf "required_dirs"
      (flat_map (fun dir =>
         if os.IsNotExist w (filepath.Join targetDir dir)
         then [ {| report.File := targetDir; report.Line := 1; report.Column := 0;
                   report.Rule := "recommended_dirs"; report.Category := "directory";
                   report.Severity := ParseSeverity (BaseRule.Severity (DirsRule.Base rec));
                   report.Message := "推奨ディレクトリ '" +:+ dir +:+ "' が見つかりません";
                   report.Suggestion := ""; report.Code := "" |} ]
         else []) dirs) = []).
    { induction dirs as [|d dirs IH]; [done|]. simpl. rewrite findingsOf_app, IH.
      by destruct (os.IsNotExist w _). }
    destruct (BaseRule.Enabled (DirsRule.Base rec)); rewrite ?Hrec, app_nil_r;
      (destruct (BaseRule.Enabled (DirsRule.Base rule)); [|done]);
      (induction (DirsRule.Dirs rule) as [|d dirs IH]; [done|]);
      simpl; rewrite findingsOf_app, fmap_app, IH, filter_cons;
      by destruct (os.IsNotExist w _).
  - apply Forall_app. split.
    + destruct (BaseRule.Enabled (DirsRule.Base rule)); [|constructor].
      induction (DirsRule.Dirs rule) as [|d dirs IH]; [constructor|]. simpl.
      apply Forall_app. split; [|exact IH]. destruct (os.IsNotExist w _); by repeat constructor.
    + destruct (BaseRule.Enabled (DirsRule.Base rec)); [|constructor].
      induction (DirsRule.Dirs rec) as [|d dirs IH]; [constructor|]. simpl.
      apply Forall_app. split; [|exact IH]. destruct (os.IsNotExist w _); by repeat constructor.
Qed.

End DirectoryRules.

(** Whether a declaration spec declares variables of the type written
    [error]. *)
Definition declaresError (spec : ast.Spec) : bool :=
  match spec with
  | ast.ValueSpec _ (Some (ast.Ident typeName _)) => bool_decide (typeName = "error")
  | _ => false
  end.

(** The blank identifier. *)
Definition isBlank (e : ast.Expr) : bool :=
  match e with
  | ast.Ident name _ => bool_decide (name = "_")
  | _ => false
  end.

Section SyntaxRules.
Context `{regexp.Engine} `{unicode.Tables} `{filepath.Lib}.

Import rules.

(** *** Sentinel errors *)

(** X16: the [error_var] rule reads only variables declared with the
    type written [error]: a declaration without a type, such as
    [var ErrNotFound = errors.New(...)], or with another type, or one
    that is not a [var] declaration, is never reported, whatever its
    names are. *)
Theorem checkGenDecl_needs_error_type (c : checker.Checker) (gd : ast.GenDecl)
    (filePath : string) :
  ast.GenDecl_Tok gd <> ast.VAR
  \/ Forall (fun spec => declaresError spec = false) (ast.GenDecl_Specs gd) ->
  checker.checkGenDecl c gd filePath = [].
Proof.
  unfold checker.checkGenDecl. intros [Htok|Hspecs].
  - by destruct (ast.GenDecl_Tok gd).
  - destruct (ast.GenDecl_Tok gd); [|done].
    induction Hspecs as [|spec specs Hspec _ IH]; [done|]. simpl. rewrite IH, app_nil_r.
    destruct spec as [names type|]; [|done]. simpl in Hspec.
    induction names as [|name names IHn]; [done|]. simpl. rewrite IHn, app_nil_r.
    destruct (_ && _); [|done].
    destruct type as [[typeName pos| | |]|]; try done.
    by rewrite decide_False by by apply bool_decide_eq_false in Hspec.
Qed.

(** X17: in a [var] declaration of the type [error], with the rule on
    and a pattern that compiles, the [error_var] findings are the
    exported names that the pattern does not match, one finding each, at
    the position of the name; a name that is not exported is never
    reported. *)
Theorem checkGenDecl_error_vars (c : checker.Checker) (names : list (string * token.Position))
    (typePos : token.Position) (filePath : string) (pattern : regexp.Regexp) :
  let naming := Config.Naming (checker.config c) in
  let rule := NamingRulesConfig.ErrorVar (NamingConfig.Rules naming) in
  NamingConfig.Enabled naming = true ->
  BaseRule.Enabled (PatternRule.Base rule) = true ->
  regexp.Compile (PatternRule.Pattern rule) = Some pattern ->
  (fun v => (report.Line v, report.Column v))
    <$> checker.checkGenDecl c
          {| ast.GenDecl_Tok := ast.VAR;
             ast.GenDecl_Specs := [ast.ValueSpec names (Some (ast.Ident "error" typePos))] |}
          filePath
  = (fun name => (token.Line (snd name), token.Column (snd name)))
      <$> filter (fun name => token.IsExported (fst name) = true
                              /\ regexp.Regexp_MatchString pattern (fst name) = false)
                 names.
Proof.
  intros naming rule Hnaming Hrule Hpattern. subst rule naming.
  unfold checker.checkGenDecl. simpl.
  rewrite app_nil_r, Hnaming, Hrule. simpl.
  induction names as [|name names IH]; [done|]. simpl.
  rewrite fmap_app, IH, filter_cons. unfold checker.checkErrorVarName.
  rewrite Hpattern.
  destruct (decide (token.IsExported name.1 = true
                    /\ regexp.Regexp_MatchString pattern name.1 = false)) as [[He Hm]|Hn].
  - by rewrite He, Hm.
  - destruct (token.IsExported name.1); [|done].
    destruct (regexp.Regexp_MatchString pattern name.1); [done|]. by destruct Hn.
Qed.

(** *** Discarded results *)

Lemma assignmentLoop_beyond_rhs c a filePath i lhs :
  (length (ast.AssignStmt_Rhs a) <= i)%nat ->
  checker.assignmentLoop c a filePath i lhs = [].
Proof.
  revert i. induction lhs as [|e lhs IH]; intros i Hi; [done|]. simpl.
  rewrite IH by lia. rewrite app_nil_r.
  destruct e as [name pos| | |]; try done. case_decide; [|done].
  by rewrite (proj2 (lookup_ge_None _ _) Hi).
Qed.

(** X18: the [no_ignored_errors] rule pairs the blank identifier with
    the expression at the same index on the right.  When one call stands
    on the right, only its first result is paired with it: with any
    other target in the first place, as in [v, _ := f()], the assignment
    is not reported, however many results it discards. *)
Theorem checkAssignment_single_call (c : checker.Checker) (a : ast.AssignStmt)
    (filePath : string) (e rhs : ast.Expr) (rest : list ast.Expr) :
  ast.AssignStmt_Lhs a = e :: rest ->
  ast.AssignStmt_Rhs a = [rhs] ->
  isBlank e = false ->
  checker.checkAssignment c a filePath = [].
Proof.
  intros Hlhs Hrhs He. unfold checker.checkAssignment. destruct (_ || _); [done|].
  rewrite Hlhs. simpl. rewrite assignmentLoop_beyond_rhs by (rewrite Hrhs; simpl; lia).
  rewrite app_nil_r. destruct e as [name pos| | |]; try done.
  simpl in He. by rewrite decide_False by by apply bool_decide_eq_false in He.
Qed.

(** *** Calls *)

(** X19: a call is reported at most once, and only under the names
    [panic] and [fmt.Print...]: a call whose function is neither an
    identifier nor a selector on an identifier, such as a method of a
    field [s.log.Println()], is never reported. *)
Theorem checkCallExpr_at_most_once (c : checker.Checker) (callFun : ast.Expr)
    (pos : token.Position) (filePath : string) :
  (length (checker.checkCallExpr c callFun pos filePath) <= 1)%nat
  /\ (checker.checkCallExpr c callFun pos filePath <> [] ->
      checker.getCallExprString callFun = "panic"
      \/ Go.HasPrefix (checker.getCallExprString callFun) "fmt.Print" = true)
  /\ (forall (X : ast.Expr) (Sel : string),
        callFun = ast.SelectorExpr X Sel ->
        (forall name p, X <> ast.Ident name p) ->
        checker.checkCallExpr c callFun pos filePath = []).
Proof.
  assert (Hnone : checker.getCallExprString callFun = "" ->
                  checker.checkCallExpr c callFun pos filePath = []).
  { intros Hs. unfold checker.checkCallExpr. rewrite Hs.
    destruct (_ && _); destruct (_ && _); reflexivity. }
  split_and!.
  - unfold checker.checkCallExpr. cbv zeta.
    destruct (decide (checker.getCallExprString callFun = "panic")) as [Hp|Hp].
    + rewrite Hp.
      change (Go.HasPrefix "panic" "fmt.Print") with false.
      destruct (_ && _); destruct (_ && _); try destruct (negb _); simpl; lia.
    + destruct (_ && _); destruct (_ && _); try destruct (Go.HasPrefix _ _); simpl; lia.
  - intros Hne. unfold checker.checkCallExpr in Hne. cbv zeta in Hne.
    destruct (decide (checker.getCallExprString callFun = "panic")) as [Hp|Hp]; [by left|].
    right.
    destruct (Go.HasPrefix _ _); [done|].
    destruct (_ && _); destruct (_ && _); by destruct Hne.
  - intros X Sel -> HX. apply Hnone. destruct X as [name p| | |]; try done.
    by destruct (HX name p).
Qed.

(** *** Types *)

Lemma checkJSONTag_rule c tagValue structName filePath pos :
  Forall (fun v => report.Rule v = "json_tag")
         (checker.checkJSONTag c tagValue structName filePath pos).
Proof.
  unfold checker.checkJSONTag.
  destruct (regexp.FindStringSubmatch _ _) as [|? [|group ?]]; try constructor.
  repeat case_decide; try constructor; destruct (negb _); by repeat constructor.
Qed.

Lemma checkValidationTag_rule c tagValue structName filePath pos :
  Forall (fun v => report.Rule v = "validation_tag")
         (checker.checkValidationTag c tagValue structName filePath pos).
Proof.
  unfold checker.checkValidationTag.
  destruct (negb _); [constructor|]. destruct (negb _); by repeat constructor.
Qed.

Lemma checkStructTags_rules c fields structName filePath :
  Forall (fun v => report.Rule v = "json_tag" \/ report.Rule v = "validation_tag")
         (checker.checkStructTags c fields structName filePath).
Proof.
  unfold checker.checkStructTags. destruct fields as [fields|]; [|constructor].
  apply Forall_flat_map, Forall_forall. intros field _.
  destruct (ast.Field_Tag field); [|constructor].
  apply Forall_app. split.
  - destruct (BaseRule.Enabled _); [|constructor].
    eapply Forall_impl; [apply checkJSONTag_rule|]. by left.
  - destruct (BaseRule.Enabled _); [|constructor].
    eapply Forall_impl; [apply checkValidationTag_rule|]. by right.
Qed.

(** X20: the [interface_name] rule reports a type exactly when the type
    is an interface, the naming category and the rule are on, the name
    is exported and ends in none of the configured suffixes; it then
    reports it once.  An empty suffix in the configuration therefore
    silences the rule. *)
Theorem interface_name_findings (c : checker.Checker) (ts : ast.TypeSpec)
    (filePath : string) :
  let naming := Config.Naming (checker.config c) in
  let rule := NamingRulesConfig.InterfaceName (NamingConfig.Rules naming) in
  let found := findingsOf "interface_name" (checker.checkTypeSpec c ts filePath) in
  (length found <= 1)%nat
  /\ (found <> []
      <-> ast.TypeSpec_Type ts = ast.InterfaceType
          /\ NamingConfig.Enabled naming = true
          /\ BaseRule.Enabled (SuffixRule.Base rule) = true
          /\ token.IsExported (ast.TypeSpec_Name ts) = true
          /\ Forall (fun suffix => Go.HasSuffix (ast.TypeSpec_Name ts) suffix = false)
                    (SuffixRule.Suffixes rule))
  /\ ("" ∈ SuffixRule.Suffixes rule -> found = []).
Proof.
  intros naming rule found.
  assert (Hsuffix : existsb (fun suffix => Go.HasSuffix (ast.TypeSpec_Name ts) suffix)
                            (SuffixRule.Suffixes rule) = false
                    <-> Forall (fun suffix => Go.HasSuffix (ast.TypeSpec_Name ts) suffix = false)
                               (SuffixRule.Suffixes rule)).
  { induction (SuffixRule.Suffixes rule) as [|s l IH]; simpl.
    - split; [constructor|done].
    - rewrite orb_false_iff, IH, Forall_cons. tauto. }
  set (cond := match ast.TypeSpec_Type ts with
               | ast.InterfaceType =>
                   (NamingConfig.Enabled naming && BaseRule.Enabled (SuffixRule.Base rule))
                   && (negb (existsb (fun suffix => Go.HasSuffix (ast.TypeSpec_Name ts) suffix)
                                     (SuffixRule.Suffixes rule))
                       && token.IsExported (ast.TypeSpec_Name ts))
               | _ => false
               end).
  assert (Hfound : if cond then length found = 1%nat else found = []).
  { unfold cond, found, checker.checkTypeSpec. fold naming. fold rule. rewrite findingsOf_app.
    destruct (ast.TypeSpec_Type ts) as [|fields|]; simpl; [| |done].
    - destruct (NamingConfig.Enabled naming && BaseRule.Enabled (SuffixRule.Base rule));
        [|done]. simpl.
      destruct (negb _ && token.IsExported _); [|done].
      unfold findingsOf. by rewrite filter_cons, decide_True.
    - destruct (StructTagsConfig.Enabled _); [|done].
      pose proof (checkStructTags_rules c fields (ast.TypeSpec_Name ts) filePath) as Hall.
      induction Hall as [|v vs Hv _ IH]; [done|].
      unfold findingsOf in *. rewrite filter_cons, decide_False; [exact IH|].
      destruct Hv as [-> | ->]; discriminate. }
  assert (Hcond : cond = true
    <-> ast.TypeSpec_Type ts = ast.InterfaceType
        /\ NamingConfig.Enabled naming = true
        /\ BaseRule.Enabled (SuffixRule.Base rule) = true
        /\ token.IsExported (ast.TypeSpec_Name ts) = true
        /\ Forall (fun suffix => Go.HasSuffix (ast.TypeSpec_Name ts) suffix = false)
                  (SuffixRule.Suffixes rule)).
  { unfold cond. rewrite <- Hsuffix. destruct (ast.TypeSpec_Type ts).
    - rewrite !andb_true_iff, negb_true_iff. tauto.
    - split; [done|]. by intros [? _].
    - split; [done|]. by intros [? _]. }
  split; [|split].
  - destruct cond; [lia|]. rewrite Hfound. simpl. lia.
  - rewrite <- Hcond. destruct cond.
    + split; [done|]. intros _ E. by rewrite E in Hfound.
    + split; [done|]. discriminate.
  - intros Hempty. destruct cond; [|done].
    destruct (proj1 Hcond eq_refl) as (_ & _ & _ & _ & Hall).
    rewrite Forall_forall in Hall. specialize (Hall _ Hempty).
    unfold Go.HasSuffix in Hall. change (String.rev "") with "" in Hall.
    by destruct (String.rev (ast.TypeSpec_Name ts)).
Qed.

End SyntaxRules.

(** A field with a tag that holds no [validate] key. *)
Definition lacksValidate (field : ast.Field) : bool :=
  match ast.Field_Tag field with
  | Some tagValue => negb (Go.Contains tagValue ("validate:" +:+ checker.quote))
  | None => false
  end.

Section StructTags.
Context `{regexp.Engine} `{unicode.Tables} `{filepath.Lib}.

Import rules.

(** X21: the [validation_tag] rule reads the fields that have a tag: in
    a struct whose name matches one of the configured patterns it
    reports each tagged field without a [validate] key, once, at the
    position of the field; a field with no tag at all is not reported,
    and a struct whose fields have no tags gets no finding of any
    rule. *)
Theorem validation_tag_findings (c : checker.Checker) (fields : list ast.Field)
    (structName filePath : string) :
  let rule := StructTagsRulesConfig.ValidationTag
                (StructTagsConfig.Rules (Config.StructTags (checker.config c))) in
  (fun v => (report.Line v, report.Column v))
    <$> findingsOf "validation_tag"
          (checker.checkStructTags c (Some fields) structName filePath)
  = (if BaseRule.Enabled (ValidationTagRule.Base rule)
        && existsb (fun pattern => filepath.Match pattern structName)
                   (ValidationTagRule.RequiredFor rule)
     then (fun field => (token.Line (ast.Field_Pos field), token.Column (ast.Field_Pos field)))
            <$> filter (fun field => lacksValidate field = true) fields
     else [])
  /\ (Forall (fun field => ast.Field_Tag field = None) fields ->
      checker.checkStructTags c (Some fields) structName filePath = []).
Proof.
  intros rule. split.
  - unfold checker.checkStructTags. fold rule.
    set (json := StructTagsRulesConfig.JSONTag _).
    induction fields as [|field fields IH].
    { simpl. by destruct (_ && _). }
    simpl. rewrite findingsOf_app, fmap_app, IH. clear IH.
    rewrite filter_cons.
    assert (Hlacks : lacksValidate field
                     = match ast.Field_Tag field with
                       | Some tagValue =>
                           negb (Go.Contains tagValue ("validate:" +:+ checker.quote))
                       | None => false
                       end) by done.
    rewrite Hlacks. clear Hlacks.
    destruct (ast.Field_Tag field) as [tagValue|]; [|done].
    rewrite findingsOf_app.
    assert (Hjson : findingsOf "validation_tag"
              (if BaseRule.Enabled (JSONTagRule.Base json)
               then checker.checkJSONTag c tagValue structName filePath (ast.Field_Pos field)
               else []) = []).
    { destruct (BaseRule.Enabled _); [|done].
      by rewrite (findingsOf_other _ _ _ (checkJSONTag_rule _ _ _ _ _)). }
    rewrite Hjson. simpl.
    destruct (BaseRule.Enabled (ValidationTagRule.Base rule)); [|done]. simpl.
    unfold checker.checkValidationTag. fold rule.
    destruct (existsb _ (ValidationTagRule.RequiredFor rule)); [|done]. simpl.
    by destruct (negb (Go.Contains tagValue _)).
  - intros Hall. unfold checker.checkStructTags.
    induction Hall as [|field fields Hfield _ IH]; [done|]. simpl.
    by rewrite Hfield, IH.
Qed.

End StructTags.

(** ** Snake case *)

(** [s] with an underscore before each capital letter that is not its
    first byte. *)
Fixpoint underscored (first : bool) (s : string) : string :=
  match s with
  | EmptyString => EmptyString
  | String c s' =>
      let tail := String c (underscored false s') in
      if negb first && (65 <=? checker.byte c) && (checker.byte c <=? 90)
      then String "_" tail else tail
  end.

Lemma ofBytes_byte c p :
  utf8.ofBytes (checker.byte c :: p) = String c (utf8.ofBytes p).
Proof.
  unfold utf8.ofBytes, checker.byte. simpl.
  by rewrite N2Z.id, ascii_N_embedding.
Qed.

Lemma snakeLoop_ASCII (s : string) (fuel i : nat) :
  Forall (fun b => b < 128) (utf8.bytes s) ->
  (String.length s <= fuel)%nat ->
  utf8.ofBytes (checker.snakeLoop fuel i (utf8.bytes s))
  = underscored (bool_decide (i = 0%nat)) s.
Proof.
  revert fuel i. induction s as [|c s IH]; intros fuel i Hascii Hfuel.
  - by destruct fuel.
  - destruct fuel as [|fuel]; [simpl in Hfuel; lia|].
    change (utf8.bytes (String c s)) with (checker.byte c :: utf8.bytes s) in *.
    apply Forall_cons in Hascii as [Hc Hs].
    cbn [checker.snakeLoop]. rewrite DecodeRune_ASCII by done.
    cbn [drop]. rewrite drop_0. unfold utf8.EncodeRune. rewrite (proj2 (Z.ltb_lt _ _) Hc).
    cbn [underscored].
    assert (Hfirst : (0 <? i)%nat = negb (bool_decide (i = 0%nat))).
    { destruct i; [done|]. by rewrite bool_decide_false. }
    rewrite Hfirst.
    assert (Htail : utf8.ofBytes (checker.snakeLoop fuel (i + 1) (utf8.bytes s))
                    = underscored false s).
    { rewrite IH; [|done|simpl in Hfuel; lia]. by rewrite bool_decide_false by lia. }
    destruct (negb (bool_decide (i = 0%nat)) && (65 <=? checker.byte c)
              && (checker.byte c <=? 90)); simpl.
    + change 95 with (checker.byte "_"). by rewrite !ofBytes_byte, Htail.
    + by rewrite ofBytes_byte, Htail.
Qed.

Lemma underscored_lower (s : string) (first : bool) :
  Forall (fun b => negb ((65 <=? b) && (b <=? 90)) = true) (utf8.bytes s) ->
  underscored first s = s.
Proof.
  revert first. induction s as [|c s IH]; intros first Hlow; [done|].
  change (utf8.bytes (String c s)) with (checker.byte c :: utf8.bytes s) in Hlow.
  apply Forall_cons in Hlow as [Hc Hs]. simpl. rewrite (IH false Hs).
  apply negb_true_iff in Hc.
  by destruct (negb first); simpl; [rewrite Hc|].
Qed.

Section SnakeCase.
Context `{regexp.Engine} `{unicode.Tables} `{filepath.Lib}.

(** X25: on an ASCII string [toSnakeCase] writes an underscore before
    each capital letter but one at the start, and lowers the case of the
    result: each letter of a run of capitals gets its own underscore
    ([UserID] becomes [user_i_d]).  A string whose capitals are at most
    its first byte is only lowered. *)
Theorem toSnakeCase_ASCII (s : string) :
  Forall (fun b => b < 128) (utf8.bytes s) ->
  checker.toSnakeCase s = unicode.ToLower (underscored true s)
  /\ (Forall (fun b => negb ((65 <=? b) && (b <=? 90)) = true)
             (utf8.bytes (String.substring 1 (String.length s) s)) ->
      checker.toSnakeCase s = unicode.ToLower s).
Proof.
  intros Hascii.
  assert (Hsnake : checker.toSnakeCase s = unicode.ToLower (underscored true s)).
  { unfold checker.toSnakeCase.
    rewrite (snakeLoop_ASCII s _ 0 Hascii).
    - done.
    - unfold utf8.bytes. rewrite length_map. clear.
      induction s as [|c s IH]; simpl; lia. }
  split; [exact Hsnake|]. intros Hlow. rewrite Hsnake. f_equal.
  destruct s as [|c s]; [done|].
  assert (Hsub : forall n, (String.length s <= n)%nat -> String.substring 0 n s = s).
  { clear. induction s as [|c s IH]; intros [|n] Hn; simpl in *; try done; try lia.
    rewrite IH; [done|lia]. }
  change (String.substring 1 (String.length (String c s)) (String c s))
    with (String.substring 0 (String.length (String c s)) s) in Hlow.
  rewrite Hsub in Hlow by (simpl; lia).
  cbn [underscored]. simpl negb. cbn [andb]. by rewrite (underscored_lower s false Hlow).
Qed.

End SnakeCase.

(** ** What a run reports *)

Definition severities : list rules.Severity :=
  [rules.SeverityError; rules.SeverityWarning; rules.SeverityInfo].

(** The categories under which the rules report. *)
Definition categories : list string :=
  ["naming"; "structure"; "error_handling"; "logging"; "directory"; "struct_tags"; "custom"].

(** A finding on [file] with a severity and a category that the checker
    knows. *)
Definition findingOn (file : string) (v : report.Violation) : Prop :=
  report.File v = file
  /\ report.Severity v ∈ severities
  /\ report.Category v ∈ categories.

Lemma ParseSeverity_known (s : string) : rules.ParseSeverity s ∈ severities.
Proof.
  unfold rules.ParseSeverity, severities. apply list_elem_of_In.
  repeat case_decide; simpl; tauto.
Qed.

Lemma occurrences_cons k k' ks :
  occurrences k (k' :: ks) = (if decide (k' = k) then 1 else 0) + occurrences k ks.
Proof.
  unfold occurrences, Go.len. rewrite filter_cons. destruct (decide (k' = k)); simpl; lia.
Qed.

Lemma occurrences_severities (ks : list string) :
  Forall (fun k => k ∈ severities) ks ->
  occurrences "error" ks + occurrences "warning" ks + occurrences "info" ks = Go.len ks.
Proof.
  induction 1 as [|k ks Hk _ IH]; [done|].
  rewrite !occurrences_cons. unfold Go.len in *. simpl length.
  apply list_elem_of_In in Hk. simpl in Hk.
  destruct Hk as [<-|[<-|[<-|[]]]]; vm_compute (decide _); lia.
Qed.

Ltac known_finding :=
  cbv zeta;
  repeat first
    [ exact (Forall_nil_2 _)
    | apply Forall_app; split
    | apply Forall_cons; split;
        [ split; [reflexivity
                 |split; [apply ParseSeverity_known|apply list_elem_of_In; simpl; tauto]] | ]
    | case_match ].

Section Findings.
Context `{regexp.Engine} `{unicode.Tables} `{filepath.Lib}.

Import rules.

Lemma checkFileName_findingOn c filePath :
  Forall (findingOn filePath) (checker.checkFileName c filePath).
Proof. unfold checker.checkFileName. known_finding. Qed.

Lemma checkPackageName_findingOn c file filePath :
  Forall (findingOn filePath) (checker.checkPackageName c file filePath).
Proof. unfold checker.checkPackageName. known_finding. Qed.

Lemma checkFunction_findingOn c fn filePath :
  Forall (findingOn filePath) (checker.checkFunction c fn filePath).
Proof.
  unfold checker.checkFunction. repeat (apply Forall_app; split).
  - unfold checker.checkFunction_exportedName. known_finding.
  - unfold checker.checkFunction_lines. known_finding.
  - unfold checker.checkFunction_parameters. known_finding.
  - unfold checker.checkFunction_results. known_finding.
  - unfold checker.checkFunction_nesting. known_finding.
Qed.

Lemma checkGenDecl_findingOn c gd filePath :
  Forall (findingOn filePath) (checker.checkGenDecl c gd filePath).
Proof.
  unfold checker.checkGenDecl. destruct (ast.GenDecl_Tok gd); [|constructor].
  apply Forall_flat_map, Forall_forall. intros spec _.
  destruct spec as [names type|]; [|constructor].
  apply Forall_flat_map, Forall_forall. intros name _.
  unfold checker.checkErrorVarName. known_finding.
Qed.

Lemma checkStructTags_findingOn c fields structName filePath :
  Forall (findingOn filePath) (checker.checkStructTags c fields structName filePath).
Proof.
  unfold checker.checkStructTags. destruct fields as [fields|]; [|constructor].
  apply Forall_flat_map, Forall_forall. intros field _.
  unfold checker.checkJSONTag, checker.checkValidationTag. known_finding.
Qed.

Lemma checkTypeSpec_findingOn c ts filePath :
  Forall (findingOn filePath) (checker.checkTypeSpec c ts filePath).
Proof.
  unfold checker.checkTypeSpec. apply Forall_app. split.
  - known_finding.
  - destruct (ast.TypeSpec_Type ts); try constructor.
    destruct (StructTagsConfig.Enabled _); [|constructor]. apply checkStructTags_findingOn.
Qed.

Lemma assignmentLoop_findingOn c a filePath i lhs :
  Forall (findingOn filePath) (checker.assignmentLoop c a filePath i lhs).
Proof.
  revert i. induction lhs as [|e lhs IH]; intros i; [constructor|]. simpl.
  apply Forall_app. split; [|apply IH]. clear IH. known_finding.
Qed.

Lemma checkAssignment_findingOn c a filePath :
  Forall (findingOn filePath) (checker.checkAssignment c a filePath).
Proof.
  unfold checker.checkAssignment. destruct (_ || _); [constructor|].
  apply assignmentLoop_findingOn.
Qed.

Lemma checkCallExpr_findingOn c callFun pos filePath :
  Forall (findingOn filePath) (checker.checkCallExpr c callFun pos filePath).
Proof. unfold checker.checkCallExpr. known_finding. Qed.

Lemma checkCustomRules_findingOn c filePath :
  Forall (findingOn filePath) (checker.checkCustomRules c filePath).
Proof.
  unfold checker.checkCustomRules. apply Forall_flat_map, Forall_forall. intros rule _.
  unfold checker.checkCustomRule.
  destruct (negb _); [constructor|]. destruct (existsb _ _); [constructor|].
  destruct (regexp.Compile _) as [pattern|]; [|constructor].
  generalize 0%nat. induction (default [] _) as [|line lines IH]; intros i; [constructor|].
  simpl. apply Forall_app. split; [|apply IH]. known_finding.
Qed.

Lemma checkDirectory_findingOn w c targetDir :
  Forall (findingOn targetDir) (checker.checkDirectory w c targetDir).
Proof.
  unfold checker.checkDirectory. apply Forall_app. split.
  - destruct (BaseRule.Enabled _); [|constructor].
    apply Forall_flat_map, Forall_forall. intros dir _. known_finding.
  - destruct (BaseRule.Enabled _); [|constructor].
    apply Forall_flat_map, Forall_forall. intros dir _. known_finding.
Qed.

Lemma inspect_findingOn c filePath n :
  Forall (findingOn filePath) (checker.inspect c filePath n).
Proof.
  destruct n; simpl; [apply checkFunction_findingOn|apply checkGenDecl_findingOn
    |apply checkTypeSpec_findingOn|apply checkAssignment_findingOn
    |apply checkCallExpr_findingOn|constructor].
Qed.

(** The findings of a report are findings on the files of [files]. *)
Definition findingsOn (files : list string) (r : report.Report) : Prop :=
  Forall (fun v => exists file, file ∈ files /\ findingOn file v) (report.Violations r).

Lemma addViolations_findingsOn files file c vs :
  file ∈ files -> Forall (findingOn file) vs ->
  findingsOn files (checker.report c) ->
  findingsOn files (checker.report (checker.addViolations c vs)).
Proof.
  intros Hfile Hvs Hc. unfold findingsOn. simpl.
  rewrite fold_AddViolation_Violations. apply Forall_app. split; [exact Hc|].
  eapply Forall_impl; [exact Hvs|]. intros v Hv. by exists file.
Qed.

Lemma checkFile_findingsOn files w c filePath :
  filePath ∈ files -> findingsOn files (checker.report c) ->
  findingsOn files (checker.report (checker.checkFile w c filePath).1).
Proof.
  intros Hfile Hc. unfold checker.checkFile.
  destruct (os.ReadFileLines w filePath) as [lines|]; [|done].
  destruct (os.ParseFile w filePath) as [file|]; [|done]. simpl.
  set (c0 := checker.setFileMap c _).
  set (c1 := if _ && _ then _ else c0).
  set (c2 := if _ && _ then _ else c1).
  assert (Hc1 : findingsOn files (checker.report c1)).
  { unfold c1. destruct (_ && _); [|exact Hc].
    apply (addViolations_findingsOn files filePath c0); [done| |done].
    apply checkFileName_findingOn. }
  assert (Hc2 : findingsOn files (checker.report c2)).
  { unfold c2. clearbody c1. destruct (_ && _); [|exact Hc1].
    apply (addViolations_findingsOn files filePath); [done| |done].
    apply checkPackageName_findingOn. }
  clearbody c2. clear Hc1.
  revert c2 Hc2. induction (ast.File_Nodes file) as [|n nodes IH]; intros c2 Hc2; [done|].
  simpl. apply IH. apply (addViolations_findingsOn files filePath); [done| |done].
  apply inspect_findingOn.
Qed.

Lemma checkFiles_findingsOn files w goFiles c :
  goFiles ⊆ files -> findingsOn files (checker.report c) ->
  findingsOn files (checker.report (checker.checkFiles w c goFiles)).
Proof.
  unfold checker.checkFiles. revert c.
  induction goFiles as [|filePath goFiles IH]; intros c Hsub Hc; [done|].
  simpl. assert (Hin : filePath ∈ files) by (apply Hsub; left).
  assert (Hsub' : goFiles ⊆ files) by (intros f Hf; apply Hsub; by right).
  pose proof (checkFile_findingsOn files w c filePath Hin Hc) as Hf.
  destruct (checker.checkFile w c filePath) as [c' [err|]]; simpl in Hf.
  - exact (IH (checker.printf c' _) Hsub' Hf).
  - exact (IH c' Hsub' Hf).
Qed.

Lemma checkAllCustomRules_findingsOn files goFiles c :
  goFiles ⊆ files -> findingsOn files (checker.report c) ->
  findingsOn files (checker.report (checker.checkAllCustomRules c goFiles)).
Proof.
  unfold checker.checkAllCustomRules. revert c.
  induction goFiles as [|filePath goFiles IH]; intros c Hsub Hc; [done|].
  simpl. assert (Hin : filePath ∈ files) by (apply Hsub; left).
  assert (Hsub' : goFiles ⊆ files) by (intros f Hf; apply Hsub; by right).
  apply IH; [done|].
  apply (addViolations_findingsOn files filePath); [done| |done].
  apply checkCustomRules_findingOn.
Qed.

Context `{sort.Sorter}.

(** X22: every finding of the report that [Check] returns is on the
    target directory or on one of the collected files, and has one of
    the three severities and one of the seven categories of the rules.
    The three counters that the text summary shows therefore add up to
    the total. *)
Theorem Check_findings (w : os.World) (c : checker.Checker) (targetDir : string)
    (goFiles : list string) :
  os.GoFiles w targetDir = os.Ok goFiles ->
  exists r : report.Report,
    snd (checker.Check w c targetDir) = os.Ok r
    /\ Forall (fun v => report.File v ∈ targetDir :: goFiles
                        /\ report.Severity v ∈ severities
                        /\ report.Category v ∈ categories)
              (report.Violations r)
    /\ (Go.len (report.Violations r) <= Go.maxInt ->
        Go.index (report.BySeverity (report.Summary_ r)) "error"
        + Go.index (report.BySeverity (report.Summary_ r)) "warning"
        + Go.index (report.BySeverity (report.Summary_ r)) "info"
        = report.TotalViolations (report.Summary_ r)).
Proof.
  intros Hfiles. unfold checker.Check. rewrite Hfiles. simpl.
  set (c0 := checker.setReport c (report.NewReport targetDir)).
  set (c1 := if rules.DirectoryConfig.Enabled _ then _ else c0).
  set (c2 := checker.setReport c1 _).
  set (pre := checker.report (checker.checkAllCustomRules (checker.checkFiles w c2 goFiles)
                                goFiles)).
  set (files := targetDir :: goFiles).
  assert (Hsub : goFiles ⊆ files) by (intros f Hf; by right).
  assert (Hc1 : findingsOn files (checker.report c1)).
  { unfold c1. simpl. destruct (rules.DirectoryConfig.Enabled _); [|constructor].
    apply (addViolations_findingsOn files targetDir c0); [left| |constructor].
    apply checkDirectory_findingOn. }
  assert (Hpre : findingsOn files pre).
  { unfold pre. apply checkAllCustomRules_findingsOn; [done|].
    apply checkFiles_findingsOn; [done|]. exact Hc1. }
  assert (Hframe1 : sameFrame (report.NewReport targetDir) (checker.report c1)).
  { unfold c1. simpl. destruct (rules.DirectoryConfig.Enabled _); [|apply sameFrame_refl].
    apply (addViolations_frame c0). }
  assert (Hframe : sameFrame (checker.report c2) pre).
  { unfold pre. eapply sameFrame_trans; [apply checkFiles_frame|].
    apply checkAllCustomRules_frame. }
  destruct Hframe1 as (Hs1 & _ & _). destruct Hframe as (Hs & _ & _). simpl in Hs.
  assert (Hall : Forall (fun v => report.File v ∈ files /\ report.Severity v ∈ severities
                                  /\ report.Category v ∈ categories)
                        (report.Violations pre)).
  { eapply Forall_impl; [exact Hpre|]. intros v (file & Hfile & <- & Hv). by split. }
  exists (report.Finalize pre). split; [done|]. split.
  - by rewrite Finalize_Violations_perm.
  - intros Hlen. rewrite Finalize_TotalViolations, Finalize_BySeverity, Hs, Hs1. simpl.
    fold (counts (report.Severity <$> report.Violations pre)).
    assert (Hlen' : Go.len (report.Severity <$> report.Violations pre) <= Go.maxInt).
    { unfold Go.len in *. by rewrite length_fmap, <- (Finalize_Violations_perm pre). }
    rewrite !index_counts by done.
    rewrite occurrences_severities.
    + unfold Go.len. by rewrite length_fmap.
    + apply Forall_fmap. eapply Forall_impl; [exact Hall|]. by intros v (_ & Hv & _).
Qed.

End Findings.

(** ** The walk over the files *)

(** The error messages of a tree: of the names on which [Lstat] fails
    and of the directories that cannot be read. *)
Fixpoint errorsOf (e : fs.Entry) : list string :=
  match e with
  | fs.File _ => []
  | fs.Unreadable _ err => [err]
  | fs.Dir _ (os.Err err) => [err]
  | fs.Dir _ (os.Ok entries) => flat_map errorsOf entries
  end.

Lemma Entry_nested_ind (P : fs.Entry -> Prop) :
  (forall name, P (fs.File name)) ->
  (forall name err, P (fs.Unreadable name err)) ->
  (forall name err, P (fs.Dir name (os.Err err))) ->
  (forall name entries, Forall P entries -> P (fs.Dir name (os.Ok entries))) ->
  forall e, P e.
Proof.
  intros HFile HUnreadable HErr HDir.
  fix IH 1. intros [name|name [entries|err]|name err].
  - apply HFile.
  - apply HDir. induction entries as [|child rest IHrest]; constructor; [apply IH|exact IHrest].
  - apply HErr.
  - apply HUnreadable.
Qed.

Section WalkProperties.
Context `{filepath.Lib} {S : Type}.
Variable walkFn :
  S -> string -> option fs.FileInfo -> option string -> option (S * option fs.WalkErr).

(** The walk calls the function with the file information or with an
    error; a function that does not panic on these does not make the
    walk panic. *)
Lemma walk_total :
  (forall s path info err, is_Some info \/ is_Some err -> is_Some (walkFn s path info err)) ->
  forall e s path, is_Some (fs.walk walkFn s path e).
Proof.
  intros Htotal e.
  induction e as [name|name err|name err|name entries IH] using Entry_nested_ind;
    intros s path; simpl.
  - apply Htotal. left. by eexists.
  - apply Htotal. right. by eexists.
  - apply Htotal. left. by eexists.
  - destruct (Htotal s path (Some {| fs.Name := name; fs.IsDir := true |}) None)
      as [[s' [err1|]] ->]; [left; by eexists|by eexists|].
    clear s. revert s'. induction IH as [|child rest Hchild _ IHrest]; intros s; [by eexists|].
    destruct (Hchild s (filepath.Join path (fs.entryName child))) as [[s' [[|msg]|]] ->].
    + destruct child; [by eexists|apply IHrest|apply IHrest].
    + by eexists.
    + apply IHrest.
Qed.

(** What every call of the function keeps, the walk keeps. *)
Lemma walk_invariant (I : S -> Prop) :
  (forall s path info err s' o, I s -> walkFn s path info err = Some (s', o) -> I s') ->
  forall e s path s' o, I s -> fs.walk walkFn s path e = Some (s', o) -> I s'.
Proof.
  intros Hinv e.
  induction e as [name|name err|name err|name entries IH] using Entry_nested_ind;
    intros s path s' o Hs; simpl; try by apply Hinv.
  destruct (walkFn s path _ None) as [[s1 [err1|]]|] eqn:E; [| |done].
  - intros [= <- <-]. exact (Hinv _ _ _ _ _ _ Hs E).
  - assert (Hs1 : I s1) by exact (Hinv _ _ _ _ _ _ Hs E).
    clear s Hs E. revert s1 Hs1.
    induction IH as [|child rest Hchild _ IHrest]; intros s Hs; [by intros [= <- <-]|].
    destruct (fs.walk walkFn s (filepath.Join path (fs.entryName child)) child)
      as [[s1 o1]|] eqn:E; [|done].
    assert (Hs1 : I s1) by exact (Hchild _ _ _ _ Hs E).
    destruct o1 as [[|msg]|].
    + destruct child; [by intros [= <- <-]|by apply IHrest|by apply IHrest].
    + by intros [= <- <-].
    + by apply IHrest.
Qed.

(** A function that returns no error of its own makes the walk return
    no error but those of the tree. *)
Lemma walk_error :
  (forall s path info err s' msg,
      walkFn s path info err = Some (s', Some (fs.Error msg)) -> err = Some msg) ->
  forall e s path s' msg,
    fs.walk walkFn s path e = Some (s', Some (fs.Error msg)) -> msg ∈ errorsOf e.
Proof.
  intros Herr e.
  induction e as [name|name err|name err|name entries IH] using Entry_nested_ind;
    intros s path s' msg; simpl.
  - intros E. by apply Herr in E.
  - intros E. apply Herr in E as [= ->]. left.
  - intros E. apply Herr in E as [= ->]. left.
  - destruct (walkFn s path _ None) as [[s1 [err1|]]|] eqn:E1; [| |done].
    + intros [= <- ->]. by apply Herr in E1.
    + clear s E1. revert s1.
      induction IH as [|child rest Hchild _ IHrest]; intros s; [done|].
      simpl. rewrite elem_of_app.
      destruct (fs.walk walkFn s (filepath.Join path (fs.entryName child)) child)
        as [[s1 [[|msg1]|]]|] eqn:E; [| | |done].
      * destruct child; [done|right; by eapply IHrest|right; by eapply IHrest].
      * intros [= <- <-]. left. exact (Hchild _ _ _ _ E).
      * right. by eapply IHrest.
Qed.

End WalkProperties.

Section CollectGoFiles.
Context `{filepath.Lib} `{filepath.Relative}.

Import rules.

(** The test of [collectGoFiles] on a directory. *)
Definition excludedDir (settings : Settings.t) (name path : string) : bool :=
  existsb (fun pattern => filepath.Match pattern name || filepath.Match pattern path)
          (Settings.ExcludePatterns settings).

(** The test of [collectGoFiles] on a file. *)
Definition keptFile (settings : Settings.t) (dir path : string) : bool :=
  Go.HasSuffix path ".go"
  && negb (existsb (fun pattern => filepath.Match pattern (filepath.Base path)
                                   || filepath.Match pattern (filepath.Rel dir path))
                   (Settings.ExcludePatterns settings)).

(** The files of a tree outside the excluded directories, in the order
    of the walk; [path] is the path of the root. *)
Fixpoint visibleFiles (settings : Settings.t) (path : string) (e : fs.Entry) : list string :=
  match e with
  | fs.File _ => [path]
  | fs.Dir name (os.Ok entries) =>
      if excludedDir settings name path then []
      else flat_map (fun child =>
                       visibleFiles settings (filepath.Join path (fs.entryName child)) child)
                    entries
  | _ => []
  end.

Lemma collectGoFile_total settings dir files path info err :
  is_Some info \/ is_Some err ->
  is_Some (checker.collectGoFile settings dir files path info err).
Proof.
  unfold checker.collectGoFile. destruct err as [err|]; [by eexists|].
  intros [[i ->]|[? [=]]]. simpl. repeat case_match; by eexists.
Qed.

Lemma collectGoFile_files settings dir files path info err files' o :
  checker.collectGoFile settings dir files path info err = Some (files', o) ->
  files' = files \/ files' = files ++ [path] /\ keptFile settings dir path = true.
Proof.
  unfold checker.collectGoFile, keptFile. destruct err as [err|]; [intros [= <- <-]; by left|].
  destruct info as [info|]; [|done]. simpl.
  destruct (fs.IsDir info).
  { destruct (existsb _ _); intros [= <- <-]; by left. }
  destruct (Go.HasSuffix path ".go"); simpl; [|intros [= <- <-]; by left].
  destruct (existsb _ _); simpl; intros [= <- <-]; [by left|by right].
Qed.

Lemma collectGoFile_error settings dir files path info err files' msg :
  checker.collectGoFile settings dir files path info err = Some (files', Some (fs.Error msg)) ->
  err = Some msg.
Proof.
  unfold checker.collectGoFile. destruct err as [err|]; [by intros [= <- <-]|].
  destruct info as [info|]; [|done]. simpl. repeat case_match; discriminate.
Qed.

(** X23: [collectGoFiles] does not panic on the file information that
    the walk hands to it, and whatever the tree holds, every path that
    it returns ends in [.go] and no exclude pattern matches the base name
    of the path or the path relative to the target directory.  An error
    that it returns is the error of a name or of a directory of the
    tree. *)
Theorem collectGoFiles_sound (settings : Settings.t) (dir : string) (root : fs.Entry) :
  exists (files : list string) (err : option string),
    checker.collectGoFiles settings dir root = Some (files, err)
    /\ Forall (fun path =>
                 Go.HasSuffix path ".go" = true
                 /\ Forall (fun pattern =>
                              filepath.Match pattern (filepath.Base path) = false
                              /\ filepath.Match pattern (filepath.Rel dir path) = false)
                           (Settings.ExcludePatterns settings))
              files
    /\ (forall msg, err = Some msg -> msg ∈ errorsOf root).
Proof.
  unfold checker.collectGoFiles, fs.Walk.
  destruct (walk_total (checker.collectGoFile settings dir)
              (collectGoFile_total settings dir) root [] dir) as [[files o] E].
  rewrite E.
  assert (Hfiles : Forall (fun path => keptFile settings dir path = true) files).
  { revert E. apply (walk_invariant (checker.collectGoFile settings dir)
                       (Forall (fun path => keptFile settings dir path = true)));
      [|constructor].
    intros s path info err s' o' Hs Hfn.
    apply collectGoFile_files in Hfn as [->|[-> Hkept]]; [done|].
    apply Forall_app. split; [done|]. by repeat constructor. }
  assert (Hkept : Forall (fun path =>
                 Go.HasSuffix path ".go" = true
                 /\ Forall (fun pattern =>
                              filepath.Match pattern (filepath.Base path) = false
                              /\ filepath.Match pattern (filepath.Rel dir path) = false)
                           (Settings.ExcludePatterns settings)) files).
  { eapply Forall_impl; [exact Hfiles|]. intros path. unfold keptFile.
    rewrite andb_true_iff, negb_true_iff. intros [Hgo Hex]. split; [done|].
    induction (Settings.ExcludePatterns settings) as [|pattern patterns IH]; [constructor|].
    simpl in Hex. apply orb_false_iff in Hex as [Hp Hex]. apply orb_false_iff in Hp.
    constructor; [done|by apply IH]. }
  destruct o as [[|msg]|].
  - exists files, None. by split_and!.
  - exists files, (Some msg). split_and!; [done|done|]. intros ? [= <-].
    revert E. apply walk_error. intros ??????. apply collectGoFile_error.
  - exists files, None. by split_and!.
Qed.

Lemma walk_readable settings dir e :
  errorsOf e = [] ->
  forall files path,
    fs.walk (checker.collectGoFile settings dir) files path e
    = Some (files ++ filter (fun p => keptFile settings dir p = true)
                            (visibleFiles settings path e),
            match e with
            | fs.Dir name _ => if excludedDir settings name path then Some fs.SkipDir else None
            | _ => None
            end).
Proof.
  induction e as [name|name err|name err|name entries IH] using Entry_nested_ind;
    intros Herr files path; simpl in *; try done.
  - unfold checker.collectGoFile, keptFile. simpl. rewrite filter_cons, filter_nil.
    destruct (Go.HasSuffix path ".go"); simpl; [|by rewrite app_nil_r].
    destruct (existsb _ _); simpl; [by rewrite app_nil_r|done].
  - fold (excludedDir settings name path).
    destruct (excludedDir settings name path); simpl; [by rewrite app_nil_r|].
    revert files Herr.
    induction IH as [|child rest Hchild _ IHrest]; intros files Herr; simpl.
    { by rewrite app_nil_r. }
    simpl in Herr. apply app_eq_nil in Herr as [Herr1 Herr2].
    rewrite (Hchild Herr1). rewrite filter_app, app_assoc.
    destruct child as [cname|cname centries|cname cerr]; [apply IHrest, Herr2| |done].
    destruct (excludedDir settings cname _); apply IHrest, Herr2.
Qed.

(** X24: on a tree that can be read, [collectGoFiles] returns no error,
    and the paths it returns are, in the order of the walk, the files
    outside the excluded directories that end in [.go] and that no
    exclude pattern matches. *)
Theorem collectGoFiles_readable (settings : Settings.t) (dir : string) (root : fs.Entry) :
  errorsOf root = [] ->
  checker.collectGoFiles settings dir root
  = Some (filter (fun path => keptFile settings dir path = true)
                 (visibleFiles settings dir root),
          None).
Proof.
  intros Herr. unfold checker.collectGoFiles, fs.Walk.
  rewrite (walk_readable settings dir root Herr). simpl.
  destruct root as [name|name entries|name err]; try done.
  by destruct (excludedDir settings name dir).
Qed.

End CollectGoFiles.

(** ** The text form of a report *)

(** The verdict lines of [ToText]. *)
Definition failedLine : string :=
  "❌ Check FAILED - Please fix errors before committing." +:+ report.newline.
Definition warningsLine : string :=
  "⚠️  Check PASSED with warnings - Consider reviewing." +:+ report.newline.
Definition passedLine : string :=
  "✅ Check PASSED - Good job!" +:+ report.newline.

(** The header that the loop of [ToText] writes for a file. *)
Definition fileHeader (file : string) : string := "📄 " +:+ file +:+ report.newline.

Definition isFileHeader (w : string) : Prop := Go.HasPrefix w "📄 " = true.

(** The files at which the file changes along [files], after
    [current]. *)
Fixpoint runStarts (current : string) (files : list string) : list string :=
  match files with
  | [] => []
  | file :: files' =>
      (if String.eqb file current then [] else [file]) ++ runStarts file files'
  end.

Lemma string_app_nil_r (s : string) : s +:+ "" = s.
Proof.
  induction s as [|c s IH]; [done|].
  change (String c (s +:+ "") = String c s). by rewrite IH.
Qed.

Lemma string_app_assoc (s1 s2 s3 : string) : (s1 +:+ s2) +:+ s3 = s1 +:+ (s2 +:+ s3).
Proof.
  induction s1 as [|c s1 IH]; [done|].
  change (String c ((s1 +:+ s2) +:+ s3) = String c (s1 +:+ (s2 +:+ s3))). by rewrite IH.
Qed.

Lemma concat_app (l1 l2 : list string) :
  String.concat "" (l1 ++ l2) = String.concat "" l1 +:+ String.concat "" l2.
Proof.
  induction l1 as [|x l1 IH]; [done|].
  destruct l1 as [|y l1].
  - simpl. destruct l2 as [|z l2]; simpl; [by rewrite string_app_nil_r|done].
  - change (String.concat "" ((x :: y :: l1) ++ l2))
      with (x +:+ "" +:+ String.concat "" ((y :: l1) ++ l2)).
    rewrite IH. simpl. by rewrite !string_app_assoc.
Qed.

Lemma HasPrefix_app (p s : string) : Go.HasPrefix (p +:+ s) p = true.
Proof.
  unfold Go.HasPrefix. induction p as [|c p IH]; [by destruct s|].
  change (String c p +:+ s) with (String c (p +:+ s)). simpl.
  by destruct (ascii_dec c c).
Qed.

Section TextForm.
Variable TrimSpace : string -> string.

(** X26: the verdict of the text agrees with the exit status.  The text
    of a report with findings ends with the verdict and a rule; the
    verdict is the line [Check FAILED] exactly when [ExitCode] is 1, the
    line [Check PASSED with warnings] exactly when it is 0 and
    [HasWarnings] holds, and the line [Check PASSED] otherwise. *)
Theorem ToText_verdict (categories : list (string * Z)) (r : report.Report) :
  report.Violations r <> [] ->
  exists (body : list string) (verdict rule : string),
    report.textWrites TrimSpace categories r = body ++ [verdict; rule]
    /\ report.ToText TrimSpace categories r = String.concat "" body +:+ verdict +:+ rule
    /\ (verdict = failedLine <-> report.ExitCode r = 1)
    /\ (verdict = warningsLine <-> report.ExitCode r = 0 /\ report.HasWarnings r = true)
    /\ (verdict = passedLine <-> report.ExitCode r = 0 /\ report.HasWarnings r = false).
Proof.
  intros Hne. unfold report.ToText, report.textWrites. cbv zeta.
  assert (Hlen : (Go.len (report.Violations r) =? 0) = false).
  { apply Z.eqb_neq. unfold Go.len. destruct (report.Violations r); [done|simpl; lia]. }
  rewrite Hlen.
  set (head := [_; _; _; _; _; _; _; _; _; _; _; _]).
  set (cats := if 0 <? _ then _ else _).
  set (title := [_; _; _]).
  set (verdict := if _ >? 0 then _ else _).
  match goal with |- context [ [?a; verdict; ?b] ] => set (open := a); set (rule := b) end.
  exists (head ++ cats ++ title ++ report.violationWrites TrimSpace "" (report.Violations r)
          ++ [open]), verdict, rule.
  assert (Hw : head ++ cats ++ title
                 ++ report.violationWrites TrimSpace "" (report.Violations r)
                 ++ [open; verdict; rule]
               = (head ++ cats ++ title
                    ++ report.violationWrites TrimSpace "" (report.Violations r) ++ [open])
                 ++ [verdict; rule]).
  { by rewrite <- !app_assoc. }
  split; [exact Hw|]. split.
  { rewrite Hw, concat_app. f_equal. }
  unfold verdict, report.ExitCode, report.HasErrors, report.HasWarnings.
  destruct (Go.index _ "error" >? 0); destruct (Go.index _ "warning" >? 0);
    (split; [|split]); split; try done; try (by intros [? ?]); by intros [= ?].
Qed.

Lemma filter_header_app (l1 l2 : list string) :
  filter (fun w => Go.HasPrefix w "📄 " = true) (l1 ++ l2)
  = filter (fun w => Go.HasPrefix w "📄 " = true) l1
    ++ filter (fun w => Go.HasPrefix w "📄 " = true) l2.
Proof. apply filter_app. Qed.

Lemma filter_header_other (w : string) :
  Go.HasPrefix w "📄 " = false ->
  filter (fun w => Go.HasPrefix w "📄 " = true) [w] = [].
Proof. intros Hw. rewrite filter_cons, decide_False; [done|]. by rewrite Hw. Qed.

Lemma violationWrites_headers (current : string) (vs : list report.Violation) :
  filter (fun w => Go.HasPrefix w "📄 " = true)
         (report.violationWrites TrimSpace current vs)
  = fileHeader <$> runStarts current (report.File <$> vs).
Proof.
  revert current. induction vs as [|v vs IH]; intros current; [done|].
  cbn [report.violationWrites fmap list_fmap runStarts].
  rewrite !filter_header_app, IH, fmap_app.
  assert (Hline : filter (fun w => Go.HasPrefix w "📄 " = true)
            [report.icon (report.Severity v) +:+ " [" +:+ report.Rule v +:+ "] Line "
             +:+ Go.itoa (report.Line v) +:+ ": " +:+ report.Message v +:+ report.newline]
          = []).
  { apply filter_header_other. unfold report.icon. by repeat case_decide. }
  assert (Hcode : filter (fun w => Go.HasPrefix w "📄 " = true)
            (if negb (String.eqb (report.Code v) "")
             then ["   │ " +:+ TrimSpace (report.Code v) +:+ report.newline] else [])
          = []).
  { destruct (negb (String.eqb (report.Code v) "")); [|done].
    by apply filter_header_other. }
  assert (Hsuggestion : filter (fun w => Go.HasPrefix w "📄 " = true)
            (if negb (String.eqb (report.Suggestion v) "")
             then ["   💡 Suggestion: " +:+ report.Suggestion v +:+ report.newline] else [])
          = []).
  { destruct (negb (String.eqb (report.Suggestion v) "")); [|done].
    by apply filter_header_other. }
  assert (Hblank : filter (fun w => Go.HasPrefix w "📄 " = true)
            (match vs with
             | next :: _ =>
                 if String.eqb (report.File next) (report.File v)
                 then [report.newline] else [report.newline]
             | [] => []
             end) = []).
  { clear. destruct vs as [|next ?]; [done|].
    destruct (String.eqb (report.File next) (report.File v));
      by apply filter_header_other. }
  rewrite Hline, Hcode, Hsuggestion, Hblank. cbn [app]. f_equal.
  destruct (String.eqb (report.File v) current); [done|]. cbn [negb].
  rewrite filter_cons, decide_True by apply HasPrefix_app.
  by rewrite filter_header_other by reflexivity.
Qed.

End TextForm.

Lemma string_ltb_irrefl (a : string) : String.ltb a a = false.
Proof.
  destruct (String.ltb a a) eqn:E; [|done]. by rewrite (string_ltb_asym a a E) in E.
Qed.

Lemma string_ltb_trans (a b c : string) :
  String.ltb a b = true -> String.ltb b c = true -> String.ltb a c = true.
Proof.
  intros Hab Hbc. destruct (string_ltb_cotrans a b c Hab) as [Hac|Hcb]; [done|].
  by rewrite (string_ltb_asym b c Hbc) in Hcb.
Qed.

Lemma string_ltb_empty (a : string) : String.ltb a "" = false.
Proof. by destruct a. Qed.

(** Along files in ascending order the run starts ascend strictly. *)
Lemma runStarts_ascending (files : list string) (current : string) :
  StronglySorted (fun a b => String.ltb b a = false) files ->
  Forall (fun file => String.ltb file current = false) files ->
  StronglySorted (fun a b => String.ltb a b = true) (runStarts current files)
  /\ Forall (fun file => String.ltb current file = true) (runStarts current files).
Proof.
  intros Hsorted. revert current.
  induction Hsorted as [|file files Hfiles IH Hfile]; intros current Hcurrent.
  { split; constructor. }
  apply Forall_cons in Hcurrent as [Hc Hcurrent].
  destruct (IH file Hfile) as [IHs IHf]. simpl.
  destruct (String.eqb_spec file current) as [->|Hne]; [by split|]. simpl.
  assert (Hlt : String.ltb current file = true).
  { destruct (String.ltb current file) eqn:E; [done|].
    destruct Hne. by apply string_ltb_total. }
  split.
  - by constructor.
  - constructor; [done|]. eapply Forall_impl; [exact IHf|].
    intros x Hx. by eapply string_ltb_trans.
Qed.

Lemma ascending_NoDup (files : list string) :
  StronglySorted (fun a b => String.ltb a b = true) files -> NoDup files.
Proof.
  induction 1 as [|file files _ IH Hfile]; constructor; [|done].
  intros Hin. rewrite Forall_forall in Hfile.
  specialize (Hfile _ Hin). by rewrite string_ltb_irrefl in Hfile.
Qed.

Lemma sorted_files (vs : list report.Violation) :
  sort.SortedBy report.less vs ->
  (forall v v', v ∈ vs -> v' ∈ vs ->
                rules.Level (report.Severity v) = rules.Level (report.Severity v')) ->
  StronglySorted (fun a b => String.ltb b a = false) (report.File <$> vs).
Proof.
  unfold sort.SortedBy. induction 1 as [|v vs _ IH Hv]; intros Hlevel; [constructor|].
  simpl. constructor.
  - apply IH. intros x y Hx Hy. apply Hlevel; by right.
  - apply Forall_fmap. rewrite Forall_forall in Hv. apply Forall_forall. intros x Hx.
    simpl. pose proof (not_less_inOrder _ _ (Hv x Hx)) as Hord.
    assert (Hl : rules.Level (report.Severity v) = rules.Level (report.Severity x)).
    { apply Hlevel; [left|by right]. }
    destruct Hord as [Hgt|[_ [Hlt|[-> _]]]]; [lia| |apply string_ltb_irrefl].
    by apply string_ltb_asym.
Qed.

(** X27: the loop of [ToText] writes the header of a file before a
    finding exactly where the file differs from the file of the finding
    before it (from the empty path, for the first finding): the headers
    written are those of the files at which a run of equal files
    starts, not one per distinct file.  In a sorted report whose
    findings all have the same severity level no file gets two
    headers. *)
Theorem ToText_file_headers (TrimSpace : string -> string) (vs : list report.Violation) :
  filter (fun w => Go.HasPrefix w "📄 " = true) (report.violationWrites TrimSpace "" vs)
  = fileHeader <$> runStarts "" (report.File <$> vs)
  /\ (sort.SortedBy report.less vs ->
      (forall v v', v ∈ vs -> v' ∈ vs ->
                    rules.Level (report.Severity v) = rules.Level (report.Severity v')) ->
      NoDup (runStarts "" (report.File <$> vs))).
Proof.
  split; [apply violationWrites_headers|].
  intros Hsorted Hlevel. apply ascending_NoDup.
  apply (runStarts_ascending _ ""); [by apply sorted_files|].
  apply Forall_forall. intros file _. apply string_ltb_empty.
Qed.

(** ** Rules that are switched off *)

(** The switch of a category in the configuration; custom rules have no
    switch of their category. *)
Definition categoryEnabled (cfg : rules.Config.t) (category : string) : bool :=
  if decide (category = "naming") then
    rules.NamingConfig.Enabled (rules.Config.Naming cfg)
  else if decide (category = "structure") then
    rules.StructureConfig.Enabled (rules.Config.Structure cfg)
  else if decide (category = "error_handling") then
    rules.ErrorHandlingConfig.Enabled (rules.Config.ErrorHandling cfg)
  else if decide (category = "logging") then
    rules.LoggingConfig.Enabled (rules.Config.Logging cfg)
  else if decide (category = "directory") then
    rules.DirectoryConfig.Enabled (rules.Config.Directory cfg)
  else if decide (category = "struct_tags") then
    rules.StructTagsConfig.Enabled (rules.Config.StructTags cfg)
  else true.

(** The switch of a built-in rule in the configuration. *)
Definition ruleEnabled (cfg : rules.Config.t) (rule : string) : bool :=
  let naming := rules.NamingConfig.Rules (rules.Config.Naming cfg) in
  let structure := rules.StructureConfig.Rules (rules.Config.Structure cfg) in
  let errors := rules.ErrorHandlingConfig.Rules (rules.Config.ErrorHandling cfg) in
  let logging := rules.LoggingConfig.Rules (rules.Config.Logging cfg) in
  let directory := rules.DirectoryConfig.Rules (rules.Config.Directory cfg) in
  let tags := rules.StructTagsConfig.Rules (rules.Config.StructTags cfg) in
  if decide (rule = "package_name") then
    rules.BaseRule.Enabled (rules.PatternRule.Base (rules.NamingRulesConfig.PackageName naming))
  else if decide (rule = "file_name") then
    rules.BaseRule.Enabled (rules.PatternRule.Base (rules.NamingRulesConfig.FileName naming))
  else if decide (rule = "exported_name") then
    rules.BaseRule.Enabled (rules.NamingRulesConfig.ExportedNames naming)
  else if decide (rule = "interface_name") then
    rules.BaseRule.Enabled (rules.SuffixRule.Base (rules.NamingRulesConfig.InterfaceName naming))
  else if decide (rule = "error_var") then
    rules.BaseRule.Enabled (rules.PatternRule.Base (rules.NamingRulesConfig.ErrorVar naming))
  else if decide (rule = "max_function_lines") then
    rules.BaseRule.Enabled
      (rules.LimitRule.Base (rules.StructureRulesConfig.MaxFunctionLines structure))
  else if decide (rule = "max_parameters") then
    rules.BaseRule.Enabled
      (rules.LimitRule.Base (rules.StructureRulesConfig.MaxParameters structure))
  else if decide (rule = "max_return_values") then
    rules.BaseRule.Enabled
      (rules.LimitRule.Base (rules.StructureRulesConfig.MaxReturnValues structure))
  else if decide (rule = "max_nesting_level") then
    rules.BaseRule.Enabled
      (rules.LimitRule.Base (rules.StructureRulesConfig.MaxNestingLevel structure))
  else if decide (rule = "no_ignored_errors") then
    rules.BaseRule.Enabled
      (rules.IgnoredErrorsRule.Base (rules.ErrorHandlingRulesConfig.NoIgnoredErrors errors))
  else if decide (rule = "no_panic") then
    rules.BaseRule.Enabled
      (rules.AllowedInRule.Base (rules.ErrorHandlingRulesConfig.NoPanic errors))
  else if decide (rule = "no_fmt_println") then
    rules.BaseRule.Enabled (rules.LoggingRulesConfig.NoFmtPrintln logging)
  else if decide (rule = "required_dirs") then
    rules.BaseRule.Enabled
      (rules.DirsRule.Base (rules.DirectoryRulesConfig.RequiredDirs directory))
  else if decide (rule = "recommended_dirs") then
    rules.BaseRule.Enabled
      (rules.DirsRule.Base (rules.DirectoryRulesConfig.RecommendedDirs directory))
  else if decide (rule = "json_tag") then
    rules.BaseRule.Enabled (rules.JSONTagRule.Base (rules.StructTagsRulesConfig.JSONTag tags))
  else if decide (rule = "validation_tag") then
    rules.BaseRule.Enabled
      (rules.ValidationTagRule.Base (rules.StructTagsRulesConfig.ValidationTag tags))
  else true.

(** A finding of a rule that is switched on, in a category that is
    switched on. *)
Definition switchedOn (cfg : rules.Config.t) (v : report.Violation) : Prop :=
  if decide (report.Category v = "custom") then
    exists rule, rule ∈ rules.Config.CustomRules cfg
                 /\ rules.CustomRule.Enabled rule = true
                 /\ rules.CustomRule.Name rule = report.Rule v
  else
    categoryEnabled cfg (report.Category v) = true
    /\ ruleEnabled cfg (report.Rule v) = true.

Ltac split_switches :=
  repeat match goal with
         | Hs : _ && _ = true |- _ => apply andb_true_iff in Hs as [? ?]
         | Hs : _ || _ = false |- _ => apply orb_false_iff in Hs as [? ?]
         | Hs : negb _ = false |- _ => apply negb_false_iff in Hs
         end.

Ltac switched_on :=
  cbv zeta;
  repeat first
    [ exact (Forall_nil_2 _)
    | apply Forall_app; split
    | apply Forall_cons; split;
        [ split_switches; split; assumption | ]
    | case_match ].

Section SwitchedOff.
Context `{regexp.Engine} `{unicode.Tables} `{filepath.Lib}.

Import rules.

Lemma checkFileName_switchedOn c filePath :
  NamingConfig.Enabled (Config.Naming (checker.config c))
  && BaseRule.Enabled
       (PatternRule.Base
          (NamingRulesConfig.FileName (NamingConfig.Rules (Config.Naming (checker.config c)))))
  = true ->
  Forall (switchedOn (checker.config c)) (checker.checkFileName c filePath).
Proof. intros Hon. unfold checker.checkFileName. switched_on. Qed.

Lemma checkPackageName_switchedOn c file filePath :
  NamingConfig.Enabled (Config.Naming (checker.config c))
  && BaseRule.Enabled
       (PatternRule.Base
          (NamingRulesConfig.PackageName
             (NamingConfig.Rules (Config.Naming (checker.config c)))))
  = true ->
  Forall (switchedOn (checker.config c)) (checker.checkPackageName c file filePath).
Proof. intros Hon. unfold checker.checkPackageName. switched_on. Qed.

Lemma checkFunction_switchedOn c fn filePath :
  Forall (switchedOn (checker.config c)) (checker.checkFunction c fn filePath).
Proof.
  unfold checker.checkFunction. repeat (apply Forall_app; split).
  - unfold checker.checkFunction_exportedName. switched_on.
  - unfold checker.checkFunction_lines. switched_on.
  - unfold checker.checkFunction_parameters. switched_on.
  - unfold checker.checkFunction_results. switched_on.
  - unfold checker.checkFunction_nesting. switched_on.
Qed.

Lemma checkGenDecl_switchedOn c gd filePath :
  Forall (switchedOn (checker.config c)) (checker.checkGenDecl c gd filePath).
Proof.
  unfold checker.checkGenDecl. destruct (ast.GenDecl_Tok gd); [|constructor].
  apply Forall_flat_map, Forall_forall. intros spec _.
  destruct spec as [names type|]; [|constructor].
  apply Forall_flat_map, Forall_forall. intros name _.
  unfold checker.checkErrorVarName. switched_on.
Qed.

Lemma checkStructTags_switchedOn c fields structName filePath :
  StructTagsConfig.Enabled (Config.StructTags (checker.config c)) = true ->
  Forall (switchedOn (checker.config c))
         (checker.checkStructTags c fields structName filePath).
Proof.
  intros Hon. unfold checker.checkStructTags. destruct fields as [fields|]; [|constructor].
  apply Forall_flat_map, Forall_forall. intros field _.
  unfold checker.checkJSONTag, checker.checkValidationTag. switched_on.
Qed.

Lemma checkTypeSpec_switchedOn c ts filePath :
  Forall (switchedOn (checker.config c)) (checker.checkTypeSpec c ts filePath).
Proof.
  unfold checker.checkTypeSpec. apply Forall_app. split.
  - switched_on.
  - destruct (ast.TypeSpec_Type ts); try constructor.
    destruct (StructTagsConfig.Enabled _) eqn:Hon; [|constructor].
    by apply checkStructTags_switchedOn.
Qed.

Lemma checkAssignment_switchedOn c a filePath :
  Forall (switchedOn (checker.config c)) (checker.checkAssignment c a filePath).
Proof.
  unfold checker.checkAssignment. destruct (_ || _) eqn:Hon; [constructor|].
  generalize 0%nat. induction (ast.AssignStmt_Lhs a) as [|e lhs IH]; intros i; [constructor|].
  simpl. apply Forall_app. split; [|apply IH]. clear IH. switched_on.
Qed.

Lemma checkCallExpr_switchedOn c callFun pos filePath :
  Forall (switchedOn (checker.config c)) (checker.checkCallExpr c callFun pos filePath).
Proof. unfold checker.checkCallExpr. switched_on. Qed.

Lemma checkCustomRules_switchedOn c filePath :
  Forall (switchedOn (checker.config c)) (checker.checkCustomRules c filePath).
Proof.
  unfold checker.checkCustomRules. apply Forall_flat_map, Forall_forall. intros rule Hrule.
  unfold checker.checkCustomRule.
  destruct (negb _) eqn:Hon; [constructor|]. apply negb_false_iff in Hon.
  destruct (existsb _ _); [constructor|].
  destruct (regexp.Compile _) as [pattern|]; [|constructor].
  eapply Forall_impl; [apply customLines_fields|].
  intros v (_ & Hname & Hcategory). unfold switchedOn. rewrite decide_True by done.
  by exists rule.
Qed.

Lemma checkDirectory_switchedOn w c targetDir :
  DirectoryConfig.Enabled (Config.Directory (checker.config c)) = true ->
  Forall (switchedOn (checker.config c)) (checker.checkDirectory w c targetDir).
Proof.
  intros Hon. unfold checker.checkDirectory. apply Forall_app. split.
  - destruct (BaseRule.Enabled _) eqn:Hrule; [|constructor].
    apply Forall_flat_map, Forall_forall. intros dir _. switched_on.
  - destruct (BaseRule.Enabled _) eqn:Hrule; [|constructor].
    apply Forall_flat_map, Forall_forall. intros dir _. switched_on.
Qed.

Lemma inspect_switchedOn c filePath n :
  Forall (switchedOn (checker.config c)) (checker.inspect c filePath n).
Proof.
  destruct n; simpl; [apply checkFunction_switchedOn|apply checkGenDecl_switchedOn
    |apply checkTypeSpec_switchedOn|apply checkAssignment_switchedOn
    |apply checkCallExpr_switchedOn|constructor].
Qed.

(** The checker keeps its configuration, and the findings of its report
    are switched on. *)
Definition allSwitchedOn (cfg : Config.t) (c : checker.Checker) : Prop :=
  checker.config c = cfg
  /\ Forall (switchedOn cfg) (report.Violations (checker.report c)).

Lemma addViolations_switchedOn cfg c vs :
  Forall (switchedOn (checker.config c)) vs ->
  allSwitchedOn cfg c -> allSwitchedOn cfg (checker.addViolations c vs).
Proof.
  intros Hvs [Hcfg Hc]. split; [done|]. simpl.
  rewrite fold_AddViolation_Violations. apply Forall_app. split; [exact Hc|].
  by rewrite <- Hcfg.
Qed.

Lemma checkFile_switchedOn cfg w c filePath :
  allSwitchedOn cfg c -> allSwitchedOn cfg (checker.checkFile w c filePath).1.
Proof.
  intros Hc. unfold checker.checkFile.
  destruct (os.ReadFileLines w filePath) as [lines|]; [|done].
  destruct (os.ParseFile w filePath) as [file|]; [|done]. simpl.
  set (c0 := checker.setFileMap c _).
  assert (Hc0 : allSwitchedOn cfg c0) by done.
  set (c1 := if _ && _ then _ else c0).
  assert (Hc1 : allSwitchedOn cfg c1).
  { unfold c1. destruct (_ && _) eqn:Hon; [|exact Hc0].
    apply addViolations_switchedOn; [|done]. by apply checkFileName_switchedOn. }
  assert (Hcfg1 : checker.config c1 = checker.config c).
  { unfold c1. by destruct (_ && _). }
  clearbody c1.
  set (c2 := if _ && _ then _ else c1).
  assert (Hc2 : allSwitchedOn cfg c2).
  { unfold c2. destruct (_ && _) eqn:Hon; [|exact Hc1].
    apply addViolations_switchedOn; [|done]. apply checkPackageName_switchedOn.
    by rewrite Hcfg1. }
  clearbody c2. clear Hc0 Hc1 Hcfg1.
  revert c2 Hc2. induction (ast.File_Nodes file) as [|n nodes IH]; intros c2 Hc2; [done|].
  simpl. apply IH. apply addViolations_switchedOn; [|done]. apply inspect_switchedOn.
Qed.

Lemma checkFiles_switchedOn cfg w goFiles c :
  allSwitchedOn cfg c -> allSwitchedOn cfg (checker.checkFiles w c goFiles).
Proof.
  unfold checker.checkFiles. revert c.
  induction goFiles as [|filePath goFiles IH]; intros c Hc; [done|].
  simpl. pose proof (checkFile_switchedOn cfg w c filePath Hc) as Hf.
  destruct (checker.checkFile w c filePath) as [c' [err|]]; simpl in Hf.
  - exact (IH (checker.printf c' _) Hf).
  - exact (IH c' Hf).
Qed.

Lemma checkAllCustomRules_switchedOn cfg goFiles c :
  allSwitchedOn cfg c -> allSwitchedOn cfg (checker.checkAllCustomRules c goFiles).
Proof.
  unfold checker.checkAllCustomRules. revert c.
  induction goFiles as [|filePath goFiles IH]; intros c Hc; [done|].
  simpl. apply IH. apply addViolations_switchedOn; [|done].
  apply checkCustomRules_switchedOn.
Qed.

Context `{sort.Sorter}.

(** X28: a run reports nothing for what is switched off.  Every finding
    of the report that [Check] returns is a finding of a built-in rule
    whose switch and whose category switch are on in the configuration,
    or a finding of an enabled custom rule of the configuration. *)
Theorem Check_switched_off (w : os.World) (c : checker.Checker) (targetDir : string)
    (r : report.Report) :
  snd (checker.Check w c targetDir) = os.Ok r ->
  Forall (switchedOn (checker.config c)) (report.Violations r).
Proof.
  unfold checker.Check.
  destruct (os.GoFiles w targetDir) as [goFiles|]; [|done]. simpl.
  set (c0 := checker.setReport c (report.NewReport targetDir)).
  set (c1 := if rules.DirectoryConfig.Enabled _ then _ else c0).
  set (c2 := checker.setReport c1 _).
  intros [= <-]. rewrite Finalize_Violations_perm.
  assert (Hc0 : allSwitchedOn (checker.config c) c0) by (split; [done|constructor]).
  assert (Hc1 : allSwitchedOn (checker.config c) c1).
  { unfold c1. destruct (rules.DirectoryConfig.Enabled _) eqn:Hon; [|exact Hc0].
    apply addViolations_switchedOn; [|done]. by apply checkDirectory_switchedOn. }
  assert (Hc2 : allSwitchedOn (checker.config c) c2).
  { destruct Hc1 as [Hcfg Hall]. by split. }
  apply checkAllCustomRules_switchedOn, checkFiles_switchedOn. exact Hc2.
Qed.

End SwitchedOff.

(** ** The new properties on concrete inputs *)

(** A report of an error, a warning and a note, behind the address 1. *)
Definition threeLevels : report.Report :=
  reportOf "proj"
    [tooManyParameters;
     finding "b.go" 1 "file_name" "naming" rules.SeverityInfo;
     finding "a.go" 7 "no_ignored_errors" "error_handling" rules.SeverityError].

Definition threeLevelsHeap : report.heap := {[ 1%positive := threeLevels ]}.

(** X11, on that report, filtered at [info]. *)
Lemma Filter_keeps_all_witness :
  threeLevelsHeap !! 1%positive = Some threeLevels
  /\ rules.SeverityInfo <> rules.SeverityError
  /\ rules.SeverityInfo <> rules.SeverityWarning
  /\ exists (filtered : positive) (out : report.Report) (h' : report.heap),
       @report.Filter insertionSorter threeLevelsHeap 1%positive rules.SeverityInfo
       = Some (filtered, h')
       /\ h' !! filtered = Some out
       /\ report.Violations out ≡ₚ report.Violations threeLevels
       /\ report.TotalViolations (report.Summary_ out) = 3.
Proof.
  assert (Hsrc : threeLevelsHeap !! 1%positive = Some threeLevels) by reflexivity.
  assert (He : rules.SeverityInfo <> rules.SeverityError) by discriminate.
  assert (Hw : rules.SeverityInfo <> rules.SeverityWarning) by discriminate.
  split; [exact Hsrc|]. split; [exact He|]. split; [exact Hw|].
  exact (@Filter_keeps_all insertionSorter threeLevelsHeap 1%positive threeLevels
           rules.SeverityInfo Hsrc He Hw).
Defined.

(** X12, on that report, filtered at [warning] and then at [info]: the
    note that the first filter dropped stays dropped. *)
Lemma Filter_twice_witness :
  threeLevelsHeap !! 1%positive = Some threeLevels
  /\ exists (p1 p2 : positive) (h1 h2 : report.heap) (out1 out2 : report.Report),
       @report.Filter insertionSorter threeLevelsHeap 1%positive rules.SeverityWarning
       = Some (p1, h1)
       /\ @report.Filter insertionSorter h1 p1 rules.SeverityInfo = Some (p2, h2)
       /\ h2 !! p2 = Some out2
       /\ report.Violations out2
          ≡ₚ retained rules.SeverityWarning (report.Violations threeLevels).
Proof.
  assert (Hsrc : threeLevelsHeap !! 1%positive = Some threeLevels) by reflexivity.
  split; [exact Hsrc|].
  destruct (@Filter_twice insertionSorter threeLevelsHeap 1%positive threeLevels
              rules.SeverityWarning rules.SeverityInfo Hsrc)
    as (p1 & p2 & h1 & h2 & out1 & out2 & HF1 & HF2 & _ & _ & Hout2 & _ & _ & Hp & _).
  exists p1, p2, h1, h2, out1, out2. repeat split; assumption.
Defined.

(** X13, on that report, filtered at [info]: the exit status is 1. *)
Lemma Filter_ExitCode_witness :
  threeLevelsHeap !! 1%positive = Some threeLevels
  /\ Go.len (report.Violations threeLevels) <= Go.maxInt
  /\ exists (filtered : positive) (out : report.Report) (h' : report.heap),
       @report.Filter insertionSorter threeLevelsHeap 1%positive rules.SeverityInfo
       = Some (filtered, h')
       /\ h' !! filtered = Some out
       /\ report.ExitCode out = 1.
Proof.
  assert (Hsrc : threeLevelsHeap !! 1%positive = Some threeLevels) by reflexivity.
  assert (Hlen : Go.len (report.Violations threeLevels) <= Go.maxInt)
    by (vm_compute; discriminate).
  split; [exact Hsrc|]. split; [exact Hlen|].
  destruct (@Filter_ExitCode insertionSorter threeLevelsHeap 1%positive threeLevels
              rules.SeverityInfo Hsrc Hlen) as (filtered & out & h' & HF & Hout & Hone & _).
  exists filtered, out, h'. split; [exact HF|]. split; [exact Hout|].
  apply Hone.
  exists (finding "a.go" 7 "no_ignored_errors" "error_handling" rules.SeverityError).
  split; [|reflexivity]. apply list_elem_of_In. right. right. left. reflexivity.
Defined.

(** The default configuration with the [error_var] rule on a pattern
    without metacharacters. *)
Definition errorVarChecker : checker.Checker :=
  let naming := rules.NamingConfig.Rules (rules.Config.Naming rules.DefaultConfig) in
  checker.NewChecker
    {| rules.Config.Naming :=
         {| rules.NamingConfig.Enabled := true;
            rules.NamingConfig.Rules :=
              {| rules.NamingRulesConfig.PackageName :=
                   rules.NamingRulesConfig.PackageName naming;
                 rules.NamingRulesConfig.ExportedNames :=
                   rules.NamingRulesConfig.ExportedNames naming;
                 rules.NamingRulesConfig.FileName := rules.NamingRulesConfig.FileName naming;
                 rules.NamingRulesConfig.InterfaceName :=
                   rules.NamingRulesConfig.InterfaceName naming;
                 rules.NamingRulesConfig.ErrorVar :=
                   {| rules.PatternRule.Base := rules.baseRule true "warning" "";
                      rules.PatternRule.Pattern := "Err" |}
              |} |};
       rules.Config.Structure := rules.Config.Structure rules.DefaultConfig;
       rules.Config.ErrorHandling := rules.Config.ErrorHandling rules.DefaultConfig;
       rules.Config.Logging := rules.Config.Logging rules.DefaultConfig;
       rules.Config.Directory := rules.Config.Directory rules.DefaultConfig;
       rules.Config.StructTags := rules.Config.StructTags rules.DefaultConfig;
       rules.Config.CustomRules := [] |}.

(** [var NotFound = errors.New(...)] *)
Definition untypedSentinel : ast.GenDecl :=
  {| ast.GenDecl_Tok := ast.VAR;
     ast.GenDecl_Specs :=
       [ast.ValueSpec [("NotFound", {| token.Line := 5; token.Column := 5 |})] None] |}.

(** X16, on that declaration: the name does not match the pattern and
    is not reported. *)
Lemma checkGenDecl_needs_error_type_witness :
  (ast.GenDecl_Tok untypedSentinel <> ast.VAR
   \/ Forall (fun spec => declaresError spec = false) (ast.GenDecl_Specs untypedSentinel))
  /\ @checker.checkGenDecl literalEngine latin1Tables errorVarChecker untypedSentinel "a.go"
     = [].
Proof.
  assert (Hspecs : ast.GenDecl_Tok untypedSentinel <> ast.VAR
                   \/ Forall (fun spec => declaresError spec = false)
                             (ast.GenDecl_Specs untypedSentinel)).
  { right. repeat constructor. }
  split; [exact Hspecs|].
  exact (@checkGenDecl_needs_error_type literalEngine latin1Tables errorVarChecker
           untypedSentinel "a.go" Hspecs).
Defined.

(** [var ErrNotFound, NotFound, errInternal error] *)
Definition threeSentinels : list (string * token.Position) :=
  [("ErrNotFound", {| token.Line := 5; token.Column := 5 |});
   ("NotFound", {| token.Line := 5; token.Column := 18 |});
   ("errInternal", {| token.Line := 5; token.Column := 28 |})].

(** X17, on that declaration: the second name is reported, the first
    matches the pattern and the third is not exported. *)
Lemma checkGenDecl_error_vars_witness :
  let naming := rules.Config.Naming (checker.config errorVarChecker) in
  let rule := rules.NamingRulesConfig.ErrorVar (rules.NamingConfig.Rules naming) in
  rules.NamingConfig.Enabled naming = true
  /\ rules.BaseRule.Enabled (rules.PatternRule.Base rule) = true
  /\ literalCompile (rules.PatternRule.Pattern rule) = Some (Literal "Err")
  /\ (fun v => (report.Line v, report.Column v))
       <$> @checker.checkGenDecl literalEngine latin1Tables errorVarChecker
             {| ast.GenDecl_Tok := ast.VAR;
                ast.GenDecl_Specs :=
                  [ast.ValueSpec threeSentinels
                     (Some (ast.Ident "error" {| token.Line := 5; token.Column := 40 |}))] |}
             "a.go"
     = [(5, 18)].
Proof.
  intros naming rule.
  assert (Hnaming : rules.NamingConfig.Enabled naming = true) by reflexivity.
  assert (Hrule : rules.BaseRule.Enabled (rules.PatternRule.Base rule) = true) by reflexivity.
  assert (Hpattern : literalCompile (rules.PatternRule.Pattern rule) = Some (Literal "Err"))
    by reflexivity.
  split; [exact Hnaming|]. split; [exact Hrule|]. split; [exact Hpattern|].
  rewrite (@checkGenDecl_error_vars literalEngine latin1Tables errorVarChecker threeSentinels
             {| token.Line := 5; token.Column := 40 |} "a.go" (Literal "Err")
             Hnaming Hrule Hpattern).
  reflexivity.
Defined.

(** [v, _ := os.Open(name)] *)
Definition secondResultDiscarded : ast.AssignStmt :=
  let pos := {| token.Line := 9; token.Column := 2 |} in
  {| ast.AssignStmt_Lhs := [ast.Ident "v" pos; ast.Ident "_" pos];
     ast.AssignStmt_Rhs :=
       [ast.CallExpr (ast.SelectorExpr (ast.Ident "os" pos) "Open") pos];
     ast.AssignStmt_Pos := pos |}.

(** X18, on that assignment, under the default configuration. *)
Lemma checkAssignment_single_call_witness :
  let pos := {| token.Line := 9; token.Column := 2 |} in
  ast.AssignStmt_Lhs secondResultDiscarded = [ast.Ident "v" pos; ast.Ident "_" pos]
  /\ ast.AssignStmt_Rhs secondResultDiscarded
     = [ast.CallExpr (ast.SelectorExpr (ast.Ident "os" pos) "Open") pos]
  /\ isBlank (ast.Ident "v" pos) = false
  /\ @checker.checkAssignment literalEngine defaultChecker secondResultDiscarded "a.go" = [].
Proof.
  intros pos.
  assert (Hlhs : ast.AssignStmt_Lhs secondResultDiscarded
                 = [ast.Ident "v" pos; ast.Ident "_" pos]) by reflexivity.
  assert (Hrhs : ast.AssignStmt_Rhs secondResultDiscarded
                 = [ast.CallExpr (ast.SelectorExpr (ast.Ident "os" pos) "Open") pos])
    by reflexivity.
  assert (Hblank : isBlank (ast.Ident "v" pos) = false) by reflexivity.
  split; [exact Hlhs|]. split; [exact Hrhs|]. split; [exact Hblank|].
  exact (@checkAssignment_single_call literalEngine defaultChecker secondResultDiscarded
           "a.go" _ _ _ Hlhs Hrhs Hblank).
Defined.

(** X22, on the run over the directory whose only file does not
    parse. *)
Lemma Check_findings_witness :
  os.GoFiles unparsable "." = os.Ok ["a.go"]
  /\ exists r : report.Report,
       snd (@checker.Check literalEngine latin1Tables slashPaths insertionSorter unparsable
              (checker.NewChecker (withCustomRules rules.DefaultConfig [todoRule])) ".")
       = os.Ok r
       /\ Forall (fun v => report.File v ∈ ["."; "a.go"]
                           /\ report.Severity v ∈ severities
                           /\ report.Category v ∈ categories)
                 (report.Violations r).
Proof.
  assert (Hfiles : os.GoFiles unparsable "." = os.Ok ["a.go"]) by reflexivity.
  split; [exact Hfiles|].
  destruct (@Check_findings literalEngine latin1Tables slashPaths insertionSorter unparsable
              (checker.NewChecker (withCustomRules rules.DefaultConfig [todoRule])) "."
              ["a.go"] Hfiles) as (r & Hr & Hall & _).
  exists r. split; [exact Hr|exact Hall].
Defined.

(** [Rel] for a target path below the base path, both clean. *)
Definition slashRel (basepath targpath : string) : string :=
  if decide (targpath = basepath) then "."
  else checker.TrimPrefix targpath (basepath +:+ "/").

Definition slashRelative : filepath.Relative := {| filepath.Rel := slashRel |}.

(** The tree
    [proj/.git/config.go], [proj/main.go], [proj/main_test.go],
    [proj/notes.txt], [proj/vendor/lib/y.go], [proj/vendor/x.go]. *)
Definition projTree : fs.Entry :=
  fs.Dir "proj"
    (os.Ok [fs.Dir ".git" (os.Ok [fs.File "config.go"]);
            fs.File "main.go";
            fs.File "main_test.go";
            fs.File "notes.txt";
            fs.Dir "vendor" (os.Ok [fs.Dir "lib" (os.Ok [fs.File "y.go"]);
                                    fs.File "x.go"])]).

(** X24, on that tree under the default settings, walked from the
    target [proj]: the pattern [vendor/*] excludes the files of [vendor],
    and not those of the directories below it, whose paths relative to
    the target have a further separator. *)
Lemma collectGoFiles_readable_witness :
  errorsOf projTree = []
  /\ @checker.collectGoFiles slashPaths slashRelative rules.DefaultSettings "proj" projTree
     = Some (["proj/main.go"; "proj/vendor/lib/y.go"], None).
Proof.
  assert (Herr : errorsOf projTree = []) by reflexivity.
  split; [exact Herr|].
  rewrite (@collectGoFiles_readable slashPaths slashRelative rules.DefaultSettings "proj"
             projTree Herr).
  reflexivity.
Defined.

(** X25, on [UserID]. *)
Lemma toSnakeCase_ASCII_witness :
  Forall (fun b => b < 128) (utf8.bytes "UserID")
  /\ @checker.toSnakeCase latin1Tables "UserID" = "user_i_d".
Proof.
  assert (Hascii : Forall (fun b => b < 128) (utf8.bytes "UserID"))
    by (repeat constructor).
  split; [exact Hascii|].
  destruct (@toSnakeCase_ASCII latin1Tables "UserID" Hascii) as [-> _].
  reflexivity.
Defined.

(** X26, on the text of a finalized report with an error. *)
Lemma ToText_verdict_witness :
  let r := @report.Finalize insertionSorter threeLevels in
  report.Violations r <> []
  /\ exists (body : list string) (verdict rule : string),
       report.textWrites asciiTrimSpace (map_to_list (report.ByCategory (report.Summary_ r))) r
       = body ++ [verdict; rule]
       /\ verdict = failedLine.
Proof.
  intros r.
  assert (Hne : report.Violations r <> []) by discriminate.
  split; [exact Hne|].
  destruct (ToText_verdict asciiTrimSpace
              (map_to_list (report.ByCategory (report.Summary_ r))) r Hne)
    as (body & verdict & rule & Hw & _ & Hfailed & _).
  exists body, verdict, rule. split; [exact Hw|]. apply Hfailed. reflexivity.
Defined.

(** X28, on the run over the directory whose only file does not parse:
    its findings are those of the custom rule. *)
Lemma Check_switched_off_witness :
  snd todoRun = os.Ok todoReport
  /\ Forall (switchedOn (withCustomRules rules.DefaultConfig [todoRule]))
            (report.Violations todoReport).
Proof.
  assert (Hrun : snd todoRun = os.Ok todoReport) by reflexivity.
  split; [exact Hrun|].
  exact (@Check_switched_off literalEngine latin1Tables slashPaths insertionSorter unparsable
           (checker.NewChecker (withCustomRules rules.DefaultConfig [todoRule])) "."
           todoReport Hrun).
Defined.

(** ** JSON tags *)

Section JSONTags.
Context `{regexp.Engine} `{unicode.Tables} `{filepath.Lib}.

Import rules.

(** X29: the [json_tag] rule reports a tag at most once, and never when
    the tag has no [json] key, when the name before the first comma is
    [-] or empty, or when the configured style is neither [snake_case]
    nor [camelCase].  Under [camelCase] only the first byte of the name
    is read: a name that starts with a lower case ASCII letter passes,
    whatever follows ([user_name] does). *)
Theorem checkJSONTag_styles (c : checker.Checker) (tagValue structName filePath : string)
    (pos : token.Position) :
  let rule := StructTagsRulesConfig.JSONTag
                (StructTagsConfig.Rules (Config.StructTags (checker.config c))) in
  let found := checker.checkJSONTag c tagValue structName filePath pos in
  (length found <= 1)%nat
  /\ ((length (regexp.FindStringSubmatch regexp.jsonTagRe tagValue) < 2)%nat -> found = [])
  /\ (JSONTagRule.Style rule <> "snake_case" -> JSONTagRule.Style rule <> "camelCase" ->
      found = [])
  /\ (forall whole group rest,
        regexp.FindStringSubmatch regexp.jsonTagRe tagValue = whole :: group :: rest ->
        (checker.beforeComma group = "-" \/ checker.beforeComma group = "" -> found = [])
        /\ (JSONTagRule.Style rule = "camelCase" ->
            forall first name,
              checker.beforeComma group = String first name ->
              97 <= checker.byte first <= 122 ->
              found = [])).
Proof.
  intros rule found. unfold found, checker.checkJSONTag. fold rule.
  destruct (regexp.FindStringSubmatch regexp.jsonTagRe tagValue) as [|whole [|group rest]].
  { split; [simpl; lia|]. split; [done|]. split; [done|]. by intros. }
  { split; [simpl; lia|]. split; [done|]. split; [done|]. by intros. }
  cbv zeta.
  destruct (decide (checker.beforeComma group = "-")) as [Hdash|Hdash].
  { split; [simpl; lia|]. split; [done|]. split; [done|]. by intros. }
  destruct (decide (checker.beforeComma group = "")) as [Hempty|Hempty].
  { split; [simpl; lia|]. split; [done|]. split; [done|]. by intros. }
  split; [|split; [|split]].
  - destruct (negb _); simpl; lia.
  - simpl. lia.
  - intros Hsnake Hcamel. by rewrite !decide_False.
  - intros ??? [= _ <- _]. split; [by intros [?|?]|].
    intros Hcamel first name Hname Hfirst.
    rewrite (decide_False (P := JSONTagRule.Style rule = "snake_case"))
      by (rewrite Hcamel; discriminate).
    rewrite decide_True by done. rewrite Hname. unfold checker.isCamelCase.
    destruct (Z.ltb_spec (checker.byte first) 97); [lia|].
    destruct (Z.gtb_spec (checker.byte first) 122); [lia|]. done.
Qed.

End JSONTags.

(** ** What a run prints *)

(** The warning that [Check] prints for a file whose check fails. *)
Definition warning (filePath err : string) : string :=
  "Warning: failed to check " +:+ filePath +:+ ": " +:+ err +:+ checker.newline.

(** The warnings for a file: one when it cannot be read or does not
    parse, none otherwise. *)
Definition warningsFor (w : os.World) (filePath : string) : list string :=
  match os.ReadFileLines w filePath with
  | os.Err err => [warning filePath err]
  | os.Ok _ =>
      match os.ParseFile w filePath with
      | os.Err err => [warning filePath ("parse error: " +:+ err)]
      | os.Ok _ => []
      end
  end.

Section Output.
Context `{regexp.Engine} `{unicode.Tables} `{filepath.Lib}.

Lemma checkFile_stdout w c filePath :
  checker.stdout (checker.checkFile w c filePath).1 = checker.stdout c.
Proof.
  unfold checker.checkFile.
  destruct (os.ReadFileLines w filePath) as [lines|]; [|done].
  destruct (os.ParseFile w filePath) as [file|]; [|done]. simpl.
  set (c0 := checker.setFileMap c _).
  set (c1 := if _ && _ then _ else c0).
  set (c2 := if _ && _ then _ else c1).
  assert (Hc1 : checker.stdout c1 = checker.stdout c).
  { unfold c1. by destruct (_ && _). }
  assert (Hc2 : checker.stdout c2 = checker.stdout c).
  { unfold c2. clearbody c1. by destruct (_ && _). }
  clearbody c2. clear Hc1.
  revert c2 Hc2. induction (ast.File_Nodes file) as [|n nodes IH]; intros c2 Hc2; [done|].
  simpl. by apply IH.
Qed.

Lemma checkFile_error w c filePath :
  match (checker.checkFile w c filePath).2 with
  | Some err => warningsFor w filePath = [warning filePath err]
  | None => warningsFor w filePath = []
  end.
Proof.
  unfold checker.checkFile, warningsFor.
  destruct (os.ReadFileLines w filePath) as [lines|]; [|done].
  by destruct (os.ParseFile w filePath) as [file|].
Qed.

Lemma checkFiles_stdout w goFiles c :
  checker.stdout (checker.checkFiles w c goFiles)
  = checker.stdout c ++ flat_map (warningsFor w) goFiles.
Proof.
  unfold checker.checkFiles. revert c.
  induction goFiles as [|filePath goFiles IH]; intros c; simpl; [by rewrite app_nil_r|].
  pose proof (checkFile_stdout w c filePath) as Hout.
  pose proof (checkFile_error w c filePath) as Herr.
  destruct (checker.checkFile w c filePath) as [c' [err|]]; simpl in Hout, Herr;
    rewrite IH, Herr; simpl; rewrite Hout; [by rewrite <- app_assoc|done].
Qed.

Lemma checkAllCustomRules_stdout goFiles c :
  checker.stdout (checker.checkAllCustomRules c goFiles) = checker.stdout c.
Proof.
  unfold checker.checkAllCustomRules. revert c.
  induction goFiles as [|filePath goFiles IH]; intros c; [done|]. simpl. by rewrite IH.
Qed.

Context `{sort.Sorter}.

(** X30: what [Check] prints.  It prints one warning for each collected
    file that cannot be read or does not parse, in the order of the
    files, and nothing else: no rule prints, and a run whose walk fails
    prints nothing. *)
Theorem Check_stdout (w : os.World) (c : checker.Checker) (targetDir : string) :
  checker.stdout (fst (checker.Check w c targetDir))
  = checker.stdout c
    ++ match os.GoFiles w targetDir with
       | os.Ok goFiles => flat_map (warningsFor w) goFiles
       | os.Err _ => []
       end.
Proof.
  unfold checker.Check.
  set (c0 := checker.setReport c (report.NewReport targetDir)).
  set (c1 := if rules.DirectoryConfig.Enabled _ then _ else c0).
  assert (Hc1 : checker.stdout c1 = checker.stdout c).
  { unfold c1. by destruct (rules.DirectoryConfig.Enabled _). }
  clearbody c1.
  destruct (os.GoFiles w targetDir) as [goFiles|]; simpl; [|by rewrite app_nil_r].
  rewrite checkAllCustomRules_stdout, checkFiles_stdout. simpl. by rewrite Hc1.
Qed.

End Output.

(** ** Files that cannot be read *)

(** Nothing is known of [filePath]: the line cache holds no entry for
    it, and no finding of the report is on it. *)
Definition silentOn (filePath : string) (c : checker.Checker) : Prop :=
  checker.fileMap c !! filePath = None
  /\ Forall (fun v => report.File v <> filePath) (report.Violations (checker.report c)).

Section UnreadableFile.
Context `{regexp.Engine} `{unicode.Tables} `{filepath.Lib}.

Lemma addViolations_silentOn filePath other c vs :
  other <> filePath -> Forall (findingOn other) vs ->
  silentOn filePath c -> silentOn filePath (checker.addViolations c vs).
Proof.
  intros Hne Hvs [Hmap Hc]. split; [done|]. simpl.
  rewrite fold_AddViolation_Violations. apply Forall_app. split; [exact Hc|].
  eapply Forall_impl; [exact Hvs|]. intros v (Hfile & _). by rewrite Hfile.
Qed.

Lemma checkFile_silentOn w c filePath err other :
  os.ReadFileLines w filePath = os.Err err ->
  silentOn filePath c -> silentOn filePath (checker.checkFile w c other).1.
Proof.
  intros Hread Hc.
  destruct (decide (other = filePath)) as [->|Hne].
  { by rewrite (checkFile_read_failure w c filePath err Hread). }
  unfold checker.checkFile.
  destruct (os.ReadFileLines w other) as [lines|]; [|done].
  assert (Hc0 : silentOn filePath
                  (checker.setFileMap c (<[other := lines]> (checker.fileMap c)))).
  { destruct Hc as [Hmap Hc]. split; [|done]. simpl. by rewrite lookup_insert_ne. }
  destruct (os.ParseFile w other) as [file|]; [|done]. simpl.
  set (c0 := checker.setFileMap c _) in *.
  set (c1 := if _ && _ then _ else c0).
  assert (Hc1 : silentOn filePath c1).
  { unfold c1. destruct (_ && _); [|exact Hc0].
    apply (addViolations_silentOn filePath other); [done| |done].
    apply checkFileName_findingOn. }
  clearbody c1.
  set (c2 := if _ && _ then _ else c1).
  assert (Hc2 : silentOn filePath c2).
  { unfold c2. destruct (_ && _); [|exact Hc1].
    apply (addViolations_silentOn filePath other); [done| |done].
    apply checkPackageName_findingOn. }
  clearbody c2. clear Hc1.
  revert c2 Hc2. induction (ast.File_Nodes file) as [|n nodes IH]; intros c2 Hc2; [done|].
  simpl. apply IH. apply (addViolations_silentOn filePath other); [done| |done].
  apply inspect_findingOn.
Qed.

Lemma checkFiles_silentOn w goFiles c filePath err :
  os.ReadFileLines w filePath = os.Err err ->
  silentOn filePath c -> silentOn filePath (checker.checkFiles w c goFiles).
Proof.
  intros Hread. unfold checker.checkFiles. revert c.
  induction goFiles as [|other goFiles IH]; intros c Hc; [done|].
  simpl. pose proof (checkFile_silentOn w c filePath err other Hread Hc) as Hf.
  destruct (checker.checkFile w c other) as [c' [e|]]; simpl in Hf.
  - exact (IH (checker.printf c' _) Hf).
  - exact (IH c' Hf).
Qed.

(** The custom rules read the lines of a file from the line cache: on a
    file without an entry they find nothing. *)
Lemma checkCustomRules_uncached c filePath :
  checker.fileMap c !! filePath = None -> checker.checkCustomRules c filePath = [].
Proof.
  intros Hmap. unfold checker.checkCustomRules.
  induction (rules.Config.CustomRules (checker.config c)) as [|rule customRules IH]; [done|].
  simpl. rewrite IH, app_nil_r. unfold checker.checkCustomRule. rewrite Hmap.
  destruct (negb _); [done|]. destruct (existsb _ _); [done|].
  by destruct (regexp.Compile _).
Qed.

Lemma checkAllCustomRules_silentOn goFiles c filePath :
  silentOn filePath c -> silentOn filePath (checker.checkAllCustomRules c goFiles).
Proof.
  unfold checker.checkAllCustomRules. revert c.
  induction goFiles as [|other goFiles IH]; intros c Hc; [done|].
  simpl. apply IH.
  destruct (decide (other = filePath)) as [->|Hne].
  - destruct Hc as [Hmap Hc]. rewrite (checkCustomRules_uncached c filePath Hmap).
    by split.
  - apply (addViolations_silentOn filePath other); [done| |done].
    apply checkCustomRules_findingOn.
Qed.

Context `{sort.Sorter}.

(** X7: a file that cannot be read gets no finding of any rule.  Its
    check returns the error before a rule runs, the line cache gets no
    entry for it, and the custom rules, which read the cache, find no
    line of it: the report that [Check] returns holds no finding on the
    file.  (A file that is read and does not parse keeps its custom
    findings.) *)
Theorem Check_unreadable_file (w : os.World) (c : checker.Checker)
    (targetDir filePath err : string) (r : report.Report) :
  os.ReadFileLines w filePath = os.Err err ->
  checker.fileMap c !! filePath = None ->
  filePath <> targetDir ->
  snd (checker.Check w c targetDir) = os.Ok r ->
  Forall (fun v => report.File v <> filePath) (report.Violations r).
Proof.
  intros Hread Hmap Hne. unfold checker.Check.
  destruct (os.GoFiles w targetDir) as [goFiles|]; [|done]. simpl.
  set (c0 := checker.setReport c (report.NewReport targetDir)).
  set (c1 := if rules.DirectoryConfig.Enabled _ then _ else c0).
  set (c2 := checker.setReport c1 _).
  intros [= <-]. rewrite Finalize_Violations_perm.
  assert (Hc0 : silentOn filePath c0) by (split; [done|constructor]).
  assert (Hc1 : silentOn filePath c1).
  { unfold c1. destruct (rules.DirectoryConfig.Enabled _); [|exact Hc0].
    apply (addViolations_silentOn filePath targetDir); [done| |done].
    apply checkDirectory_findingOn. }
  assert (Hc2 : silentOn filePath c2) by (destruct Hc1; by split).
  apply checkAllCustomRules_silentOn, (checkFiles_silentOn w goFiles c2 filePath err Hread).
  exact Hc2.
Qed.

End UnreadableFile.

(** A directory of two files with the same lines: [a.go] cannot be
    read, and [b.go] is read and does not parse. *)
Definition oneUnreadable : os.World :=
  {| os.IsNotExist := fun _ => false;
     os.GoFiles := fun _ => os.Ok ["a.go"; "b.go"];
     os.ReadFileLines := fun filePath =>
       if decide (filePath = "a.go") then os.Err "open a.go: permission denied"
       else os.Ok ["package main"; "// TODO fix"; "func {"];
     os.ParseFile := fun _ => os.Err "expected 'IDENT', found '{'" |}.

Definition oneUnreadableReport : report.Report :=
  match snd (@checker.Check literalEngine latin1Tables slashPaths insertionSorter oneUnreadable
               (checker.NewChecker (withCustomRules rules.DefaultConfig [todoRule])) "proj")
  with
  | os.Ok r => r
  | os.Err _ => report.NewReport ""
  end.

(** X7, on that directory with the custom rule that looks for [TODO]:
    the report holds the finding on [b.go] and none on [a.go]. *)
Lemma Check_unreadable_file_witness :
  let c := checker.NewChecker (withCustomRules rules.DefaultConfig [todoRule]) in
  os.ReadFileLines oneUnreadable "a.go" = os.Err "open a.go: permission denied"
  /\ checker.fileMap c !! "a.go" = None
  /\ "a.go" <> "proj"
  /\ snd (@checker.Check literalEngine latin1Tables slashPaths insertionSorter oneUnreadable
            c "proj")
     = os.Ok oneUnreadableReport
  /\ Forall (fun v => report.File v <> "a.go") (report.Violations oneUnreadableReport)
  /\ report.File <$> report.Violations oneUnreadableReport = ["b.go"].
Proof.
  intros c.
  assert (Hread : os.ReadFileLines oneUnreadable "a.go"
                  = os.Err "open a.go: permission denied") by reflexivity.
  assert (Hmap : checker.fileMap c !! "a.go" = None) by reflexivity.
  assert (Hne : "a.go" <> "proj") by discriminate.
  assert (Hrun : snd (@checker.Check literalEngine latin1Tables slashPaths insertionSorter
                        oneUnreadable c "proj") = os.Ok oneUnreadableReport)
    by reflexivity.
  split; [exact Hread|]. split; [exact Hmap|]. split; [exact Hne|]. split; [exact Hrun|].
  split; [|reflexivity].
  exact (@Check_unreadable_file literalEngine latin1Tables slashPaths insertionSorter
           oneUnreadable c "proj" "a.go" "open a.go: permission denied" oneUnreadableReport
           Hread Hmap Hne Hrun).
Defined.
